(** * fat32prfs: the write-interception and backup layer of [file.c]
      and the mode channel of [proc_handler.c]

    A shallow embedding of the functions [filename_backup],
    [create_backup_filename_trailing], [prfs_make_backup], [get_prfs_mode],
    [prfs_file_open] (file.c) and [get_proc_prfs_mode], [prfsproc_write]
    (proc_handler.c), with the kernel services they call modelled as a small
    host store.  [prfs_file_open] is the [open] method of the file system,
    so the files [prfs_make_backup] opens pass through it again; the model
    keeps that loop. *)

From Stdlib Require Import ZArith Lia Ascii String List Bool.
From Stdlib Require Import Strings.Byte.
From stdpp Require Import base gmap strings.

Local Open Scope Z_scope.

(** ** C characters and C strings *)

Module CStr.

(** The value of a [char] as the comparisons of the source see it.  The
    kernel is built with unsigned [char]; [schar] is the signed reading of
    the same byte, used only to show that the choice does not matter. *)
Definition char (c : ascii) : Z := Z.of_N (N_of_ascii c).

Definition schar (c : ascii) : Z :=
  if char c <? 128 then char c else char c - 256.

Definition NUL : ascii := Ascii.zero.

Definition is_nul (c : ascii) : bool := (char c =? 0).

(** A C string is the [string] of the bytes of its buffer; what C sees of
    it stops at the first NUL byte (or at the end of the [string], where
    the terminator sits). *)
Fixpoint strlen (s : string) : nat :=
  match s with
  | EmptyString => 0%nat
  | String c r => if is_nul c then 0%nat else S (strlen r)
  end.

(** The characters before the terminator: what [%s] prints. *)
Fixpoint c_str (s : string) : string :=
  match s with
  | EmptyString => EmptyString
  | String c r => if is_nul c then EmptyString else String c (c_str r)
  end.

(** [s[i]]; reading at the end of the [string] reads the terminator. *)
Definition at_ (s : string) (i : nat) : ascii :=
  match String.get i s with
  | Some c => c
  | None => NUL
  end.

Definition is_digit (c : ascii) : Prop := 48 <= char c <= 57.

Definition underscore : ascii := "_"%char.

End CStr.

Import CStr.

(** ** file.c: [filename_backup] *)

(** The body of [for (s_idx=1; s_idx<14; s_idx++)], by the number [n] of
    iterations left ([n = 14 - s_idx]); falling out of the loop reaches
    [return 1]. *)
Fixpoint filename_backup_loop (fname : string) (s_idx n : nat) : Z :=
  match n with
  | O => 1
  | S n' =>
      if char (at_ fname s_idx) <? char "0" then 0
      else if char (at_ fname s_idx) >? char "9" then 0
      else filename_backup_loop fname (S s_idx) n'
  end.

Definition filename_backup (fname : string) : Z :=
  if Z.of_nat (strlen fname) <? 15 then 0
  else if negb (char (at_ fname 0) =? char "_") then 0
  else if negb (char (at_ fname 14) =? char "_") then 0
  else filename_backup_loop fname 1 13.

(** The same function with [char] signed, as on a build without
    [-funsigned-char]. *)
Fixpoint filename_backup_loop_signed (fname : string) (s_idx n : nat) : Z :=
  match n with
  | O => 1
  | S n' =>
      if schar (at_ fname s_idx) <? schar "0" then 0
      else if schar (at_ fname s_idx) >? schar "9" then 0
      else filename_backup_loop_signed fname (S s_idx) n'
  end.

Definition filename_backup_signed (fname : string) : Z :=
  if Z.of_nat (strlen fname) <? 15 then 0
  else if negb (schar (at_ fname 0) =? schar "_") then 0
  else if negb (schar (at_ fname 14) =? schar "_") then 0
  else filename_backup_loop_signed fname 1 13.

(** The shape the specification gives to a backup name. *)
Definition BackupShape (fname : string) : Prop :=
  (15 <= strlen fname)%nat /\
  at_ fname 0 = underscore /\
  at_ fname 14 = underscore /\
  forall i : nat, (1 <= i <= 13)%nat -> is_digit (at_ fname i).

(** ** The formatting services of the kernel ([snprintf]) *)

Module Fmt.

Fixpoint str_take (n : nat) (s : string) : string :=
  match n, s with
  | O, _ => EmptyString
  | S _, EmptyString => EmptyString
  | S n', String c r => String c (str_take n' r)
  end.

(** The bytes from offset [n] on. *)
Fixpoint str_drop (n : nat) (s : string) : string :=
  match n, s with
  | O, _ => s
  | S _, EmptyString => EmptyString
  | S n', String _ r => str_drop n' r
  end.

Fixpoint zeros (k : nat) : string :=
  match k with
  | O => EmptyString
  | S k' => String "0" (zeros k')
  end.

Definition digit_char (d : Z) : ascii := ascii_of_N (Z.to_N (48 + d)).

(** The decimal digits of an unsigned number, most significant first and
    without leading zeros; [fuel] bounds the number of digits (20 are
    enough below 2^64). *)
Fixpoint utoa_loop (fuel : nat) (n : Z) (acc : string) : string :=
  match fuel with
  | O => acc
  | S fuel' =>
      let acc' := String (digit_char (n mod 10)) acc in
      if n / 10 =? 0 then acc' else utoa_loop fuel' (n / 10) acc'
  end.

Definition utoa (n : Z) : string := utoa_loop 20 n EmptyString.

(** Flag [0] with a field width: pad with zeros on the left up to [w]. *)
Definition zero_pad (w : nat) (s : string) : string :=
  (zeros (w - String.length s) +:+ s)%string.

(** The conversion to [unsigned long long] / [unsigned long] (64 bits)
    that [%llu] and [%lu] apply to their argument. *)
Definition to_u64 (v : Z) : Z := v mod 2 ^ 64.

(** [snprintf(buf, size, ...)] stores at most [size - 1] characters of
    the formatted text, then the terminator. *)
Definition snprintf (size : nat) (text : string) : string :=
  str_take (size - 1) text.

Definition fmt_015llu (v : Z) : string := zero_pad 15 (utoa (to_u64 v)).
Definition fmt_09lu (v : Z) : string := zero_pad 9 (utoa (to_u64 v)).

(** What the specification calls an n-digit zero-padded number: exactly
    [w] digits, the low-order [w] decimal digits of [n]. *)
Fixpoint fixed_dec (w : nat) (n : Z) : string :=
  match w with
  | O => EmptyString
  | S w' => (fixed_dec w' (n / 10) +:+ String (digit_char (n mod 10)) EmptyString)%string
  end.

End Fmt.

Import Fmt.

(** ** file.c: [create_backup_filename_trailing] *)

Record timespec64 := { tv_sec : Z; tv_nsec : Z }.

(** [now] is what [ktime_get_real_ts64] stores; [fname] is the content of
    the caller's buffer on entry and the result is its content on return. *)
Definition create_backup_filename_trailing
    (now : timespec64) (fname : string) (len : Z) : string :=
  if len <? 16 then fname
  else
    let stmp1 := snprintf 16 (fmt_015llu (tv_sec now)) in
    let stmp2 := snprintf 10 (fmt_09lu (tv_nsec now)) in
    snprintf 16
      (String "_"
        (String (at_ stmp1 5) (String (at_ stmp1 6) (String (at_ stmp1 7)
        (String (at_ stmp1 8) (String (at_ stmp1 9) (String (at_ stmp1 10)
        (String (at_ stmp1 11) (String (at_ stmp1 12) (String (at_ stmp1 13)
        (String (at_ stmp1 14)
        (String (at_ stmp2 0) (String (at_ stmp2 1) (String (at_ stmp2 2)
        (String "_" EmptyString))))))))))))))).

(** The destination name [fn2] of [prfs_make_backup]:
    [create_backup_filename_trailing(tme, sizeof tme)] with [char tme[20]],
    then [snprintf(fn2, sizeof fn2, "%s%s", tme, fname)] with
    [char fn2[260]]. *)
Definition backup_filename (now : timespec64) (fname : string) : string :=
  let tme := create_backup_filename_trailing now EmptyString 20 in
  snprintf 260 (c_str tme +:+ c_str fname)%string.

(** ** The host store: the kernel services the layer calls

    [filp_open], [i_size_read], [vfs_copy_file_range], [filp_close] and
    [generic_file_open] belong to the kernel, not to this repository.  They
    are modelled by their contract on a flat namespace of files: the
    directory of the file system in which the names the layer passes
    resolve.  An open file is identified by the name it was opened under. *)

Module Host.

Definition O_RDONLY : Z := 0.
Definition O_WRONLY : Z := 1.
Definition O_RDWR : Z := 2.
Definition O_CREAT : Z := 64.          (* 00000100 *)
Definition O_EXCL : Z := 128.          (* 00000200 *)
Definition O_LARGEFILE : Z := 32768.   (* 00100000 *)
Definition O_SYNC : Z := 1052672.      (* 04010000 *)
Definition FMODE_LSEEK : Z := 4.
Definition FMODE_PREAD : Z := 8.
Definition FMODE_PWRITE : Z := 16.
Definition FMODE_CREATED : Z := 1048576. (* 0x100000 *)
Definition MAX_NON_LFS : Z := 2 ^ 31 - 1.
Definition ENOENT : Z := 2.
Definition EFAULT : Z := 14.
Definition EEXIST : Z := 17.
Definition EOVERFLOW : Z := 75.

Definition has_flag (flags bit : Z) : bool := negb (Z.land flags bit =? 0).

(** How the bulk copy of the host behaves: it copies everything asked
    for, stops after [k] bytes, or fails with an error number. *)
Inductive copy_behaviour :=
| CopyAll
| CopyShort (k : nat)
| CopyFail (errno : Z).

(** The host: the files by name, the names whose open the host refuses
    (with the error number it gives: no permission, no space, ...), the
    time [ktime_get_real_ts64] reports, and the behaviour of the copy. *)
Record host := {
  files : gmap string (list byte);
  faults : gmap string Z;
  clock : timespec64;
  copier : copy_behaviour
}.

Definition set_files (h : host) (fs : gmap string (list byte)) : host :=
  {| files := fs; faults := faults h; clock := clock h; copier := copier h |}.

Definition set_copier (h : host) (b : copy_behaviour) : host :=
  {| files := files h; faults := faults h; clock := clock h; copier := b |}.

(** The fields of [struct file] and [struct inode] the layer reads. *)
Record file := { f_flags : Z; f_mode : Z; d_iname : string }.
Record inode := { i_size : Z }.

(** A [struct file *] as [filp_open] returns it: an error pointer, holding
    the negative error value (what [IS_ERR] detects), or an open file. *)
Inductive filp :=
| Err (error : Z)
| Filp (name : string).

Definition content (h : host) (name : string) : list byte :=
  default [] (files h !! name).

(** [i_size_read(f->f_inode)] *)
Definition i_size_read (h : host) (f : string) : Z :=
  Z.of_nat (length (content h f)).

(** [OPEN_FMODE(flags)]: the access mode as [FMODE_READ | FMODE_WRITE]. *)
Definition OPEN_FMODE (flags : Z) : Z := Z.land (flags + 1) 3.

Section VfsOpen.

(** The [open] method of the file system: file.c installs
    [.open = prfs_file_open] in [fat_file_operations], so every open of a
    regular file of this file system runs it, also the opens that
    [prfs_make_backup] makes through [filp_open]. *)
Variable f_op_open : host -> inode -> file -> Z * host.

(** The last step of an open: the [struct file] is set up, with
    [FMODE_CREATED] when this open created the file, and the [open] method
    decides; a non-zero result fails the open. *)
Definition do_dentry_open (h : host) (name : string) (flags : Z) (created : bool)
  : filp * host :=
  let f := {| f_flags := flags;
              f_mode := Z.lor (Z.lor (OPEN_FMODE flags)
                                 (Z.lor FMODE_LSEEK (Z.lor FMODE_PREAD FMODE_PWRITE)))
                              (if created then FMODE_CREATED else 0);
              d_iname := name |} in
  let i := {| i_size := i_size_read h name |} in
  let '(error, h') := f_op_open h i f in
  if error =? 0 then (Filp name, h') else (Err error, h').

(** [filp_open(filename, flags, mode)]: unless the host refuses the name,
    an existing file is opened, except when both [O_CREAT] and [O_EXCL]
    are asked for; a missing file is created empty under [O_CREAT], and
    stays if the open then fails; without [O_CREAT] it is an error. *)
Definition filp_open (h : host) (filename : string) (flags mode : Z)
  : filp * host :=
  let name := c_str filename in
  match faults h !! name with
  | Some errno => (Err (- errno), h)
  | None =>
      match files h !! name with
      | Some _ =>
          if has_flag flags O_CREAT && has_flag flags O_EXCL
          then (Err (- EEXIST), h)
          else do_dentry_open h name flags false
      | None =>
          if has_flag flags O_CREAT
          then do_dentry_open (set_files h (<[name := []]> (files h))) name flags true
          else (Err (- ENOENT), h)
      end
  end.

End VfsOpen.

(** Writing [chunk] at offset 0 of [old]: the bytes past the chunk stay. *)
Definition write_at_0 (chunk old : list byte) : list byte :=
  chunk ++ drop (length chunk) old.

(** [vfs_copy_file_range(src, 0, dst, 0, len, 0)]: the number of bytes
    copied, or a negative error number. *)
Definition vfs_copy_file_range (h : host) (src dst : string) (len : Z)
  : Z * host :=
  let wanted := take (Z.to_nat len) (content h src) in
  let put chunk :=
    (Z.of_nat (length chunk),
     set_files h (<[dst := write_at_0 chunk (content h dst)]> (files h))) in
  match copier h with
  | CopyAll => put wanted
  | CopyShort k => put (take k wanted)
  | CopyFail errno => (- errno, h)
  end.

Definition filp_close (h : host) (f : string) : host := h.

(** [generic_file_open] of fs/open.c. *)
Definition generic_file_open (i : inode) (f : file) : Z :=
  if negb (has_flag (f_flags f) O_LARGEFILE) && (i_size i >? MAX_NON_LFS)
  then - EOVERFLOW else 0.

(** [strncpy(dst, src, n)] into a buffer of [n] bytes. *)
Definition strncpy (n : nat) (src : string) : string := str_take n (c_str src).

End Host.

Import Host.

(** ** file.c: [file_readwrite], [file_justcreated] *)

Definition file_readwrite (f : file) : Z :=
  if Z.land (f_flags f) 3 >? 0 then 1 else 0.

Definition file_justcreated (f : file) : Z :=
  if Z.land (f_mode f) O_SYNC >? 0 then 1 else 0.

(** ** file.c: [prfs_make_backup] *)

(** [f_op_open] is the [open] method the two [filp_open] calls run. *)
Definition prfs_make_backup_with
    (f_op_open : host -> inode -> file -> Z * host) (h : host) (fname : string)
  : Z * host :=
  let fn2 := backup_filename (clock h) fname in
  match filp_open f_op_open h fname O_RDONLY 0 with
  | (Err _, h1) => (-1, h1)
  | (Filp original_filp, h1) =>
      match filp_open f_op_open h1 fn2 (Z.lor O_CREAT O_RDWR) 420 with
      | (Err _, h2) => (-1, h2)
      | (Filp copy_filp, h2) =>
          let '(_, h3) :=
            vfs_copy_file_range h2 original_filp copy_filp
              (i_size_read h2 original_filp) in
          let h4 := filp_close h3 copy_filp in
          let h5 := filp_close h4 original_filp in
          (0, h5)
      end
  end.

(** ** proc_handler.c: the mode cell *)

Definition BUFSIZE : Z := 100.

(** [proc_prfs_mode] is a C [int]. *)
Definition to_int (v : Z) : Z := (v + 2 ^ 31) mod 2 ^ 32 - 2 ^ 31.

(** [prfsproc_init]: [proc_prfs_mode = 1]. *)
Definition prfsproc_init : Z := 1.

Definition get_proc_prfs_mode (proc_prfs_mode : Z) : Z := proc_prfs_mode.

(** [sscanf(buf, "%d", &mode)] of lib/vsprintf.c: white space is skipped, a
    [-] is accepted, at least one digit is required, and the value read is
    stored into the [int]. *)
Module Scan.

Definition isspace (c : ascii) : bool :=
  let v := char c in
  (v =? 32) || ((9 <=? v) && (v <=? 13)) || (v =? 160).

Definition isdigit (c : ascii) : bool :=
  (48 <=? char c) && (char c <=? 57).

Fixpoint skip_spaces (s : string) : string :=
  match s with
  | String c r => if isspace c then skip_spaces r else s
  | EmptyString => s
  end.

Fixpoint strtoull (s : string) (acc : Z) : Z :=
  match s with
  | String c r => if isdigit c then strtoull r (acc * 10 + (char c - 48)) else acc
  | EmptyString => acc
  end.

Definition sscanf_d (buf : string) : option Z :=
  match skip_spaces (c_str buf) with
  | String c r =>
      if char c =? char "-" then
        match r with
        | String d _ => if isdigit d then Some (to_int (- strtoull r 0)) else None
        | EmptyString => None
        end
      else if isdigit c then Some (to_int (strtoull (String c r) 0))
      else None
  | EmptyString => None
  end.

End Scan.

Import Scan.

(** [prfsproc_write(file, ubuf, count, ppos)].  [ubuf] is the readable user
    memory at the pointer: [copy_from_user] fails when it holds fewer than
    [count] bytes.  [stack] is the memory at [buf] as the call finds it:
    [char buf[BUFSIZE]] is not initialised and nothing terminates it, so
    after the copy the C string at [buf] is the [count] bytes copied
    followed by what the stack held behind them, in the array and past its
    end, up to the first NUL.  [c] is an [int].  The result is the value
    returned, the mode cell and [*ppos] on return. *)
Definition prfsproc_write
    (proc_prfs_mode : Z) (stack ubuf : string) (count ppos : Z) : Z * Z * Z :=
  if (ppos >? 0) || (count >? BUFSIZE) then (- EFAULT, proc_prfs_mode, ppos)
  else if Z.of_nat (String.length ubuf) <? count then (- EFAULT, proc_prfs_mode, ppos)
  else
    let buf :=
      (str_take (Z.to_nat count) ubuf +:+ str_drop (Z.to_nat count) stack)%string in
    match sscanf_d buf with
    | None => (- EFAULT, proc_prfs_mode, ppos)
    | Some mode =>
        let c := to_int (Z.of_nat (strlen buf)) in
        (c, mode, c)
    end.

(** ** file.c: [get_prfs_mode] *)

Definition get_prfs_mode (proc_prfs_mode : Z) : Z :=
  let prfs_mode := get_proc_prfs_mode proc_prfs_mode in
  let prfs_mode := if prfs_mode <? 0 then 1 else prfs_mode in
  let prfs_mode := if prfs_mode >? 2 then 1 else prfs_mode in
  prfs_mode.

(** ** file.c: [prfs_file_open] *)

(** The label [switch (prfs_mode)] jumps to. *)
Inductive switch_case := case_0 | case_1 | case_2 | case_default.

Definition select_case (prfs_mode : Z) : switch_case :=
  if prfs_mode =? 0 then case_0
  else if prfs_mode =? 1 then case_1
  else if prfs_mode =? 2 then case_2
  else case_default.

(** The [switch (prfs_mode)] statement.  [Some r] is a [return r] taken
    inside the switch; [None] is a [break], which reaches the call of
    [generic_file_open] after it.  [make_backup] is [prfs_make_backup] as
    it runs when called from here. *)
Definition prfs_file_open_switch
    (make_backup : host -> string -> Z * host)
    (prfs_mode : Z) (h : host) (filp : file)
  : option Z * host :=
  let fn1 := strncpy 260 (d_iname filp) in
  match select_case prfs_mode with
  | case_0 =>
      if file_readwrite filp =? 1 then
        if filename_backup fn1 =? 1 then
          if file_justcreated filp =? 0 then (Some (-1), h) else (None, h)
        else
          if file_justcreated filp =? 1 then (None, h)
          else
            let '(fcres, h') := make_backup h fn1 in
            if fcres =? -1 then (Some (-1), h') else (None, h')
      else (None, h)
  | case_1 =>
      if file_readwrite filp =? 1 then (Some (-1), h) else (None, h)
  | case_2 =>
      if file_readwrite filp =? 1 then
        if filename_backup fn1 =? 0 then (Some (-1), h) else (None, h)
      else (None, h)
  | case_default => (Some (-1), h)
  end.

Definition prfs_file_open_body
    (make_backup : host -> string -> Z * host)
    (proc_prfs_mode : Z) (h : host) (i : inode) (filp : file)
  : Z * host :=
  let prfs_mode := get_prfs_mode proc_prfs_mode in
  match prfs_file_open_switch make_backup prfs_mode h filp with
  | (Some r, h') => (r, h')
  | (None, h') =>
      let rtv := generic_file_open i filp in
      (rtv, h')
  end.

(** [prfs_file_open] calls [prfs_make_backup], whose two [filp_open] calls
    run [prfs_file_open] again, on the source and on the destination.
    [prfs_file_open_n n] is [prfs_file_open] with at most [n] opens nested
    inside one another below it; past that depth a backup is taken to
    fail.  [proc_prfs_mode] is the mode cell, which every one of these
    opens reads. *)
Fixpoint prfs_file_open_n
    (n : nat) (proc_prfs_mode : Z) (h : host) (i : inode) (filp : file)
  : Z * host :=
  match n with
  | O => prfs_file_open_body (fun h _ => (-1, h)) proc_prfs_mode h i filp
  | S n' =>
      prfs_file_open_body
        (prfs_make_backup_with (prfs_file_open_n n' proc_prfs_mode))
        proc_prfs_mode h i filp
  end.

(** The nested opens are a read and a write of a backup name, neither of
    which takes a backup: they need no depth below them, and one level is
    all an open needs ([prfs_file_open_any_depth]). *)
Definition prfs_make_backup (proc_prfs_mode : Z) (h : host) (fname : string)
  : Z * host :=
  prfs_make_backup_with (prfs_file_open_n 0 proc_prfs_mode) h fname.

Definition prfs_file_open (proc_prfs_mode : Z) (h : host) (i : inode) (filp : file)
  : Z * host :=
  prfs_file_open_n 1 proc_prfs_mode h i filp.

(** ** The vocabulary of the specification *)

(** The request descriptor of the specification, read off a [struct file]. *)
Definition req_name (filp : file) : string := strncpy 260 (d_iname filp).
Definition wantsWrite (filp : file) : bool := file_readwrite filp =? 1.
Definition justCreated (filp : file) : bool := file_justcreated filp =? 1.
Definition isBackupName (name : string) : bool := filename_backup name =? 1.

(** An open that takes no backup: a read, an open of a backup name, or an
    open that created its file.  It does not depend on how backups run and
    leaves the host as it was. *)
Definition takes_no_backup (filp : file) : Prop :=
  file_readwrite filp = 0 \/
  filename_backup (strncpy 260 (d_iname filp)) = 1 \/
  file_justcreated filp = 1.

(** A [string] that holds no NUL: a C string read whole. *)
Definition nul_free (s : string) : Prop :=
  forall i : nat, (i < String.length s)%nat -> at_ s i <> NUL.

(** Every character is a decimal digit. *)
Definition all_digits (s : string) : Prop :=
  forall i : nat, (i < String.length s)%nat -> is_digit (at_ s i).

(** The prefix the specification describes for seconds [s] and
    nanoseconds [n]: an underscore, the ten low-order digits of [s], the
    milliseconds of [n], an underscore. *)
Definition spec_prefix (s n : Z) : string :=
  ("_" +:+ fixed_dec 10 (s mod 10 ^ 10) +:+ fixed_dec 3 (n / 10 ^ 6) +:+ "_")%string.

(** The decimal text of an [int], as a writer of the mode channel sends
    it ([echo 2 > /proc/prfs_mode] sends the text and a newline). *)
Definition itoa (v : Z) : string :=
  if v <? 0 then String "-" (utoa (- v)) else utoa v.

Definition newline : string := String "010" EmptyString.

Definition mode_text (v : Z) : string := (itoa v +:+ newline)%string.


(** ** Sample inputs *)

Module Sample.

Definition bytes (s : string) : list byte := list_byte_of_string s.

Definition noon : timespec64 := {| tv_sec := 1700000000; tv_nsec := 123456789 |}.

(** A host holding [report.txt] with content [A]. *)
Definition host_report : host :=
  {| files := {[ "report.txt"%string := bytes "A" ]};
     faults := ∅; clock := noon; copier := CopyAll |}.

(** The same host after a backup of [report.txt] was taken. *)
Definition host_backup : host :=
  {| files := {[ "report.txt"%string := bytes "A";
                 "_0000000000123_report.txt"%string := bytes "A" ]};
     faults := ∅; clock := noon; copier := CopyAll |}.

(** [report.txt] was rewritten to [NEW]; a backup of the same name as
    the one a backup taken at [noon] gets is already there. *)
Definition host_collision : host :=
  {| files := {[ "report.txt"%string := bytes "NEW";
                 "_1700000000123_report.txt"%string := bytes "OLDER" ]};
     faults := ∅; clock := noon; copier := CopyAll |}.

(** [report.txt] holds [ABC]; the host's copy fails with [EIO]. *)
Definition host_copy_fails : host :=
  {| files := {[ "report.txt"%string := bytes "ABC" ]};
     faults := ∅; clock := noon; copier := CopyFail 5 |}.

(** [report.txt] holds [ABC]; the host's copy stops after one byte. *)
Definition host_copy_short : host :=
  {| files := {[ "report.txt"%string := bytes "ABC" ]};
     faults := ∅; clock := noon; copier := CopyShort 1 |}.

Definition small : inode := {| i_size := 1 |}.

(** The stack under [buf] of [prfsproc_write]: zeroed, and holding seven
    bytes left by earlier calls. *)
Definition stack_clean : string := "".
Definition stack_dirty : string := "garbage".

(** A name of 250 characters. *)
Definition long_name : string := zeros 250.

(** [open("report.txt", O_WRONLY)] on an existing file. *)
Definition write_report : file :=
  {| f_flags := O_WRONLY; f_mode := 2; d_iname := "report.txt" |}.

(** [open("report.txt", O_RDONLY)]. *)
Definition read_report : file :=
  {| f_flags := O_RDONLY; f_mode := 1; d_iname := "report.txt" |}.

(** [open("new.txt", O_WRONLY|O_CREAT)] that created the file: the bit
    [file_justcreated] tests is set in [f_mode]. *)
Definition write_new : file :=
  {| f_flags := Z.lor O_WRONLY O_CREAT; f_mode := 1048578; d_iname := "new.txt" |}.

(** [open("_0000000000123_report.txt", O_RDWR)] on an existing backup. *)
Definition write_old_backup : file :=
  {| f_flags := O_RDWR; f_mode := 3; d_iname := "_0000000000123_report.txt" |}.

End Sample.

(** ** proc_handler.c: [prfsproc_read] *)

(** [ubuf_ok] tells whether the user buffer can be written, that is whether
    [copy_to_user] succeeds.  [sprintf(buf, "%d\n", proc_prfs_mode)] writes
    the decimal text of the cell and a newline.  The result is the value
    returned, the bytes stored in the user buffer (if any) and [*ppos] on
    return. *)
Definition prfsproc_read (proc_prfs_mode : Z) (ubuf_ok : bool) (count ppos : Z)
  : Z * option string * Z :=
  if (ppos >? 0) || (count <? BUFSIZE) then (0, None, ppos)
  else
    let buf := mode_text proc_prfs_mode in
    let len := 0 + Z.of_nat (String.length buf) in
    if negb ubuf_ok then (- EFAULT, None, ppos)
    else (len, Some buf, len).

(** ** file.c: [file_is_real] *)

Definition O_TRUNC : Z := 512.     (* 00001000 *)
Definition FMODE_RANDOM : Z := 4096. (* 0x1000 *)

(** [vfs_getattr] is the kernel's: [rc] is what it returns for the open
    file, 0 when it filled [stat].  The [stat] buffer is only printed, and
    its [kmalloc] is taken to succeed.
    [f_op_open] is the [open] method the [filp_open] call runs. *)
Definition file_is_real_with
    (f_op_open : host -> inode -> file -> Z * host)
    (vfs_getattr : host -> string -> Z) (h : host) (fname : string)
  : Z * host :=
  match filp_open f_op_open h fname O_RDONLY 0 with
  | (Err _, h1) => (0, h1)
  | (Filp test_filp, h1) =>
      let rc := vfs_getattr h1 test_filp in
      let h2 := filp_close h1 test_filp in
      if rc =? 0 then (0, h2) else (1, h2)
  end.

(** [file_is_real] under the mode cell the nested open reads. *)
Definition file_is_real
    (proc_prfs_mode : Z) (vfs_getattr : host -> string -> Z)
    (h : host) (fname : string) : Z * host :=
  file_is_real_with (prfs_file_open_n 0 proc_prfs_mode) vfs_getattr h fname.

(** The file opens for reading: it is there, the host does not refuse it,
    and [generic_file_open] takes its size without [O_LARGEFILE]. *)
Definition opens_for_read (h : host) (fname : string) : Prop :=
  faults h !! c_str fname = None /\
  exists data, files h !! c_str fname = Some data /\
               Z.of_nat (length data) <= MAX_NON_LFS.

(** ** file.c: [fat_sanitize_mode], [fat_allow_set_time] *)

Module FatAttr.

Definition S_IFMT : Z := 61440.   (* 00170000 *)
Definition S_IFREG : Z := 32768.  (* 0100000 *)
Definition S_IRUGO : Z := 292.    (* 0444 *)
Definition S_IWUGO : Z := 146.    (* 0222 *)
Definition S_IXUGO : Z := 73.     (* 0111 *)
Definition MAY_WRITE : Z := 2.
Definition EPERM : Z := 1.

(** The mount options and the fields of [struct msdos_sb_info] (fat.h) that
    the functions below read. *)
Record fat_mount_options := {
  fs_fmask : Z;
  fs_dmask : Z;
  allow_utime : Z
}.

Record msdos_sb_info := {
  options : fat_mount_options;
  cluster_size : Z;
  cluster_bits : Z
}.

(** [umode_t] is an [unsigned short]. *)
Definition to_umode (v : Z) : Z := v mod 2 ^ 16.

Definition S_ISREG (m : Z) : bool := Z.land m S_IFMT =? S_IFREG.

(** [i_mode] is [inode->i_mode]; [can_hold_ro] is what
    [fat_mode_can_hold_ro(inode)] of fat.h returns; [mode] is [*mode_ptr]
    on entry.  The result is the value returned and [*mode_ptr] on
    return. *)
Definition fat_sanitize_mode
    (sbi : msdos_sb_info) (i_mode : Z) (can_hold_ro : bool) (mode : Z) : Z * Z :=
  let mask :=
    if S_ISREG i_mode then fs_fmask (options sbi) else fs_dmask (options sbi) in
  let perm := to_umode (Z.land mode (Z.lnot (Z.lor S_IFMT mask))) in
  if negb (Z.land perm (Z.lor S_IRUGO S_IXUGO)
           =? Z.land i_mode (Z.lor S_IRUGO S_IXUGO))
  then (- EPERM, mode)
  else if
    (if can_hold_ro
     then negb (Z.land perm S_IWUGO =? 0)
          && negb (Z.land perm S_IWUGO =? Z.land S_IWUGO (Z.lnot mask))
     else negb (Z.land perm S_IWUGO =? Z.land S_IWUGO (Z.lnot mask)))
  then (- EPERM, mode)
  else (0, to_umode (Z.land mode (Z.lor S_IFMT perm))).

(** [is_owner] is [vfsuid_eq_kuid(i_uid_into_vfsuid(..), current_fsuid())]
    and [in_group] is [vfsgid_in_group_p(i_gid_into_vfsgid(..))]. *)
Definition fat_allow_set_time
    (sbi : msdos_sb_info) (is_owner in_group : bool) : Z :=
  let allow_utime := allow_utime (options sbi) in
  if negb is_owner then
    let allow_utime :=
      if in_group then to_umode (Z.shiftr allow_utime 3) else allow_utime in
    if negb (Z.land allow_utime MAY_WRITE =? 0) then 1 else 0
  else 0.

(** Vocabulary for the properties of [fat_sanitize_mode]: the mask it
    applies for an inode, its [perm], the mode it stores, and its two
    checks. *)
Definition mask_of (sbi : msdos_sb_info) (i_mode : Z) : Z :=
  if S_ISREG i_mode then fs_fmask (options sbi) else fs_dmask (options sbi).

Definition perm_of (mode mask : Z) : Z :=
  to_umode (Z.land mode (Z.lnot (Z.lor S_IFMT mask))).

Definition sanitized (mode mask : Z) : Z :=
  to_umode (Z.land mode (Z.lor S_IFMT (perm_of mode mask))).

Definition passes (i_mode : Z) (can_hold_ro : bool) (mask perm : Z) : bool :=
  (Z.land perm (Z.lor S_IRUGO S_IXUGO) =? Z.land i_mode (Z.lor S_IRUGO S_IXUGO))
  && ((Z.land perm S_IWUGO =? Z.land S_IWUGO (Z.lnot mask))
      || (can_hold_ro && (Z.land perm S_IWUGO =? 0))).

End FatAttr.

(** ** file.c: [fat_cont_expand], [fat_fallocate] *)

Module FatAlloc.

Import FatAttr.

Definition FALLOC_FL_KEEP_SIZE : Z := 1.
Definition EOPNOTSUPP : Z := 95.
Definition ENOSPC : Z := 28.
Definition S_MTIME : Z := 2.
Definition S_CTIME : Z := 4.

(** [loff_t] is a signed 64-bit integer, [unsigned int] has 32 bits. *)
Definition to_s64 (v : Z) : Z := (v + 2 ^ 63) mod 2 ^ 64 - 2 ^ 63.
Definition to_u32 (v : Z) : Z := v mod 2 ^ 32.

Section Kernel.

(** The state of the kernel as far as the helpers called below read and
    change it: the inode, its page cache and the FAT.  The helpers are
    those of the kernel and of the other files of the driver. *)
Variable K : Type.

Variables i_mode i_size i_blocks : K -> Z.
Variable IS_SYNC : K -> bool.
Variable inode_lock inode_unlock : K -> K.
Variable generic_cont_expand_simple : K -> Z -> Z * K.
Variable fat_truncate_time_prfs : K -> Z -> K.
Variable mark_inode_dirty : K -> K.
Variable filemap_fdatawrite_range : K -> Z -> Z -> Z * K.
Variable sync_mapping_buffers : K -> Z * K.
Variable write_inode_now : K -> Z -> Z * K.
Variable filemap_fdatawait_range : K -> Z -> Z -> Z * K.
Variable fat_add_cluster : K -> Z * K.

Definition fat_cont_expand (k : K) (size : Z) : Z * K :=
  let start := i_size k in
  let count := to_s64 (size - i_size k) in
  let '(err, k) := generic_cont_expand_simple k size in
  if negb (err =? 0) then (err, k)
  else
    let k := fat_truncate_time_prfs k (Z.lor S_CTIME S_MTIME) in
    let k := mark_inode_dirty k in
    if IS_SYNC k then
      let '(err, k) :=
        filemap_fdatawrite_range k start (to_s64 (to_s64 (start + count) - 1)) in
      let '(err2, k) := sync_mapping_buffers k in
      let err := if err =? 0 then err2 else err in
      let '(err2, k) := write_inode_now k 1 in
      let err := if err =? 0 then err2 else err in
      if err =? 0
      then filemap_fdatawait_range k start (to_s64 (to_s64 (start + count) - 1))
      else (err, k)
    else (err, k).

(** [while (nr_cluster-- > 0) { err = fat_add_cluster(inode); if (err) goto
    error; }], with the number of rounds left as the recursion argument. *)
Fixpoint add_clusters (nr_cluster : nat) (k : K) : Z * K :=
  match nr_cluster with
  | O => (0, k)
  | S n =>
      let '(err, k) := fat_add_cluster k in
      if negb (err =? 0) then (err, k) else add_clusters n k
  end.

Definition fat_fallocate
    (sbi : msdos_sb_info) (k : K) (mode offset len : Z) : Z * K :=
  if negb (Z.land mode (Z.lnot FALLOC_FL_KEEP_SIZE) =? 0) then (- EOPNOTSUPP, k)
  else if negb (S_ISREG (i_mode k)) then (- EOPNOTSUPP, k)
  else
    let k := inode_lock k in
    let '(err, k) :=
      if negb (Z.land mode FALLOC_FL_KEEP_SIZE =? 0) then
        let ondisksize := to_s64 (Z.shiftl (i_blocks k) 9) in
        if to_s64 (offset + len) <=? ondisksize then (0, k)
        else
          let mm_bytes := to_s64 (to_s64 (offset + len) - ondisksize) in
          let nr_cluster :=
            to_int (Z.shiftr (to_s64 (mm_bytes + to_u32 (cluster_size sbi - 1)))
                             (cluster_bits sbi)) in
          add_clusters (Z.to_nat nr_cluster) k
      else
        if to_s64 (offset + len) <=? i_size k then (0, k)
        else fat_cont_expand k (to_s64 (offset + len))
    in
    (err, inode_unlock k).

(** The state after [j] calls of [fat_add_cluster]. *)
Definition after (j : nat) (k : K) : K :=
  Nat.iter j (fun k => snd (fat_add_cluster k)) k.

End Kernel.

(** A helper leaves an observation of the state as it is. *)
Definition keeps {K A : Type} (obs : K -> A) (f : K -> K) : Prop :=
  forall k, obs (f k) = obs k.

Definition keeps_r {K A : Type} (obs : K -> A) (f : K -> Z * K) : Prop :=
  forall k, obs (snd (f k)) = obs k.

(** A kernel state that only counts: clusters of the inode and the depth
    of the inode lock. *)
Record counters := { clusters : Z; lock_depth : Z }.

Definition counting_add_cluster (limit : Z) (k : counters) : Z * counters :=
  if clusters k <? limit
  then (0, {| clusters := clusters k + 1; lock_depth := lock_depth k |})
  else (- ENOSPC, k).

Definition counting_fallocate
    (limit : Z) (sbi : msdos_sb_info) (k : counters) (mode offset len : Z)
    : Z * counters :=
  fat_fallocate counters
    (fun _ => S_IFREG) (fun k => clusters k * 4096) (fun k => clusters k * 8)
    (fun _ => true)
    (fun k => {| clusters := clusters k; lock_depth := lock_depth k + 1 |})
    (fun k => {| clusters := clusters k; lock_depth := lock_depth k - 1 |})
    (fun k _ => (0, k)) (fun k _ => k) (fun k => k)
    (fun k _ _ => (0, k)) (fun k => (0, k)) (fun k _ => (0, k))
    (fun k _ _ => (0, k))
    (counting_add_cluster limit) sbi k mode offset len.

Definition sbi_4k : msdos_sb_info :=
  {| options := {| fs_fmask := 18; fs_dmask := 18; allow_utime := 18 |};
     cluster_size := 4096; cluster_bits := 12 |}.

End FatAlloc.

(** ** Further sample inputs *)

Module Cases.

(** The open that [prfs_make_backup] makes of a destination it created. *)
Definition write_new_backup : file :=
  {| f_flags := Z.lor O_CREAT O_RDWR;
     f_mode := Z.lor 31 FMODE_CREATED;
     d_iname := "_1700000000123_report.txt" |}.

(** [open("gone.txt", O_WRONLY)] for a name the host does not hold. *)
Definition write_gone : file :=
  {| f_flags := O_WRONLY; f_mode := 2; d_iname := "gone.txt" |}.

End Cases.

(** * Properties *)

(** ** Characters *)

Lemma char_inj (a b : ascii) : char a = char b -> a = b.
Proof.
  unfold char. intros H. apply N2Z.inj in H.
  rewrite <- (ascii_N_embedding a), <- (ascii_N_embedding b). now f_equal.
Qed.

Lemma char_range (a : ascii) : 0 <= char a < 256.
Proof.
  unfold char. pose proof (N_ascii_bounded a). lia.
Qed.

Lemma char_eqb_iff (a b : ascii) : (char a =? char b) = true <-> a = b.
Proof.
  rewrite Z.eqb_eq. split; [apply char_inj | now intros ->].
Qed.

(** ** Strings *)

Lemma str_app_cons (c : ascii) (s t : string) :
  (String c s +:+ t)%string = String c (s +:+ t).
Proof. reflexivity. Qed.

Lemma str_app_nil_r (s : string) : (s +:+ "")%string = s.
Proof. induction s as [|c s IH]; [reflexivity|]. now rewrite str_app_cons, IH. Qed.

Lemma str_app_assoc (a b c : string) :
  ((a +:+ b) +:+ c)%string = (a +:+ (b +:+ c))%string.
Proof. induction a as [|x a IH]; [reflexivity|]. now rewrite !str_app_cons, IH. Qed.

Lemma str_length_app (a b : string) :
  String.length (a +:+ b) = (String.length a + String.length b)%nat.
Proof.
  induction a as [|x a IH]; [reflexivity|].
  rewrite str_app_cons. cbn [String.length]. now rewrite IH.
Qed.

Lemma str_take_all (n : nat) (s : string) :
  (String.length s <= n)%nat -> str_take n s = s.
Proof.
  revert n. induction s as [|c s IH]; intros [|n] H; cbn in *; try reflexivity; try lia.
  rewrite IH; [reflexivity | lia].
Qed.

Lemma str_take_app (a b : string) :
  str_take (String.length a) (a +:+ b) = a.
Proof.
  induction a as [|x a IH]; [now destruct b|].
  rewrite str_app_cons. cbn [String.length str_take]. now rewrite IH.
Qed.

Lemma at_app_r (a b : string) (i : nat) :
  at_ (a +:+ b) (String.length a + i) = at_ b i.
Proof. induction a as [|x a IH]; [reflexivity|]. exact IH. Qed.

Lemma at_app_l (a b : string) (i : nat) :
  (i < String.length a)%nat -> at_ (a +:+ b) i = at_ a i.
Proof.
  revert i. induction a as [|x a IH]; intros i H; cbn in H; [lia|].
  destruct i as [|i]; [reflexivity|]. apply (IH i). lia.
Qed.

(** ** Decimal digits *)

Lemma fixed_dec_length (w : nat) (n : Z) : String.length (fixed_dec w n) = w.
Proof.
  revert n. induction w as [|w IH]; intros n; [reflexivity|].
  cbn [fixed_dec]. rewrite str_length_app, IH. cbn. lia.
Qed.

Lemma fixed_dec_zero (w : nat) : fixed_dec w 0 = zeros w.
Proof.
  induction w as [|w IH]; [reflexivity|].
  cbn [fixed_dec]. change (0 / 10) with 0. rewrite IH.
  clear IH. induction w as [|w IH]; [reflexivity|].
  cbn [zeros]. rewrite str_app_cons. now rewrite IH.
Qed.

Lemma fixed_dec_split (j k : nat) (n : Z) :
  fixed_dec (j + k) n = (fixed_dec j (n / 10 ^ Z.of_nat k) +:+ fixed_dec k n)%string.
Proof.
  revert n. induction k as [|k IH]; intros n.
  - rewrite Nat.add_0_r. cbn [fixed_dec Z.of_nat]. change (10 ^ 0) with 1.
    now rewrite Z.div_1_r, str_app_nil_r.
  - rewrite Nat.add_succ_r. cbn [fixed_dec]. rewrite IH, str_app_assoc.
    do 2 f_equal. rewrite Z.div_div by lia. f_equal.
    rewrite Nat2Z.inj_succ, Z.pow_succ_r by lia. reflexivity.
Qed.

Lemma fixed_dec_mod (k : nat) (n : Z) :
  fixed_dec k (n mod 10 ^ Z.of_nat k) = fixed_dec k n.
Proof.
  revert n. induction k as [|k IH]; intros n; [reflexivity|].
  cbn [fixed_dec].
  rewrite Nat2Z.inj_succ, Z.pow_succ_r by lia.
  assert (Hp : 0 < 10 ^ Z.of_nat k) by (apply Z.pow_pos_nonneg; lia).
  rewrite Z.rem_mul_r by lia.
  replace ((n mod 10 + 10 * ((n / 10) mod 10 ^ Z.of_nat k)) / 10)
    with ((n / 10) mod 10 ^ Z.of_nat k).
  2:{ rewrite Z.add_comm, Z.mul_comm, Z.div_add_l by lia.
      rewrite (Z.div_small (n mod 10)); [lia | apply Z.mod_pos_bound; lia]. }
  rewrite IH.
  replace ((n mod 10 + 10 * ((n / 10) mod 10 ^ Z.of_nat k)) mod 10)
    with (n mod 10); [reflexivity|].
  rewrite (Z.mul_comm 10), Z.mod_add by lia.
  symmetry. apply Z.mod_mod. lia.
Qed.

(** [utoa] prints the shortest digit string of a number. *)
Lemma utoa_loop_digits (fuel : nat) (n : Z) (acc : string) :
  (1 <= fuel)%nat ->
  0 <= n < 10 ^ Z.of_nat fuel ->
  exists k : nat,
    (1 <= k <= fuel)%nat /\ n < 10 ^ Z.of_nat k /\
    (k = 1%nat \/ 10 ^ Z.of_nat (k - 1) <= n) /\
    utoa_loop fuel n acc = (fixed_dec k n +:+ acc)%string.
Proof.
  revert n acc. induction fuel as [|fuel IH]; intros n acc Hf Hn.
  - lia.
  - cbn [utoa_loop]. destruct (Z.eqb_spec (n / 10) 0) as [Hz|Hz].
    + exists 1%nat.
      assert (n < 10) by (apply Z.div_small_iff in Hz; lia).
      split; [lia|]. split; [cbn; lia|]. split; [now left|]. reflexivity.
    + assert (H10 : 10 <= n).
      { destruct (Z.lt_ge_cases n 10) as [Hlt|]; [|assumption].
        rewrite Z.div_small in Hz by lia. contradiction. }
      rewrite Nat2Z.inj_succ, Z.pow_succ_r in Hn by lia.
      destruct (IH (n / 10) (String (digit_char (n mod 10)) acc)) as
        (k & Hk & Hlt & Hmin & Heq).
      { destruct fuel; [cbn in Hn; lia | lia]. }
      { split; [apply Z.div_pos; lia|]. apply Z.div_lt_upper_bound; lia. }
      exists (S k). split; [lia|]. split; [|split].
      * rewrite Nat2Z.inj_succ, Z.pow_succ_r by lia.
        pose proof (Z.mul_div_le n 10 ltac:(lia)).
        pose proof (Z.mod_pos_bound n 10 ltac:(lia)).
        pose proof (Z.div_mod n 10 ltac:(lia)). lia.
      * right. replace (S k - 1)%nat with (S (k - 1)) by lia.
        rewrite Nat2Z.inj_succ, Z.pow_succ_r by lia.
        destruct Hmin as [-> | Hmin].
        -- cbn. lia.
        -- pose proof (Z.mul_div_le n 10 ltac:(lia)). lia.
      * rewrite Heq. cbn [fixed_dec]. now rewrite str_app_assoc.
Qed.

Lemma zero_pad_utoa (w : nat) (n : Z) :
  (1 <= w)%nat -> 0 <= n < 10 ^ Z.of_nat w -> n < 2 ^ 64 ->
  zero_pad w (utoa n) = fixed_dec w n.
Proof.
  intros Hw Hn H64. unfold utoa, zero_pad.
  destruct (utoa_loop_digits 20 n EmptyString) as (k & Hk & Hlt & Hmin & ->).
  { lia. }
  { change (10 ^ Z.of_nat 20) with 100000000000000000000.
    change (2 ^ 64) with 18446744073709551616 in H64. lia. }
  rewrite str_app_nil_r, fixed_dec_length.
  assert (Hkw : (k <= w)%nat).
  { destruct Hmin as [-> | Hmin]; [lia|].
    destruct (Nat.le_gt_cases k w) as [|Hgt]; [assumption|].
    assert (10 ^ Z.of_nat w <= 10 ^ Z.of_nat (k - 1))
      by (apply Z.pow_le_mono_r; lia). lia. }
  replace w with ((w - k) + k)%nat at 2 by lia.
  rewrite fixed_dec_split, Z.div_small by lia.
  now rewrite fixed_dec_zero.
Qed.

Lemma digit_char_val (d : Z) : 0 <= d <= 9 -> char (digit_char d) = 48 + d.
Proof.
  intros H. unfold char, digit_char.
  rewrite N_ascii_embedding; [lia|].
  change 256%N with (Z.to_N 256). apply Z2N.inj_lt; lia.
Qed.

Lemma digit_char_mod (n : Z) : is_digit (digit_char (n mod 10)).
Proof.
  pose proof (Z.mod_pos_bound n 10 ltac:(lia)).
  unfold is_digit. rewrite digit_char_val; lia.
Qed.

(** Every character of a fixed-width number is a decimal digit. *)
Lemma fixed_dec_digits (w : nat) (n : Z) (i : nat) :
  (i < w)%nat -> is_digit (at_ (fixed_dec w n) i).
Proof.
  revert n i. induction w as [|w IH]; intros n i Hi; [lia|].
  cbn [fixed_dec].
  destruct (Nat.eq_dec i w) as [->|Hne].
  - rewrite <- (fixed_dec_length w (n / 10)) at 2.
    rewrite <- (Nat.add_0_r (String.length _)), at_app_r.
    apply digit_char_mod.
  - rewrite at_app_l by (rewrite fixed_dec_length; lia).
    apply IH. lia.
Qed.

(** ** C strings without an inner terminator *)

Lemma c_str_nul_free (s : string) : nul_free s -> c_str s = s.
Proof.
  induction s as [|c s IH]; intros H; [reflexivity|].
  cbn [c_str]. unfold is_nul.
  destruct (Z.eqb_spec (char c) 0) as [Hc|Hc].
  - exfalso. apply (H 0%nat); [cbn; lia|]. apply char_inj. exact Hc.
  - f_equal. apply IH. intros i Hi. apply (H (S i)). cbn. lia.
Qed.

Lemma c_str_is_nul_free (s : string) : nul_free (c_str s).
Proof.
  induction s as [|c s IH]; intros i Hi; [cbn in Hi; lia|].
  cbn [c_str] in *. destruct (is_nul c) eqn:Hc; [cbn in Hi; lia|].
  destruct i as [|i].
  - cbn. intros ->. discriminate.
  - apply (IH i). cbn in Hi. lia.
Qed.

Lemma strlen_c_str (s : string) : strlen s = String.length (c_str s).
Proof.
  induction s as [|c s IH]; [reflexivity|].
  cbn [strlen c_str]. destruct (is_nul c); [reflexivity|]. cbn. now rewrite IH.
Qed.

Lemma nul_free_app (a b : string) : nul_free a -> nul_free b -> nul_free (a +:+ b).
Proof.
  intros Ha Hb i Hi. rewrite str_length_app in Hi.
  destruct (Nat.lt_ge_cases i (String.length a)) as [Hlt|Hge].
  - rewrite at_app_l by assumption. now apply Ha.
  - replace i with (String.length a + (i - String.length a))%nat by lia.
    rewrite at_app_r. apply Hb. lia.
Qed.

Lemma is_digit_not_nul (c : ascii) : is_digit c -> c <> NUL.
Proof. unfold is_digit. intros H ->. change (char NUL) with 0 in H. lia. Qed.

Lemma fixed_dec_nul_free (w : nat) (n : Z) : nul_free (fixed_dec w n).
Proof.
  intros i Hi. rewrite fixed_dec_length in Hi.
  apply is_digit_not_nul. now apply fixed_dec_digits.
Qed.

(** ** [filename_backup] (C8) *)

Lemma filename_backup_loop_bit fname k n :
  filename_backup_loop fname k n = 0 \/ filename_backup_loop fname k n = 1.
Proof.
  revert k. induction n as [|n IH]; intros k; simpl; [now right|].
  destruct (_ <? _); [now left|]. destruct (_ >? _); [now left|]. apply IH.
Qed.

Lemma filename_backup_loop_digits fname k n :
  filename_backup_loop fname k n = 1 <->
  forall i : nat, (k <= i < k + n)%nat -> is_digit (at_ fname i).
Proof.
  revert k. induction n as [|n IH]; intros k; simpl.
  - split; [intros _ i Hi; lia | reflexivity].
  - change (char "0") with 48. change (char "9") with 57.
    destruct (Z.ltb_spec (char (at_ fname k)) 48) as [Hlo|Hlo].
    { split; [discriminate|]. intros H.
      specialize (H k ltac:(lia)). unfold is_digit in H. lia. }
    destruct (Z.gtb_spec (char (at_ fname k)) 57) as [Hhi|Hhi].
    { split; [discriminate|]. intros H.
      specialize (H k ltac:(lia)). unfold is_digit in H. lia. }
    rewrite IH. split; intros H i Hi.
    + destruct (Nat.eq_dec i k) as [->|Hne]; [unfold is_digit; lia|].
      apply H. lia.
    + apply H. lia.
Qed.

Lemma filename_backup_bit fname :
  filename_backup fname = 0 \/ filename_backup fname = 1.
Proof.
  unfold filename_backup.
  destruct (_ <? _); [now left|].
  destruct (negb _); [now left|]. destruct (negb _); [now left|].
  apply filename_backup_loop_bit.
Qed.

Lemma filename_backup_shape fname :
  filename_backup fname = 1 <-> BackupShape fname.
Proof.
  unfold filename_backup, BackupShape.
  destruct (Z.ltb_spec (Z.of_nat (strlen fname)) 15) as [Hlen|Hlen].
  { split; [discriminate | intros [H _]; lia]. }
  destruct (char (at_ fname 0) =? char "_") eqn:H0; cbn [negb].
  2:{ split; [discriminate|]. intros (_ & H & _).
      rewrite H in H0. discriminate. }
  destruct (char (at_ fname 14) =? char "_") eqn:H14; cbn [negb].
  2:{ split; [discriminate|]. intros (_ & _ & H & _).
      rewrite H in H14. discriminate. }
  apply char_eqb_iff in H0, H14.
  rewrite filename_backup_loop_digits. split.
  - intros H. repeat split; try assumption; try lia.
    + apply H. lia.
    + apply H. lia.
  - intros (_ & _ & _ & H) i Hi. apply H. lia.
Qed.

(** C8: [filename_backup] returns 1 for exactly the strings of length at
    least 15 whose characters 0 and 14 are underscores and whose characters
    1 to 13 are decimal digits, and returns 0 for every other string. *)
Theorem filename_backup_exact (fname : string) :
  (filename_backup fname = 1 <-> BackupShape fname) /\
  (filename_backup fname = 0 <-> ~ BackupShape fname).
Proof.
  split; [apply filename_backup_shape|].
  rewrite <- filename_backup_shape.
  destruct (filename_backup_bit fname) as [H|H]; rewrite H; split; intros; lia || congruence.
Qed.

Lemma filename_backup_not_shape (fname : string) :
  ~ BackupShape fname -> filename_backup fname = 0.
Proof.
  rewrite <- filename_backup_shape.
  destruct (filename_backup_bit fname) as [H|H]; [trivial | contradiction].
Qed.

Lemma filename_backup_short (fname : string) :
  (strlen fname < 15)%nat -> filename_backup fname = 0.
Proof.
  intros H. apply filename_backup_not_shape. intros [Hlen _]. lia.
Qed.

Lemma filename_backup_non_digit (fname : string) (i : nat) :
  (1 <= i <= 13)%nat -> ~ is_digit (at_ fname i) -> filename_backup fname = 0.
Proof.
  intros Hi Hd. apply filename_backup_not_shape.
  intros (_ & _ & _ & H). now apply Hd, H.
Qed.

Example filename_backup_of_backup :
  filename_backup "_0000000000123_report.txt" = 1.
Proof. reflexivity. Qed.

Example filename_backup_of_plain : filename_backup "report.txt" = 0.
Proof. reflexivity. Qed.

Example filename_backup_of_letter :
  filename_backup "_00000000x0123_report.txt" = 0.
Proof. reflexivity. Qed.

(** ** The signedness of [char] does not matter to [filename_backup] *)

Lemma schar_cases (c : ascii) :
  (char c < 128 /\ schar c = char c) \/ (128 <= char c /\ schar c = char c - 256).
Proof.
  unfold schar. destruct (Z.ltb_spec (char c) 128); [left | right]; auto.
Qed.

Lemma schar_underscore (c : ascii) :
  (schar c =? schar "_") = (char c =? char "_").
Proof.
  change (schar "_") with 95. change (char "_") with 95.
  pose proof (char_range c).
  destruct (schar_cases c) as [[? ->] | [? ->]]; [reflexivity|].
  destruct (Z.eqb_spec (char c - 256) 95); destruct (Z.eqb_spec (char c) 95);
    try reflexivity; lia.
Qed.

Lemma filename_backup_loop_signed_eq (fname : string) (k n : nat) :
  filename_backup_loop_signed fname k n = filename_backup_loop fname k n.
Proof.
  revert k. induction n as [|n IH]; intros k; [reflexivity|].
  cbn [filename_backup_loop_signed filename_backup_loop]. rewrite IH.
  change (schar "0") with 48. change (schar "9") with 57.
  change (char "0") with 48. change (char "9") with 57.
  pose proof (char_range (at_ fname k)).
  destruct (schar_cases (at_ fname k)) as [[? ->] | [? ->]]; [reflexivity|].
  destruct (Z.ltb_spec (char (at_ fname k) - 256) 48); [|lia].
  destruct (Z.ltb_spec (char (at_ fname k)) 48); [reflexivity|].
  destruct (Z.gtb_spec (char (at_ fname k)) 57); [reflexivity | lia].
Qed.

Lemma filename_backup_signed_eq (fname : string) :
  filename_backup_signed fname = filename_backup fname.
Proof.
  unfold filename_backup_signed, filename_backup.
  now rewrite !schar_underscore, filename_backup_loop_signed_eq.
Qed.

(** ** The synthesized name (C9) *)

Lemma pick_characters (a b c d : string) :
  String.length a = 5%nat -> String.length b = 10%nat ->
  String.length c = 3%nat ->
  String "_"
    (String (at_ (a +:+ b) 5) (String (at_ (a +:+ b) 6) (String (at_ (a +:+ b) 7)
    (String (at_ (a +:+ b) 8) (String (at_ (a +:+ b) 9) (String (at_ (a +:+ b) 10)
    (String (at_ (a +:+ b) 11) (String (at_ (a +:+ b) 12) (String (at_ (a +:+ b) 13)
    (String (at_ (a +:+ b) 14)
    (String (at_ (c +:+ d) 0) (String (at_ (c +:+ d) 1) (String (at_ (c +:+ d) 2)
    (String "_" EmptyString))))))))))))))
  = ("_" +:+ b +:+ c +:+ "_")%string.
Proof.
  intros Ha Hb Hc.
  do 5 (destruct a as [|? a]; [discriminate|]).
  destruct a; [|discriminate].
  do 10 (destruct b as [|? b]; [discriminate|]).
  destruct b; [|discriminate].
  do 3 (destruct c as [|? c]; [discriminate|]).
  destruct c; [|discriminate].
  reflexivity.
Qed.

Lemma fmt_015llu_fixed (s : Z) :
  0 <= s < 10 ^ 15 -> snprintf 16 (fmt_015llu s) = fixed_dec 15 s.
Proof.
  intros Hs. unfold snprintf, fmt_015llu, to_u64.
  assert (s < 2 ^ 64) by (change (2 ^ 64) with 18446744073709551616;
                          change (10 ^ 15) with 1000000000000000 in Hs; lia).
  rewrite Z.mod_small by lia.
  rewrite zero_pad_utoa by (try assumption; lia).
  apply str_take_all. rewrite fixed_dec_length. cbn. lia.
Qed.

Lemma fmt_09lu_fixed (n : Z) :
  0 <= n < 10 ^ 9 -> snprintf 10 (fmt_09lu n) = fixed_dec 9 n.
Proof.
  intros Hn. unfold snprintf, fmt_09lu, to_u64.
  assert (n < 2 ^ 64) by (change (2 ^ 64) with 18446744073709551616;
                          change (10 ^ 9) with 1000000000 in Hn; lia).
  rewrite Z.mod_small by lia.
  rewrite zero_pad_utoa by (try assumption; lia).
  apply str_take_all. rewrite fixed_dec_length. cbn. lia.
Qed.

Lemma spec_prefix_length (s n : Z) : String.length (spec_prefix s n) = 15%nat.
Proof.
  unfold spec_prefix. rewrite !str_length_app, !fixed_dec_length. reflexivity.
Qed.

Lemma create_backup_filename_trailing_spec (s n : Z) (buf : string) :
  0 <= s < 10 ^ 15 -> 0 <= n < 10 ^ 9 ->
  create_backup_filename_trailing {| tv_sec := s; tv_nsec := n |} buf 20
  = spec_prefix s n.
Proof.
  intros Hs Hn. unfold create_backup_filename_trailing.
  change (20 <? 16) with false. cbn [tv_sec tv_nsec].
  rewrite fmt_015llu_fixed, fmt_09lu_fixed by assumption.
  change (fixed_dec 15 s) with (fixed_dec (5 + 10) s).
  change (fixed_dec 9 n) with (fixed_dec (3 + 6) n).
  rewrite (fixed_dec_split 5 10 s), (fixed_dec_split 3 6 n).
  rewrite pick_characters by apply fixed_dec_length.
  change (Z.of_nat 6) with 6. rewrite <- (fixed_dec_mod 10 s).
  change (Z.of_nat 10) with 10. fold (spec_prefix s n).
  apply str_take_all. rewrite spec_prefix_length. cbn. lia.
Qed.

Lemma spec_prefix_nul_free (s n : Z) : nul_free (spec_prefix s n).
Proof.
  unfold spec_prefix.
  assert (Hu : nul_free "_") by (intros [|i] Hi; [discriminate | cbn in Hi; lia]).
  apply nul_free_app; [exact Hu|].
  apply nul_free_app; [apply fixed_dec_nul_free|].
  apply nul_free_app; [apply fixed_dec_nul_free | exact Hu].
Qed.

Lemma spec_prefix_shape (s n : Z) :
  at_ (spec_prefix s n) 0 = underscore /\
  at_ (spec_prefix s n) 14 = underscore /\
  forall i : nat, (1 <= i <= 13)%nat -> is_digit (at_ (spec_prefix s n) i).
Proof.
  unfold spec_prefix.
  set (b := fixed_dec 10 (s mod 10 ^ 10)). set (c := fixed_dec 3 (n / 10 ^ 6)).
  assert (Hb : String.length b = 10%nat) by apply fixed_dec_length.
  assert (Hc : String.length c = 3%nat) by apply fixed_dec_length.
  assert (Hr : forall j, at_ ("_" +:+ b +:+ c +:+ "_") (S j) = at_ (b +:+ c +:+ "_") j)
    by reflexivity.
  split; [reflexivity|]. split.
  - rewrite Hr.
    replace 13%nat with (String.length b + (String.length c + 0))%nat
      by (rewrite Hb, Hc; reflexivity).
    now rewrite !at_app_r.
  - intros [|j] Hi; [lia|]. rewrite Hr.
    destruct (Nat.lt_ge_cases j 10) as [Hlt|Hge].
    + rewrite at_app_l by lia. apply fixed_dec_digits. lia.
    + replace j with (String.length b + (j - 10))%nat by lia.
      rewrite at_app_r, at_app_l by lia.
      apply fixed_dec_digits. lia.
Qed.

Lemma millis_truncated (n : Z) :
  fixed_dec 3 (n / 10 ^ 6) = str_take 3 (fixed_dec 9 n).
Proof.
  change (fixed_dec 9 n) with (fixed_dec (3 + 6) n).
  rewrite fixed_dec_split. change (Z.of_nat 6) with 6.
  rewrite <- (fixed_dec_length 3 (n / 10 ^ 6)) at 2.
  now rewrite str_take_app.
Qed.

Lemma backup_shape_prefixed (s n : Z) (rest : string) :
  nul_free rest -> BackupShape (spec_prefix s n +:+ rest).
Proof.
  intros Hrest.
  destruct (spec_prefix_shape s n) as (H0 & H14 & Hd).
  pose proof (spec_prefix_length s n) as Hl.
  unfold BackupShape. split; [|split; [|split]].
  - rewrite strlen_c_str, c_str_nul_free
      by (apply nul_free_app; [apply spec_prefix_nul_free | assumption]).
    rewrite str_length_app. lia.
  - rewrite at_app_l by lia. exact H0.
  - rewrite at_app_l by lia. exact H14.
  - intros i Hi. rewrite at_app_l by lia. now apply Hd.
Qed.

(** C9 (amended): for a second count below 10^15, a nanosecond count below
    10^9 and a name of at most 244 characters, the destination name is an
    underscore, the ten low-order decimal digits of the seconds, the three
    leading digits of the nine-digit nanoseconds (the milliseconds, cut not
    rounded), an underscore, and then the name as it is; these fifteen
    characters make it a backup name. *)
Theorem backup_filename_layout (s n : Z) (fname : string) :
  0 <= s < 10 ^ 15 -> 0 <= n < 10 ^ 9 -> (strlen fname <= 244)%nat ->
  create_backup_filename_trailing {| tv_sec := s; tv_nsec := n |} "" 20
  = ("_" +:+ fixed_dec 10 (s mod 10 ^ 10) +:+ str_take 3 (fixed_dec 9 n) +:+ "_")%string /\
  backup_filename {| tv_sec := s; tv_nsec := n |} fname
  = (("_" +:+ fixed_dec 10 (s mod 10 ^ 10) +:+ str_take 3 (fixed_dec 9 n) +:+ "_")
       +:+ c_str fname)%string /\
  str_take 3 (fixed_dec 9 n) = fixed_dec 3 (n / 10 ^ 6) /\
  String.length ("_" +:+ fixed_dec 10 (s mod 10 ^ 10) +:+ str_take 3 (fixed_dec 9 n) +:+ "_")
  = 15%nat /\
  filename_backup (backup_filename {| tv_sec := s; tv_nsec := n |} fname) = 1.
Proof.
  intros Hs Hn Hlen.
  rewrite <- millis_truncated. fold (spec_prefix s n).
  assert (Hname : backup_filename {| tv_sec := s; tv_nsec := n |} fname
                  = (spec_prefix s n +:+ c_str fname)%string).
  { unfold backup_filename.
    rewrite create_backup_filename_trailing_spec by assumption.
    rewrite (c_str_nul_free (spec_prefix s n)) by apply spec_prefix_nul_free.
    apply str_take_all.
    rewrite str_length_app, spec_prefix_length, <- strlen_c_str. cbn. lia. }
  split; [now apply create_backup_filename_trailing_spec|].
  split; [exact Hname|]. split; [reflexivity|].
  split; [apply spec_prefix_length|].
  rewrite Hname. apply filename_backup_shape, backup_shape_prefixed.
  apply c_str_is_nul_free.
Qed.

Lemma backup_filename_layout_witness :
  backup_filename {| tv_sec := 1700000000; tv_nsec := 123456789 |} "report.txt"
  = (("_" +:+ fixed_dec 10 (1700000000 mod 10 ^ 10)
          +:+ str_take 3 (fixed_dec 9 123456789) +:+ "_") +:+ c_str "report.txt")%string.
Proof.
  refine (proj1 (proj2 (backup_filename_layout 1700000000 123456789 "report.txt" _ _ _))).
  - split; [lia | reflexivity].
  - split; [lia | reflexivity].
  - vm_compute. lia.
Defined.

Lemma backup_filename_counterexample :
  create_backup_filename_trailing
    {| tv_sec := 1234567890123456; tv_nsec := 999999999 |} "" 20
  = "_6789012345999_"%string /\
  ("_" +:+ fixed_dec 10 (1234567890123456 mod 10 ^ 10)
       +:+ str_take 3 (fixed_dec 9 999999999) +:+ "_")%string
  = "_7890123456999_"%string /\
  create_backup_filename_trailing
    {| tv_sec := 1234567890123456; tv_nsec := 999999999 |} "" 20
  <> ("_" +:+ fixed_dec 10 (1234567890123456 mod 10 ^ 10)
          +:+ str_take 3 (fixed_dec 9 999999999) +:+ "_")%string /\
  backup_filename Sample.noon Sample.long_name
  = ("_1700000000123_" +:+ zeros 244)%string /\
  backup_filename Sample.noon Sample.long_name
  <> ("_1700000000123_" +:+ Sample.long_name)%string.
Proof.
  split; [vm_compute; reflexivity|]. split; [vm_compute; reflexivity|].
  split; [vm_compute; discriminate|]. split; [vm_compute; reflexivity|].
  vm_compute. discriminate.
Qed.

(** ** The mode read at open time *)

Lemma get_prfs_mode_eq (m : Z) :
  get_prfs_mode m = if (m <? 0) || (m >? 2) then 1 else m.
Proof.
  unfold get_prfs_mode, get_proc_prfs_mode.
  destruct (Z.ltb_spec m 0); cbn [orb]; [reflexivity|].
  destruct (Z.gtb_spec m 2); reflexivity.
Qed.

Lemma get_prfs_mode_range (m : Z) : 0 <= get_prfs_mode m <= 2.
Proof.
  rewrite get_prfs_mode_eq.
  destruct (Z.ltb_spec m 0); cbn [orb]; [lia|].
  destruct (Z.gtb_spec m 2); lia.
Qed.

Lemma get_prfs_mode_out_of_range (m : Z) :
  m < 0 \/ 2 < m -> get_prfs_mode m = 1.
Proof.
  intros H. rewrite get_prfs_mode_eq.
  destruct (Z.ltb_spec m 0); cbn [orb]; [reflexivity|].
  destruct (Z.gtb_spec m 2); [reflexivity | lia].
Qed.

(** ** The mode channel (C5) *)

Lemma isdigit_is_digit (c : ascii) : isdigit c = true <-> is_digit c.
Proof.
  unfold isdigit, is_digit. rewrite andb_true_iff, !Z.leb_le. reflexivity.
Qed.

Lemma is_digit_not_space (c : ascii) : is_digit c -> isspace c = false.
Proof.
  unfold is_digit, isspace. intros H.
  destruct (Z.eqb_spec (char c) 32); [lia|].
  destruct (Z.eqb_spec (char c) 160); [lia|].
  destruct (Z.leb_spec 9 (char c)); destruct (Z.leb_spec (char c) 13);
    try reflexivity; lia.
Qed.

(** Reading back a fixed-width number. *)
Lemma strtoull_fixed_dec (k : nat) (n : Z) (rest : string) (a : Z) :
  strtoull (fixed_dec k n +:+ rest) a
  = strtoull rest (a * 10 ^ Z.of_nat k + n mod 10 ^ Z.of_nat k).
Proof.
  revert n rest a. induction k as [|k IH]; intros n rest a.
  - cbn [fixed_dec Z.of_nat]. change (10 ^ 0) with 1.
    rewrite Z.mod_1_r. f_equal. lia.
  - cbn [fixed_dec]. rewrite str_app_assoc, str_app_cons, IH.
    change (("" +:+ rest)%string) with rest.
    cbn [strtoull].
    pose proof (digit_char_mod n) as Hd.
    apply isdigit_is_digit in Hd. rewrite Hd.
    pose proof (Z.mod_pos_bound n 10 ltac:(lia)).
    rewrite digit_char_val by lia.
    f_equal. rewrite Nat2Z.inj_succ, Z.pow_succ_r by lia.
    rewrite (Z.rem_mul_r n 10 (10 ^ Z.of_nat k)) by
      (try lia; apply Z.pow_pos_nonneg; lia).
    lia.
Qed.

Lemma strtoull_stop (rest : string) (a : Z) :
  strtoull (newline +:+ rest) a = a.
Proof. reflexivity. Qed.

(** The digits [utoa] prints: a non-empty fixed-width number. *)
Lemma utoa_fixed (n : Z) :
  0 <= n < 2 ^ 64 ->
  exists k : nat, (1 <= k <= 20)%nat /\ n < 10 ^ Z.of_nat k /\ utoa n = fixed_dec k n.
Proof.
  intros Hn. unfold utoa.
  destruct (utoa_loop_digits 20 n EmptyString) as (k & Hk & Hlt & _ & Heq).
  { lia. }
  { change (10 ^ Z.of_nat 20) with 100000000000000000000.
    change (2 ^ 64) with 18446744073709551616 in Hn. lia. }
  exists k. rewrite Heq, str_app_nil_r. auto.
Qed.

Lemma utoa_head (n : Z) :
  0 <= n < 2 ^ 64 ->
  exists c r, utoa n = String c r /\ is_digit c.
Proof.
  intros Hn. destruct (utoa_fixed n Hn) as (k & Hk & _ & ->).
  pose proof (fixed_dec_length k n) as Hl.
  pose proof (fixed_dec_digits k n 0 ltac:(lia)) as Hd.
  destruct (fixed_dec k n) as [|c r]; [cbn in Hl; lia|].
  exists c, r. split; [reflexivity | exact Hd].
Qed.

Lemma strtoull_utoa (n : Z) :
  0 <= n < 2 ^ 64 -> strtoull (utoa n +:+ newline) 0 = n.
Proof.
  intros Hn. destruct (utoa_fixed n Hn) as (k & Hk & Hlt & ->).
  rewrite strtoull_fixed_dec.
  rewrite <- (str_app_nil_r newline), strtoull_stop.
  rewrite Z.mod_small; lia.
Qed.

Lemma utoa_nul_free (n : Z) : 0 <= n < 2 ^ 64 -> nul_free (utoa n).
Proof.
  intros Hn. destruct (utoa_fixed n Hn) as (k & _ & _ & ->).
  apply fixed_dec_nul_free.
Qed.

Lemma utoa_length (n : Z) : 0 <= n < 2 ^ 64 -> (String.length (utoa n) <= 20)%nat.
Proof.
  intros Hn. destruct (utoa_fixed n Hn) as (k & Hk & _ & ->).
  rewrite fixed_dec_length. lia.
Qed.

Lemma to_int_small (v : Z) : - 2 ^ 31 <= v < 2 ^ 31 -> to_int v = v.
Proof.
  intros H. unfold to_int.
  change (2 ^ 31) with 2147483648 in *. change (2 ^ 32) with 4294967296.
  rewrite Z.mod_small; lia.
Qed.

Lemma int_fits (v : Z) : - 2 ^ 31 <= v < 2 ^ 31 -> 0 <= Z.abs v < 2 ^ 64.
Proof.
  change (2 ^ 31) with 2147483648. change (2 ^ 64) with 18446744073709551616. lia.
Qed.

Lemma nul_free_cons (c : ascii) (s : string) :
  c <> NUL -> nul_free s -> nul_free (String c s).
Proof.
  intros Hc Hs [|i] Hi; [exact Hc|]. apply (Hs i). cbn in Hi. lia.
Qed.

Lemma mode_text_nul_free (v : Z) :
  - 2 ^ 31 <= v < 2 ^ 31 -> nul_free (mode_text v).
Proof.
  intros Hv. pose proof (int_fits v Hv) as Ha.
  unfold mode_text, itoa. apply nul_free_app.
  - destruct (Z.ltb_spec v 0).
    + apply nul_free_cons; [discriminate|].
      apply utoa_nul_free. rewrite Z.abs_neq in Ha; lia.
    + apply utoa_nul_free. rewrite Z.abs_eq in Ha; lia.
  - apply nul_free_cons; [discriminate|]. intros i Hi. cbn in Hi. lia.
Qed.

Lemma mode_text_length (v : Z) :
  - 2 ^ 31 <= v < 2 ^ 31 -> (String.length (mode_text v) <= 22)%nat.
Proof.
  intros Hv. pose proof (int_fits v Hv) as Ha.
  unfold mode_text, itoa. rewrite str_length_app.
  destruct (Z.ltb_spec v 0).
  - pose proof (utoa_length (- v) ltac:(rewrite Z.abs_neq in Ha; lia)).
    cbn [String.length newline]. lia.
  - pose proof (utoa_length v ltac:(rewrite Z.abs_eq in Ha; lia)).
    cbn [String.length newline]. lia.
Qed.

(** What [sscanf] reads from the decimal text of an [int] is that [int]. *)
Lemma sscanf_d_mode_text (v : Z) :
  - 2 ^ 31 <= v < 2 ^ 31 -> sscanf_d (mode_text v) = Some v.
Proof.
  intros Hv. pose proof (int_fits v Hv) as Ha.
  unfold sscanf_d. rewrite c_str_nul_free by now apply mode_text_nul_free.
  unfold mode_text, itoa. destruct (Z.ltb_spec v 0) as [Hneg|Hpos].
  - assert (Hn : 0 <= - v < 2 ^ 64) by (rewrite Z.abs_neq in Ha; lia).
    rewrite str_app_cons. cbn [skip_spaces].
    change (isspace "-") with false. cbv iota.
    change (char "-" =? char "-") with true. cbv iota.
    pose proof (strtoull_utoa (- v) Hn) as Hread.
    destruct (utoa_head (- v) Hn) as (c & r & Hu & Hc).
    rewrite Hu in *. rewrite str_app_cons in *.
    apply isdigit_is_digit in Hc. rewrite Hc, Hread.
    rewrite Z.opp_involutive, to_int_small; [reflexivity | assumption].
  - assert (Hn : 0 <= v < 2 ^ 64) by (rewrite Z.abs_eq in Ha; lia).
    pose proof (strtoull_utoa v Hn) as Hread.
    destruct (utoa_head v Hn) as (c & r & Hu & Hc).
    rewrite Hu in *. rewrite str_app_cons in *. cbn [skip_spaces].
    rewrite (is_digit_not_space c Hc).
    assert (Hm : (char c =? char "-") = false).
    { apply Z.eqb_neq. unfold is_digit in Hc. change (char "-") with 45. lia. }
    rewrite Hm. apply isdigit_is_digit in Hc. rewrite Hc, Hread.
    rewrite to_int_small; [reflexivity | assumption].
Qed.

(** Behind bytes that hold no NUL, the C string goes on into what follows
    them. *)
Lemma c_str_app_nul_free (a b : string) :
  nul_free a -> c_str (a +:+ b) = (a +:+ c_str b)%string.
Proof.
  induction a as [|c a IH]; intros H; [reflexivity|].
  rewrite !str_app_cons. cbn [c_str]. unfold is_nul.
  destruct (Z.eqb_spec (char c) 0) as [Hc|Hc].
  - exfalso. apply (H 0%nat); [cbn; lia|]. apply char_inj. exact Hc.
  - f_equal. apply IH. intros i Hi. apply (H (S i)). cbn. lia.
Qed.

Lemma strlen_app_nul_free (a b : string) :
  nul_free a -> strlen (a +:+ b) = (String.length a + strlen b)%nat.
Proof.
  intros H. rewrite !strlen_c_str, c_str_app_nul_free by assumption.
  apply str_length_app.
Qed.

(** The decimal text of an [int] is read back whatever follows its
    newline. *)
Lemma sscanf_d_mode_text_app (v : Z) (rest : string) :
  - 2 ^ 31 <= v < 2 ^ 31 -> sscanf_d (mode_text v +:+ rest) = Some v.
Proof.
  intros Hv. pose proof (int_fits v Hv) as Ha.
  unfold sscanf_d.
  rewrite c_str_app_nul_free by now apply mode_text_nul_free.
  assert (Hread : forall n, 0 <= n < 2 ^ 64 ->
            strtoull ((utoa n +:+ newline) +:+ c_str rest) 0 = n).
  { intros n Hn. destruct (utoa_fixed n Hn) as (k & Hk & Hlt & ->).
    rewrite str_app_assoc, strtoull_fixed_dec, strtoull_stop.
    rewrite Z.mod_small; lia. }
  unfold mode_text, itoa. destruct (Z.ltb_spec v 0) as [Hneg|Hpos].
  - assert (Hn : 0 <= - v < 2 ^ 64) by (rewrite Z.abs_neq in Ha; lia).
    specialize (Hread (- v) Hn).
    rewrite !str_app_cons. cbn [skip_spaces].
    change (isspace "-") with false. cbv iota.
    change (char "-" =? char "-") with true. cbv iota.
    destruct (utoa_head (- v) Hn) as (c & r & Hu & Hc).
    rewrite Hu in *. rewrite !str_app_cons in *.
    apply isdigit_is_digit in Hc. rewrite Hc, Hread.
    rewrite Z.opp_involutive, to_int_small; [reflexivity | assumption].
  - assert (Hn : 0 <= v < 2 ^ 64) by (rewrite Z.abs_eq in Ha; lia).
    specialize (Hread v Hn).
    destruct (utoa_head v Hn) as (c & r & Hu & Hc).
    rewrite Hu in *. rewrite !str_app_cons in *. cbn [skip_spaces].
    rewrite (is_digit_not_space c Hc).
    assert (Hm : (char c =? char "-") = false).
    { apply Z.eqb_neq. unfold is_digit in Hc. change (char "-") with 45. lia. }
    rewrite Hm. apply isdigit_is_digit in Hc. rewrite Hc, Hread.
    rewrite to_int_small; [reflexivity | assumption].
Qed.

(** A write whose buffer, read as a C string, starts with an integer stores
    it, whatever it is, and returns the length of that C string. *)
Lemma prfsproc_write_parsed (cell mode : Z) (stack ubuf : string) (count : Z) :
  0 <= count <= BUFSIZE ->
  count <= Z.of_nat (String.length ubuf) ->
  sscanf_d (str_take (Z.to_nat count) ubuf +:+ str_drop (Z.to_nat count) stack)
  = Some mode ->
  prfsproc_write cell stack ubuf count 0
  = (to_int (Z.of_nat (strlen (str_take (Z.to_nat count) ubuf
                               +:+ str_drop (Z.to_nat count) stack))), mode,
     to_int (Z.of_nat (strlen (str_take (Z.to_nat count) ubuf
                               +:+ str_drop (Z.to_nat count) stack)))).
Proof.
  intros Hc Hu Hs. unfold prfsproc_write.
  change (0 >? 0) with false. cbn [orb].
  destruct (Z.gtb_spec count BUFSIZE) as [|_]; [lia|].
  destruct (Z.ltb_spec (Z.of_nat (String.length ubuf)) count) as [|_]; [lia|].
  now rewrite Hs.
Qed.

(** The decimal text of an [int], written with its exact length, is
    stored; the value returned counts the text and the bytes that follow
    it on the stack up to the first NUL. *)
Lemma prfsproc_write_mode_text (cell v : Z) (stack : string) :
  - 2 ^ 31 <= v < 2 ^ 31 ->
  prfsproc_write cell stack (mode_text v)
    (Z.of_nat (String.length (mode_text v))) 0
  = (to_int (Z.of_nat (String.length (mode_text v)
                       + strlen (str_drop (String.length (mode_text v)) stack))),
     v,
     to_int (Z.of_nat (String.length (mode_text v)
                       + strlen (str_drop (String.length (mode_text v)) stack)))).
Proof.
  intros Hv.
  pose proof (mode_text_length v Hv) as Hl.
  assert (Htake : str_take (Z.to_nat (Z.of_nat (String.length (mode_text v))))
                    (mode_text v) = mode_text v)
    by (apply str_take_all; lia).
  rewrite prfsproc_write_parsed with (mode := v).
  - rewrite Htake, Nat2Z.id.
    rewrite strlen_app_nul_free by now apply mode_text_nul_free.
    reflexivity.
  - unfold BUFSIZE. lia.
  - lia.
  - rewrite Htake. now apply sscanf_d_mode_text_app.
Qed.

(** A write whose buffer holds no integer, or that is longer than the
    buffer, is refused and leaves the cell as it was. *)
Lemma prfsproc_write_refused (cell : Z) (stack ubuf : string) (count ppos : Z) :
  sscanf_d (str_take (Z.to_nat count) ubuf +:+ str_drop (Z.to_nat count) stack)
  = None \/ BUFSIZE < count \/ 0 < ppos ->
  prfsproc_write cell stack ubuf count ppos = (- EFAULT, cell, ppos).
Proof.
  intros H. unfold prfsproc_write.
  destruct ((ppos >? 0) || (count >? BUFSIZE)) eqn:Hg; [reflexivity|].
  destruct (_ <? count); [reflexivity|].
  destruct H as [-> | H]; [reflexivity|].
  apply orb_false_iff in Hg as [H1 H2].
  destruct (Z.gtb_spec ppos 0); [discriminate|].
  destruct (Z.gtb_spec count BUFSIZE); [discriminate|]. lia.
Qed.




(** ** Every synthesized name is a backup name *)

Lemma all_digits_app (a b : string) :
  all_digits a -> all_digits b -> all_digits (a +:+ b).
Proof.
  intros Ha Hb i Hi. rewrite str_length_app in Hi.
  destruct (Nat.lt_ge_cases i (String.length a)) as [Hlt|Hge].
  - rewrite at_app_l by assumption. now apply Ha.
  - replace i with (String.length a + (i - String.length a))%nat by lia.
    rewrite at_app_r. apply Hb. lia.
Qed.

Lemma all_digits_zeros (k : nat) : all_digits (zeros k).
Proof.
  rewrite <- fixed_dec_zero. intros i Hi. rewrite fixed_dec_length in Hi.
  now apply fixed_dec_digits.
Qed.

Lemma to_u64_range (v : Z) : 0 <= to_u64 v < 2 ^ 64.
Proof. unfold to_u64. apply Z.mod_pos_bound. reflexivity. Qed.

Lemma all_digits_utoa (n : Z) : 0 <= n < 2 ^ 64 -> all_digits (utoa n).
Proof.
  intros Hn. destruct (utoa_fixed n Hn) as (k & _ & _ & ->).
  intros i Hi. rewrite fixed_dec_length in Hi. now apply fixed_dec_digits.
Qed.

Lemma zero_pad_length (w : nat) (s : string) :
  (w <= String.length (zero_pad w s))%nat.
Proof.
  unfold zero_pad. rewrite str_length_app.
  assert (String.length (zeros (w - String.length s)) = (w - String.length s)%nat).
  { rewrite <- fixed_dec_zero. apply fixed_dec_length. }
  lia.
Qed.

Lemma at_str_take (n : nat) (s : string) (i : nat) :
  (i < n)%nat -> at_ (str_take n s) i = at_ s i.
Proof.
  revert s i. induction n as [|n IH]; intros s i Hi; [lia|].
  destruct s as [|c s]; [reflexivity|].
  destruct i as [|i]; [reflexivity|]. apply (IH s i). lia.
Qed.

(** The characters [create_backup_filename_trailing] picks are digits
    whatever the clock holds. *)
Lemma padded_digit (w : nat) (v : Z) (j : nat) :
  (j < w)%nat ->
  is_digit (at_ (snprintf (S w) (zero_pad w (utoa (to_u64 v)))) j).
Proof.
  intros Hj. unfold snprintf. replace (S w - 1)%nat with w by lia.
  rewrite at_str_take by assumption.
  pose proof (zero_pad_length w (utoa (to_u64 v))) as Hl.
  assert (Hd : all_digits (zero_pad w (utoa (to_u64 v)))).
  { apply all_digits_app; [apply all_digits_zeros|].
    apply all_digits_utoa, to_u64_range. }
  apply Hd. lia.
Qed.

Lemma str_take_nul_free (n : nat) (s : string) :
  nul_free s -> nul_free (str_take n s).
Proof.
  revert s. induction n as [|n IH]; intros s Hs; [intros i Hi; cbn in Hi; lia|].
  destruct s as [|c s]; [exact Hs|].
  cbn [str_take]. apply nul_free_cons.
  - apply (Hs 0%nat). cbn. lia.
  - apply IH. intros i Hi. apply (Hs (S i)). cbn. lia.
Qed.

Lemma str_take_length (n : nat) (s : string) :
  (String.length (str_take n s) <= n)%nat.
Proof.
  revert s. induction n as [|n IH]; intros s; [cbn; lia|].
  destruct s as [|c s]; cbn; [lia|]. specialize (IH s). lia.
Qed.

(** An underscore, thirteen digits, an underscore, then anything. *)
Lemma backup_shape_of_digits
    (c1 c2 c3 c4 c5 c6 c7 c8 c9 c10 c11 c12 c13 : ascii) (rest : string) :
  is_digit c1 -> is_digit c2 -> is_digit c3 -> is_digit c4 -> is_digit c5 ->
  is_digit c6 -> is_digit c7 -> is_digit c8 -> is_digit c9 -> is_digit c10 ->
  is_digit c11 -> is_digit c12 -> is_digit c13 ->
  filename_backup
    (String "_" (String c1 (String c2 (String c3 (String c4 (String c5
    (String c6 (String c7 (String c8 (String c9 (String c10 (String c11
    (String c12 (String c13 (String "_" rest))))))))))))))) = 1.
Proof.
  intros H1 H2 H3 H4 H5 H6 H7 H8 H9 H10 H11 H12 H13.
  apply filename_backup_shape. unfold BackupShape.
  assert (Hn : forall c, is_digit c -> is_nul c = false).
  { intros c Hc. unfold is_nul. apply Z.eqb_neq. unfold is_digit in Hc. lia. }
  split; [|split; [reflexivity|split; [reflexivity|]]].
  - cbn [strlen]. change (is_nul "_") with false. cbv iota.
    rewrite !Hn by assumption. lia.
  - intros i Hi.
    do 14 (destruct i as [|i]; [first [lia | assumption]|]). lia.
Qed.

Lemma create_backup_filename_trailing_shape (now : timespec64) (rest : string) :
  filename_backup (create_backup_filename_trailing now "" 20 +:+ rest) = 1 /\
  nul_free (create_backup_filename_trailing now "" 20) /\
  String.length (create_backup_filename_trailing now "" 20) = 15%nat.
Proof.
  unfold create_backup_filename_trailing. change (20 <? 16) with false. cbv iota.
  set (stmp1 := snprintf 16 (fmt_015llu (tv_sec now))).
  set (stmp2 := snprintf 10 (fmt_09lu (tv_nsec now))).
  assert (D1 : forall j, (j < 15)%nat -> is_digit (at_ stmp1 j))
    by (intros j Hj; now apply (padded_digit 15)).
  assert (D2 : forall j, (j < 9)%nat -> is_digit (at_ stmp2 j))
    by (intros j Hj; now apply (padded_digit 9)).
  clearbody stmp1 stmp2.
  cbn [snprintf Nat.sub str_take].
  split; [|split; [|reflexivity]].
  - rewrite !str_app_cons.
    apply backup_shape_of_digits; first [apply D1; lia | apply D2; lia].
  - assert (Hu : "_"%char <> NUL) by discriminate.
    repeat (apply nul_free_cons;
            [first [exact Hu | apply is_digit_not_nul; first [apply D1; lia | apply D2; lia]]|]).
    intros i Hi. cbn in Hi. lia.
Qed.

Lemma str_take_app_r (a b : string) (n : nat) :
  str_take (String.length a + n) (a +:+ b) = (a +:+ str_take n b)%string.
Proof.
  induction a as [|x a IH]; [reflexivity|].
  rewrite !str_app_cons. cbn [String.length Nat.add str_take]. now rewrite IH.
Qed.

(** Whatever the clock and the name, the destination name is a backup
    name, and it is read back whole from a 260-byte buffer. *)
Lemma backup_filename_is_backup (now : timespec64) (fname : string) :
  filename_backup (backup_filename now fname) = 1 /\
  strncpy 260 (c_str (backup_filename now fname)) = backup_filename now fname.
Proof.
  unfold backup_filename.
  set (tme := create_backup_filename_trailing now "" 20).
  destruct (create_backup_filename_trailing_shape now
              (str_take 244 (c_str fname))) as (Hshape & Hnul & Hlen).
  fold tme in Hshape, Hnul, Hlen.
  assert (Heq : snprintf 260 (c_str tme +:+ c_str fname)
                = (tme +:+ str_take 244 (c_str fname))%string).
  { unfold snprintf. rewrite (c_str_nul_free tme Hnul).
    change (260 - 1)%nat with (15 + 244)%nat. rewrite <- Hlen.
    apply str_take_app_r. }
  rewrite Heq. split; [exact Hshape|].
  assert (Hfree : nul_free (tme +:+ str_take 244 (c_str fname))).
  { apply nul_free_app; [exact Hnul|].
    apply str_take_nul_free, c_str_is_nul_free. }
  unfold strncpy. rewrite !(c_str_nul_free _ Hfree).
  apply str_take_all. rewrite str_length_app, Hlen.
  pose proof (str_take_length 244 (c_str fname)). lia.
Qed.
(** ** The host's own verdict is never the layer's denial *)

Lemma generic_file_open_values (i : inode) (filp : file) :
  generic_file_open i filp = 0 \/ generic_file_open i filp = - EOVERFLOW.
Proof.
  unfold generic_file_open. destruct (_ && _); auto.
Qed.

Lemma generic_file_open_not_denial (i : inode) (filp : file) :
  generic_file_open i filp <> -1.
Proof.
  destruct (generic_file_open_values i filp) as [-> | ->]; discriminate.
Qed.

(** ** The opens nested in a backup *)

Lemma file_readwrite_bit (filp : file) :
  file_readwrite filp = 0 \/ file_readwrite filp = 1.
Proof.
  unfold file_readwrite. destruct (_ >? _); auto.
Qed.

Lemma file_justcreated_bit (filp : file) :
  file_justcreated filp = 0 \/ file_justcreated filp = 1.
Proof.
  unfold file_justcreated. destruct (_ >? _); auto.
Qed.

Lemma select_case_valid (m : Z) :
  select_case (get_prfs_mode m) <> case_default.
Proof.
  pose proof (get_prfs_mode_range m) as Hr.
  assert (get_prfs_mode m = 0 \/ get_prfs_mode m = 1 \/ get_prfs_mode m = 2)
    as [-> | [-> | ->]] by lia; discriminate.
Qed.

Lemma prfs_file_open_body_no_backup
    (mb1 mb2 : host -> string -> Z * host) (m : Z) (h : host) (i : inode) (filp : file) :
  takes_no_backup filp ->
  prfs_file_open_body mb1 m h i filp = prfs_file_open_body mb2 m h i filp /\
  snd (prfs_file_open_body mb1 m h i filp) = h.
Proof.
  intros Hno. unfold prfs_file_open_body, prfs_file_open_switch.
  destruct (select_case (get_prfs_mode m)).
  - destruct Hno as [Hr | [Hb | Hc]].
    + rewrite Hr. auto.
    + rewrite Hb. change (1 =? 1) with true. cbv iota.
      destruct (file_readwrite filp =? 1); [|auto].
      destruct (file_justcreated filp =? 0); auto.
    + rewrite Hc. change (1 =? 1) with true. change (1 =? 0) with false.
      cbv iota.
      destruct (file_readwrite filp =? 1); [|auto].
      destruct (filename_backup _ =? 1); auto.
  - destruct (file_readwrite filp =? 1); auto.
  - destruct (file_readwrite filp =? 1); [|auto].
    destruct (filename_backup _ =? 0); auto.
  - auto.
Qed.

Lemma prfs_file_open_body_ext
    (mb1 mb2 : host -> string -> Z * host) (m : Z) (h : host) (i : inode) (filp : file) :
  (forall h' s, mb1 h' s = mb2 h' s) ->
  prfs_file_open_body mb1 m h i filp = prfs_file_open_body mb2 m h i filp.
Proof.
  intros H. unfold prfs_file_open_body, prfs_file_open_switch.
  now rewrite H.
Qed.

Lemma prfs_file_open_n_no_backup (n : nat) (m : Z) (h : host) (i : inode) (filp : file) :
  takes_no_backup filp ->
  prfs_file_open_n n m h i filp = prfs_file_open_n 0 m h i filp /\
  snd (prfs_file_open_n n m h i filp) = h.
Proof.
  intros Hno. destruct n as [|n]; cbn [prfs_file_open_n];
    now apply prfs_file_open_body_no_backup.
Qed.

Section OpenExt.

Variables f1 f2 : host -> inode -> file -> Z * host.

Lemma do_dentry_open_ext (h : host) (name : string) (flags : Z) (created : bool) :
  (forall i f, d_iname f = name -> f_flags f = flags -> f1 h i f = f2 h i f) ->
  do_dentry_open f1 h name flags created = do_dentry_open f2 h name flags created.
Proof.
  intros H. unfold do_dentry_open. now rewrite H.
Qed.

Lemma filp_open_ext (h : host) (filename : string) (flags mode : Z) :
  (forall h' i f,
     d_iname f = c_str filename -> f_flags f = flags -> f1 h' i f = f2 h' i f) ->
  filp_open f1 h filename flags mode = filp_open f2 h filename flags mode.
Proof.
  intros H. unfold filp_open.
  destruct (faults h !! c_str filename); [reflexivity|].
  destruct (files h !! c_str filename).
  - destruct (_ && _); [reflexivity|]. apply do_dentry_open_ext. intros; now apply H.
  - destruct (has_flag flags O_CREAT); [|reflexivity].
    apply do_dentry_open_ext. intros; now apply H.
Qed.

End OpenExt.

Lemma read_takes_no_backup (f : file) : f_flags f = O_RDONLY -> takes_no_backup f.
Proof.
  intros H. left. unfold file_readwrite. now rewrite H.
Qed.

Lemma backup_takes_no_backup (now : timespec64) (fname : string) (f : file) :
  d_iname f = c_str (backup_filename now fname) -> takes_no_backup f.
Proof.
  intros H. right; left. rewrite H.
  destruct (backup_filename_is_backup now fname) as [H1 H2].
  now rewrite H2.
Qed.

(** The backup runs the same at every depth of nesting. *)
Lemma prfs_make_backup_any_depth (n : nat) (m : Z) (h : host) (fname : string) :
  prfs_make_backup_with (prfs_file_open_n n m) h fname = prfs_make_backup m h fname.
Proof.
  unfold prfs_make_backup, prfs_make_backup_with.
  rewrite (filp_open_ext (prfs_file_open_n n m) (prfs_file_open_n 0 m) h fname).
  2:{ intros h' i f _ Hf. now apply prfs_file_open_n_no_backup, read_takes_no_backup. }
  destruct (filp_open (prfs_file_open_n 0 m) h fname O_RDONLY 0) as [[e|src] h1];
    [reflexivity|].
  rewrite (filp_open_ext (prfs_file_open_n n m) (prfs_file_open_n 0 m) h1).
  - reflexivity.
  - intros h' i f Hd _.
    now apply prfs_file_open_n_no_backup, (backup_takes_no_backup (clock h) fname).
Qed.

(** One level of nesting is all an open needs: deeper bounds give the
    same result. *)
Lemma prfs_file_open_any_depth (n : nat) (m : Z) (h : host) (i : inode) (filp : file) :
  prfs_file_open_n (S n) m h i filp = prfs_file_open m h i filp.
Proof.
  change (prfs_file_open_n (S n) m h i filp)
    with (prfs_file_open_body
            (prfs_make_backup_with (prfs_file_open_n n m)) m h i filp).
  change (prfs_file_open m h i filp)
    with (prfs_file_open_body (prfs_make_backup m) m h i filp).
  apply prfs_file_open_body_ext. intros h' s.
  apply prfs_make_backup_any_depth.
Qed.

(** [prfs_file_open] is the body of the function with [prfs_make_backup]
    reading the same mode cell. *)
Lemma prfs_file_open_unfold (m : Z) (h : host) (i : inode) (filp : file) :
  prfs_file_open m h i filp
  = prfs_file_open_body (prfs_make_backup m) m h i filp.
Proof. reflexivity. Qed.

(** ** The mode an open is decided in (C10) *)

Lemma prfs_file_open_body_case_1
    (mb : host -> string -> Z * host) (m : Z) (h : host) (i : inode) (filp : file) :
  get_prfs_mode m = 1 ->
  prfs_file_open_body mb m h i filp
  = if wantsWrite filp then (-1, h) else (generic_file_open i filp, h).
Proof.
  intros Hm. unfold prfs_file_open_body, prfs_file_open_switch, wantsWrite.
  rewrite Hm. change (select_case 1) with case_1.
  now destruct (file_readwrite filp =? 1).
Qed.

(** C10: whatever integer the mode cell holds, the mode a decision reads is
    0, 1 or 2, values below 0 or above 2 being read as 1; the [default]
    label of the switch is never selected, and an open under an
    out-of-range cell is the open under ReadOnly. *)
Theorem open_mode_always_valid (m : Z) :
  (get_prfs_mode m = 0 \/ get_prfs_mode m = 1 \/ get_prfs_mode m = 2) /\
  get_prfs_mode m = (if (m <? 0) || (m >? 2) then 1 else m) /\
  select_case (get_prfs_mode m) <> case_default /\
  (forall h i filp,
     m < 0 \/ 2 < m -> prfs_file_open m h i filp = prfs_file_open 1 h i filp).
Proof.
  pose proof (get_prfs_mode_range m) as Hr.
  split; [lia|]. split; [apply get_prfs_mode_eq|].
  split; [apply select_case_valid|].
  intros h i filp Hout. rewrite !prfs_file_open_unfold.
  rewrite (prfs_file_open_body_case_1 _ m)
    by now apply get_prfs_mode_out_of_range.
  now rewrite (prfs_file_open_body_case_1 _ 1).
Qed.

Lemma open_mode_always_valid_witness :
  get_prfs_mode 7 = 1 /\
  select_case (get_prfs_mode 7) <> case_default /\
  prfs_file_open 7 Sample.host_report Sample.small Sample.write_report
  = prfs_file_open 1 Sample.host_report Sample.small Sample.write_report.
Proof.
  destruct (open_mode_always_valid 7) as (_ & H1 & H2 & H3).
  split; [exact H1|]. split; [exact H2|].
  apply H3. right. lia.
Defined.

(** ** ReadOnly mode (C6) *)

(** C6: with the mode cell at 1, an open with write intent returns -1
    whatever the name and the creation flag, and any other open is handed
    to the host's [generic_file_open], whose result is never the -1 of a
    denial; the host is left as it was. *)
Theorem readonly_mode_open (h : host) (i : inode) (filp : file) :
  prfs_file_open 1 h i filp =
  (if wantsWrite filp then (-1, h) else (generic_file_open i filp, h)) /\
  generic_file_open i filp <> -1.
Proof.
  split; [|apply generic_file_open_not_denial].
  rewrite prfs_file_open_unfold. now apply prfs_file_open_body_case_1.
Qed.

(** ** BackupOnly mode (C7) *)

Lemma filename_backup_eqb_0 (fname : string) :
  (filename_backup fname =? 0) = negb (filename_backup fname =? 1).
Proof.
  destruct (filename_backup_bit fname) as [-> | ->]; reflexivity.
Qed.

Lemma prfs_file_open_case_2 (h : host) (i : inode) (filp : file) :
  prfs_file_open 2 h i filp =
  if wantsWrite filp && negb (isBackupName (req_name filp))
  then (-1, h) else (generic_file_open i filp, h).
Proof.
  rewrite prfs_file_open_unfold.
  unfold prfs_file_open_body, prfs_file_open_switch, wantsWrite, isBackupName, req_name.
  change (select_case (get_prfs_mode 2)) with case_2.
  rewrite filename_backup_eqb_0.
  destruct (file_readwrite filp =? 1); cbn [andb]; [|reflexivity].
  now destruct (negb _).
Qed.

(** C7: with the mode cell at 2, an open with write intent returns -1 when
    the name is not a backup name and is handed to the host when it is;
    every open without write intent is handed to the host. *)
Theorem backuponly_mode_open (h : host) (i : inode) (filp : file) :
  prfs_file_open 2 h i filp =
  (if wantsWrite filp && negb (isBackupName (req_name filp))
   then (-1, h) else (generic_file_open i filp, h)) /\
  generic_file_open i filp <> -1.
Proof.
  split; [apply prfs_file_open_case_2 | apply generic_file_open_not_denial].
Qed.

(** ** Permissive mode: backups are write-once (C2) *)

Lemma justCreated_false (filp : file) :
  justCreated filp = false -> (file_justcreated filp =? 0) = true.
Proof.
  unfold justCreated.
  destruct (file_justcreated_bit filp) as [-> | ->]; [reflexivity | discriminate].
Qed.

Lemma worm_backuponly_counterexample :
  isBackupName (req_name Sample.write_old_backup) = true /\
  justCreated Sample.write_old_backup = false /\
  wantsWrite Sample.write_old_backup = true /\
  prfs_file_open 2 Sample.host_backup Sample.small Sample.write_old_backup
  = (0, Sample.host_backup) /\
  fst (prfs_file_open 2 Sample.host_backup Sample.small Sample.write_old_backup) <> -1.
Proof.
  rewrite prfs_file_open_case_2.
  repeat split; try reflexivity. discriminate.
Qed.

(** C2 (amended): a write-intent open of a backup name that the open did
    not itself create returns -1 in Permissive mode and leaves the host as
    it was; in BackupOnly mode the same open is handed to the host. *)
Theorem worm_in_permissive_mode (h : host) (i : inode) (filp : file) :
  isBackupName (req_name filp) = true ->
  justCreated filp = false ->
  wantsWrite filp = true ->
  prfs_file_open 0 h i filp = (-1, h) /\
  prfs_file_open 2 h i filp = (generic_file_open i filp, h).
Proof.
  intros Hb Hc Hw. split.
  - rewrite prfs_file_open_unfold.
    unfold prfs_file_open_body, prfs_file_open_switch.
    change (select_case (get_prfs_mode 0)) with case_0.
    unfold wantsWrite in Hw. unfold isBackupName, req_name in Hb.
    rewrite Hw, Hb, (justCreated_false filp Hc). reflexivity.
  - rewrite prfs_file_open_case_2, Hb, Hw. reflexivity.
Qed.

Lemma worm_in_permissive_mode_witness :
  prfs_file_open 0 Sample.host_backup Sample.small Sample.write_old_backup
  = (-1, Sample.host_backup) /\
  prfs_file_open 2 Sample.host_backup Sample.small Sample.write_old_backup
  = (generic_file_open Sample.small Sample.write_old_backup, Sample.host_backup).
Proof.
  apply (worm_in_permissive_mode Sample.host_backup Sample.small
           Sample.write_old_backup); reflexivity.
Defined.

(** ** Permissive mode: backup before write (C1) *)

Lemma prfs_make_backup_with_values
    (f : host -> inode -> file -> Z * host) (h : host) (fname : string) :
  fst (prfs_make_backup_with f h fname) = 0 \/
  fst (prfs_make_backup_with f h fname) = -1.
Proof.
  unfold prfs_make_backup_with.
  destruct (filp_open f h fname O_RDONLY 0) as [[e|src] h1]; [now right|].
  destruct (filp_open f h1 _ _ _) as [[e|dst] h2]; [now right|].
  destruct (vfs_copy_file_range _ _ _ _). now left.
Qed.

Lemma prfs_make_backup_values (m : Z) (h : host) (fname : string) :
  fst (prfs_make_backup m h fname) = 0 \/ fst (prfs_make_backup m h fname) = -1.
Proof. apply prfs_make_backup_with_values. Qed.

(** The open path of case 0: in Permissive mode a write-intent open of a
    name that is not a backup name calls [prfs_make_backup] on the name
    when the open did not create the file, and is handed to the host
    exactly when that call returns 0; when the call returns -1 so does the
    open.  When the open created the file it is handed to the host and no
    backup is taken: the host is left as it was.  What the call returning
    0 leaves under the backup name is another matter, see
    [prfs_make_backup_failed_copy] and [prfs_make_backup_short_copy]. *)
Lemma permissive_write_follows_return_code (h : host) (i : inode) (filp : file) :
  wantsWrite filp = true ->
  isBackupName (req_name filp) = false ->
  (justCreated filp = false ->
     prfs_file_open 0 h i filp =
     (if fst (prfs_make_backup 0 h (req_name filp)) =? 0
      then generic_file_open i filp else -1,
      snd (prfs_make_backup 0 h (req_name filp)))) /\
  (justCreated filp = true ->
     prfs_file_open 0 h i filp = (generic_file_open i filp, h)).
Proof.
  intros Hw Hb. rewrite prfs_file_open_unfold.
  unfold prfs_file_open_body, prfs_file_open_switch.
  change (select_case (get_prfs_mode 0)) with case_0.
  unfold wantsWrite, isBackupName, req_name, justCreated in *.
  rewrite Hw, Hb. split; intros Hc; rewrite Hc; [|reflexivity].
  pose proof (prfs_make_backup_values 0 h (strncpy 260 (d_iname filp))) as Hv.
  destruct (prfs_make_backup 0 h (strncpy 260 (d_iname filp))) as [fcres h'].
  cbn [fst snd] in *.
  destruct Hv as [-> | ->]; reflexivity.
Qed.

Lemma permissive_write_follows_return_code_witness :
  prfs_file_open 0 Sample.host_report Sample.small Sample.write_report =
  (if fst (prfs_make_backup 0 Sample.host_report (req_name Sample.write_report)) =? 0
   then generic_file_open Sample.small Sample.write_report else -1,
   snd (prfs_make_backup 0 Sample.host_report (req_name Sample.write_report))) /\
  prfs_file_open 0 Sample.host_report Sample.small Sample.write_new =
  (generic_file_open Sample.small Sample.write_new, Sample.host_report).
Proof.
  split.
  - destruct (permissive_write_follows_return_code Sample.host_report Sample.small
                Sample.write_report eq_refl eq_refl) as [H _].
    apply H. reflexivity.
  - destruct (permissive_write_follows_return_code Sample.host_report Sample.small
                Sample.write_new eq_refl eq_refl) as [_ H].
    apply H. reflexivity.
Defined.

(** ** [prfs_make_backup]: the destination (C3) *)

(** The flags of the second [filp_open] do not ask for exclusive creation. *)
Lemma backup_open_not_exclusive :
  has_flag (Z.lor O_CREAT O_RDWR) O_CREAT = true /\
  has_flag (Z.lor O_CREAT O_RDWR) O_EXCL = false.
Proof. split; reflexivity. Qed.

(** A nested open takes no backup of its own: its verdict does not depend
    on the host, which it leaves as it was. *)
Lemma prfs_file_open_n_0_pure (m : Z) (h h' : host) (i : inode) (f : file) :
  prfs_file_open_n 0 m h i f = (fst (prfs_file_open_n 0 m h' i f), h).
Proof.
  cbn [prfs_file_open_n]. unfold prfs_file_open_body, prfs_file_open_switch.
  destruct (select_case (get_prfs_mode m)).
  - destruct (file_readwrite f =? 1); [|reflexivity].
    destruct (filename_backup _ =? 1).
    + destruct (file_justcreated f =? 0); reflexivity.
    + destruct (file_justcreated f =? 1); reflexivity.
  - destruct (file_readwrite f =? 1); reflexivity.
  - destruct (file_readwrite f =? 1); [|reflexivity].
    destruct (filename_backup _ =? 0); reflexivity.
  - reflexivity.
Qed.

(** The nested open of the source, a read, is handed to the host. *)
Lemma nested_open_read (m : Z) (h : host) (i : inode) (f : file) :
  f_flags f = O_RDONLY ->
  prfs_file_open_n 0 m h i f = (generic_file_open i f, h).
Proof.
  intros Hf. cbn [prfs_file_open_n].
  unfold prfs_file_open_body, prfs_file_open_switch, file_readwrite.
  rewrite Hf. change (Z.land O_RDONLY 3 >? 0) with false. cbv iota.
  change (0 =? 1) with false. cbv iota.
  pose proof (select_case_valid m) as Hv.
  destruct (select_case (get_prfs_mode m)); [reflexivity.. | contradiction].
Qed.

(** The nested open of the destination in Permissive mode: refused when
    the file was there, handed to the host when this open created it. *)
Lemma nested_open_destination
    (h : host) (i : inode) (now : timespec64) (fname : string) (created : bool) :
  prfs_file_open_n 0 0 h i
    {| f_flags := Z.lor O_CREAT O_RDWR;
       f_mode := Z.lor (Z.lor (OPEN_FMODE (Z.lor O_CREAT O_RDWR))
                          (Z.lor FMODE_LSEEK (Z.lor FMODE_PREAD FMODE_PWRITE)))
                       (if created then FMODE_CREATED else 0);
       d_iname := c_str (backup_filename now fname) |}
  = (if created
     then generic_file_open i
            {| f_flags := Z.lor O_CREAT O_RDWR;
               f_mode := Z.lor (Z.lor (OPEN_FMODE (Z.lor O_CREAT O_RDWR))
                                  (Z.lor FMODE_LSEEK (Z.lor FMODE_PREAD FMODE_PWRITE)))
                               FMODE_CREATED;
               d_iname := c_str (backup_filename now fname) |}
     else -1, h).
Proof.
  cbn [prfs_file_open_n]. unfold prfs_file_open_body, prfs_file_open_switch.
  change (select_case (get_prfs_mode 0)) with case_0.
  cbn [d_iname].
  destruct (backup_filename_is_backup now fname) as [H1 H2].
  rewrite H2, H1.
  now destruct created.
Qed.

Lemma filp_open_rdonly (m : Z) (h : host) (fname : string) :
  snd (filp_open (prfs_file_open_n 0 m) h fname O_RDONLY 0) = h.
Proof.
  unfold filp_open.
  destruct (faults h !! c_str fname); [reflexivity|].
  destruct (files h !! c_str fname); [|reflexivity].
  cbn [O_RDONLY has_flag]. change (has_flag 0 O_CREAT) with false. cbn [andb].
  unfold do_dentry_open. rewrite nested_open_read by reflexivity.
  destruct (_ =? 0); reflexivity.
Qed.

(** C3 (amended): while the mode is Permissive, as it is when the open path
    calls it, [prfs_make_backup] fails whenever a file of the synthesized
    name exists, and leaves the host, that file included, as it was. *)
Theorem backup_keeps_existing_backup (h : host) (fname : string) (old : list byte) :
  files h !! c_str (backup_filename (clock h) fname) = Some old ->
  prfs_make_backup 0 h fname = (-1, h) /\
  files (snd (prfs_make_backup 0 h fname)) !! c_str (backup_filename (clock h) fname)
  = Some old.
Proof.
  intros Hold.
  assert (Hres : prfs_make_backup 0 h fname = (-1, h)).
  { unfold prfs_make_backup, prfs_make_backup_with.
    pose proof (filp_open_rdonly 0 h fname) as Hsrc.
    destruct (filp_open (prfs_file_open_n 0 0) h fname O_RDONLY 0) as [[e|src] h1];
      cbn [snd] in Hsrc; subst h1; [reflexivity|].
    unfold filp_open.
    destruct (faults h !! _); [reflexivity|].
    rewrite Hold.
    destruct backup_open_not_exclusive as [_ ->]. rewrite andb_false_r.
    unfold do_dentry_open.
    rewrite (nested_open_destination h _ (clock h) fname false).
    reflexivity. }
  rewrite Hres. split; [reflexivity | exact Hold].
Qed.

Lemma backup_keeps_existing_backup_witness :
  prfs_make_backup 0 Sample.host_collision "report.txt" = (-1, Sample.host_collision).
Proof.
  refine (proj1 (backup_keeps_existing_backup Sample.host_collision "report.txt"
                   (Sample.bytes "OLDER") _)).
  vm_compute. reflexivity.
Defined.

(** The destination is not opened exclusively: in BackupOnly mode the
    existing backup [OLDER] is opened, the call returns 0 and the file
    reads [NEWER]. *)
Lemma backup_exclusive_counterexample :
  files Sample.host_collision
    !! c_str (backup_filename (clock Sample.host_collision) "report.txt")
  = Some (Sample.bytes "OLDER") /\
  prfs_make_backup 2 Sample.host_collision "report.txt"
  = (0, set_files Sample.host_collision
          (<["_1700000000123_report.txt"%string := Sample.bytes "NEWER"]>
             (files Sample.host_collision))) /\
  fst (prfs_make_backup 2 Sample.host_collision "report.txt") <> -1 /\
  files (snd (prfs_make_backup 2 Sample.host_collision "report.txt"))
    !! c_str (backup_filename (clock Sample.host_collision) "report.txt")
  <> Some (Sample.bytes "OLDER").
Proof.
  split; [vm_compute; reflexivity|]. split; [vm_compute; reflexivity|].
  split; vm_compute; discriminate.
Qed.

(** The open path meets the same refusal: the write of [report.txt] is
    denied while a backup of the current millisecond exists. *)
Example collision_denies_write :
  prfs_file_open 0 Sample.host_collision Sample.small Sample.write_report
  = (-1, Sample.host_collision).
Proof. vm_compute. reflexivity. Qed.

(** ** [prfs_make_backup]: the copy (C4) *)

Lemma nested_open_set_copier (m : Z) (h : host) (b : copy_behaviour) (i : inode) (f : file) :
  prfs_file_open_n 0 m (set_copier h b) i f
  = (fst (prfs_file_open_n 0 m h i f), set_copier (snd (prfs_file_open_n 0 m h i f)) b).
Proof.
  assert (Hs : snd (prfs_file_open_n 0 m h i f) = h)
    by now rewrite (prfs_file_open_n_0_pure m h h).
  now rewrite Hs, (prfs_file_open_n_0_pure m (set_copier h b) h).
Qed.

Lemma filp_open_set_copier
    (m : Z) (h : host) (b : copy_behaviour) (n : string) (fl md : Z) :
  filp_open (prfs_file_open_n 0 m) (set_copier h b) n fl md
  = (fst (filp_open (prfs_file_open_n 0 m) h n fl md),
     set_copier (snd (filp_open (prfs_file_open_n 0 m) h n fl md)) b).
Proof.
  unfold filp_open; cbn [faults files set_copier].
  destruct (faults h !! c_str n); [reflexivity|].
  assert (Hd : forall h0 created,
    do_dentry_open (prfs_file_open_n 0 m) (set_copier h0 b) (c_str n) fl created
    = (fst (do_dentry_open (prfs_file_open_n 0 m) h0 (c_str n) fl created),
       set_copier (snd (do_dentry_open (prfs_file_open_n 0 m) h0 (c_str n) fl created)) b)).
  { intros h0 created. unfold do_dentry_open.
    rewrite nested_open_set_copier.
    change (i_size_read (set_copier h0 b) (c_str n)) with (i_size_read h0 (c_str n)).
    destruct (prfs_file_open_n 0 m h0 _ _) as [error h1]. cbn [fst snd].
    destruct (error =? 0); reflexivity. }
  destruct (files h !! c_str n).
  - destruct (_ && _); [reflexivity|]. apply Hd.
  - destruct (has_flag fl O_CREAT); [|reflexivity].
    change (set_files (set_copier h b) (<[c_str n:=[]]> (files h)))
      with (set_copier (set_files h (<[c_str n:=[]]> (files h))) b).
    apply Hd.
Qed.

(** The value [prfs_make_backup] returns does not depend on how the copy
    went. *)
Lemma prfs_make_backup_copy_blind (m : Z) (h : host) (b : copy_behaviour) (fname : string) :
  fst (prfs_make_backup m (set_copier h b) fname) = fst (prfs_make_backup m h fname).
Proof.
  unfold prfs_make_backup, prfs_make_backup_with. cbn [clock set_copier].
  rewrite filp_open_set_copier.
  destruct (filp_open (prfs_file_open_n 0 m) h fname O_RDONLY 0) as [[e|src] h1];
    cbn [fst snd]; [reflexivity|].
  rewrite filp_open_set_copier.
  destruct (filp_open (prfs_file_open_n 0 m) h1 (backup_filename (clock h) fname)
              (Z.lor O_CREAT O_RDWR) 420) as [[e|dst] h2]; cbn [fst snd];
    [reflexivity|].
  destruct (vfs_copy_file_range (set_copier h2 b) src dst _).
  destruct (vfs_copy_file_range h2 src dst _). reflexivity.
Qed.

(** The nested open of an existing source of ordinary size succeeds. *)
Lemma filp_open_source (m : Z) (h : host) (fname : string) (data : list byte) :
  faults h !! c_str fname = None ->
  files h !! c_str fname = Some data ->
  Z.of_nat (length data) <= MAX_NON_LFS ->
  filp_open (prfs_file_open_n 0 m) h fname O_RDONLY 0 = (Filp (c_str fname), h).
Proof.
  intros Hf He Hsz. unfold filp_open. rewrite Hf, He.
  change (has_flag O_RDONLY O_CREAT) with false. cbn [andb].
  unfold do_dentry_open. rewrite nested_open_read by reflexivity.
  unfold generic_file_open, i_size_read, content. cbn [f_flags i_size].
  rewrite He. cbn [from_option id].
  destruct (Z.gtb_spec (Z.of_nat (length data)) MAX_NON_LFS) as [|_]; [lia|].
  now rewrite andb_false_r.
Qed.

(** In Permissive mode the nested open of a destination that is not there
    creates it, empty, and succeeds. *)
Lemma filp_open_destination_new (h : host) (now : timespec64) (fname : string) :
  let fn2 := c_str (backup_filename now fname) in
  faults h !! fn2 = None ->
  files h !! fn2 = None ->
  filp_open (prfs_file_open_n 0 0) h (backup_filename now fname)
    (Z.lor O_CREAT O_RDWR) 420
  = (Filp fn2, set_files h (<[fn2 := []]> (files h))).
Proof.
  intros fn2 Hf He. unfold filp_open. fold fn2. rewrite Hf, He.
  destruct backup_open_not_exclusive as [-> _].
  unfold do_dentry_open, fn2.
  rewrite (nested_open_destination _ _ now fname true).
  unfold generic_file_open, i_size_read, content. cbn [f_flags i_size files set_files].
  rewrite lookup_insert_eq. cbn [from_option id length Z.of_nat].
  change (0 >? MAX_NON_LFS) with false. now rewrite andb_false_r.
Qed.

(** On every host: in Permissive mode, when the source is there and no
    file of the destination name is, a copy that fails still makes the
    call return 0, and the destination stays, empty. *)
Lemma prfs_make_backup_failed_copy
    (h : host) (fname : string) (data : list byte) (errno : Z) :
  let fn2 := c_str (backup_filename (clock h) fname) in
  faults h !! c_str fname = None ->
  files h !! c_str fname = Some data ->
  Z.of_nat (length data) <= MAX_NON_LFS ->
  faults h !! fn2 = None ->
  files h !! fn2 = None ->
  copier h = CopyFail errno ->
  prfs_make_backup 0 h fname = (0, set_files h (<[fn2 := []]> (files h))).
Proof.
  intros fn2 Hf1 He1 Hsz Hf2 He2 Hc.
  unfold prfs_make_backup, prfs_make_backup_with.
  rewrite (filp_open_source 0 h fname data Hf1 He1 Hsz).
  rewrite (filp_open_destination_new h (clock h) fname Hf2 He2).
  unfold vfs_copy_file_range, filp_close. cbn [copier set_files].
  now rewrite Hc.
Qed.

(** On every host: in Permissive mode, when the source is there and no
    file of the destination name is, a copy that goes through leaves the
    bytes of the source under the destination name. *)
Lemma prfs_make_backup_copies
    (h : host) (fname : string) (data : list byte) :
  let fn2 := c_str (backup_filename (clock h) fname) in
  faults h !! c_str fname = None ->
  files h !! c_str fname = Some data ->
  Z.of_nat (length data) <= MAX_NON_LFS ->
  faults h !! fn2 = None ->
  files h !! fn2 = None ->
  copier h = CopyAll ->
  prfs_make_backup 0 h fname = (0, set_files h (<[fn2 := data]> (files h))).
Proof.
  intros fn2 Hf1 He1 Hsz Hf2 He2 Hc.
  assert (Hne : fn2 <> c_str fname) by congruence.
  unfold prfs_make_backup, prfs_make_backup_with.
  rewrite (filp_open_source 0 h fname data Hf1 He1 Hsz).
  rewrite (filp_open_destination_new h (clock h) fname Hf2 He2). fold fn2.
  unfold vfs_copy_file_range, filp_close, i_size_read, content.
  cbn [copier set_files files]. rewrite Hc.
  rewrite lookup_insert_ne by exact Hne. rewrite He1, lookup_insert_eq.
  cbn [from_option id]. rewrite Nat2Z.id, firstn_all.
  unfold write_at_0. rewrite drop_nil, app_nil_r, insert_insert_eq.
  reflexivity.
Qed.

(** On every host: in Permissive mode, when the source is there and no
    file of the destination name is, a copy that stops after [k] bytes
    still makes the call return 0, and the destination stays with those
    [k] bytes. *)
Lemma prfs_make_backup_short_copy
    (h : host) (fname : string) (data : list byte) (k : nat) :
  let fn2 := c_str (backup_filename (clock h) fname) in
  faults h !! c_str fname = None ->
  files h !! c_str fname = Some data ->
  Z.of_nat (length data) <= MAX_NON_LFS ->
  faults h !! fn2 = None ->
  files h !! fn2 = None ->
  copier h = CopyShort k ->
  prfs_make_backup 0 h fname = (0, set_files h (<[fn2 := take k data]> (files h))).
Proof.
  intros fn2 Hf1 He1 Hsz Hf2 He2 Hc.
  assert (Hne : fn2 <> c_str fname) by congruence.
  unfold prfs_make_backup, prfs_make_backup_with.
  rewrite (filp_open_source 0 h fname data Hf1 He1 Hsz).
  rewrite (filp_open_destination_new h (clock h) fname Hf2 He2). fold fn2.
  unfold vfs_copy_file_range, filp_close, i_size_read, content.
  cbn [copier set_files files]. rewrite Hc.
  rewrite lookup_insert_ne by exact Hne. rewrite He1, lookup_insert_eq.
  cbn [from_option id]. rewrite Nat2Z.id, firstn_all.
  unfold write_at_0. rewrite drop_nil, app_nil_r, insert_insert_eq.
  reflexivity.
Qed.

(** C1: the code diverges from the claim.  In Permissive mode a
    write-intent open of an existing file that is not a backup and that
    the open did not create is handed to the host, and so proceeds,
    although no backup of the file was made, whenever the bulk copy of the
    host fails or stops short: [prfs_make_backup] drops the result of
    [vfs_copy_file_range] and returns 0, the open goes on to
    [generic_file_open], which never denies, and the file left under the
    backup name is empty, or holds only the first [k] bytes, and so does
    not hold the content of the original. *)
Theorem permissive_write_proceeds_unprotected
    (h : host) (i : inode) (filp : file) (data : list byte) :
  let fn1 := req_name filp in
  let fn2 := c_str (backup_filename (clock h) fn1) in
  wantsWrite filp = true ->
  isBackupName fn1 = false ->
  justCreated filp = false ->
  faults h !! c_str fn1 = None ->
  files h !! c_str fn1 = Some data ->
  Z.of_nat (length data) <= MAX_NON_LFS ->
  faults h !! fn2 = None ->
  files h !! fn2 = None ->
  generic_file_open i filp <> -1 /\
  (forall errno, copier h = CopyFail errno ->
     prfs_file_open 0 h i filp
     = (generic_file_open i filp, set_files h (<[fn2 := []]> (files h))) /\
     (data <> [] -> files (snd (prfs_file_open 0 h i filp)) !! fn2 <> Some data)) /\
  (forall k, copier h = CopyShort k ->
     prfs_file_open 0 h i filp
     = (generic_file_open i filp, set_files h (<[fn2 := take k data]> (files h))) /\
     ((k < length data)%nat ->
      files (snd (prfs_file_open 0 h i filp)) !! fn2 <> Some data)).
Proof.
  intros fn1 fn2 Hw Hb Hc Hf1 He1 Hsz Hf2 He2.
  destruct (permissive_write_follows_return_code h i filp Hw Hb) as [Hopen _].
  specialize (Hopen Hc). fold fn1 in Hopen.
  split; [apply generic_file_open_not_denial|]. split.
  - intros errno Hcp.
    rewrite (prfs_make_backup_failed_copy h fn1 data errno Hf1 He1 Hsz Hf2 He2 Hcp)
      in Hopen.
    cbn [fst snd] in Hopen. change (0 =? 0) with true in Hopen. cbv iota in Hopen.
    fold fn2 in Hopen. split; [exact Hopen|].
    intros Hd. rewrite Hopen. cbn [snd files set_files].
    rewrite lookup_insert_eq. congruence.
  - intros k Hcp.
    rewrite (prfs_make_backup_short_copy h fn1 data k Hf1 He1 Hsz Hf2 He2 Hcp)
      in Hopen.
    cbn [fst snd] in Hopen. change (0 =? 0) with true in Hopen. cbv iota in Hopen.
    fold fn2 in Hopen. split; [exact Hopen|].
    intros Hk. rewrite Hopen. cbn [snd files set_files].
    rewrite lookup_insert_eq. intros [= Heq].
    apply (f_equal length) in Heq. rewrite length_take in Heq. lia.
Qed.

Lemma permissive_write_proceeds_unprotected_witness :
  prfs_file_open 0 Sample.host_copy_fails Sample.small Sample.write_report
  = (0, set_files Sample.host_copy_fails
          (<["_1700000000123_report.txt"%string := []]>
             (files Sample.host_copy_fails))) /\
  files (snd (prfs_file_open 0 Sample.host_copy_fails Sample.small
                Sample.write_report)) !! "_1700000000123_report.txt"%string
  <> Some (Sample.bytes "ABC") /\
  files (snd (prfs_file_open 0 Sample.host_copy_short Sample.small
                Sample.write_report)) !! "_1700000000123_report.txt"%string
  <> Some (Sample.bytes "ABC").
Proof.
  destruct (permissive_write_proceeds_unprotected Sample.host_copy_fails
              Sample.small Sample.write_report (Sample.bytes "ABC"))
    as (_ & Hfail & _);
    [reflexivity | reflexivity | reflexivity | reflexivity | reflexivity
    | vm_compute; discriminate | reflexivity | reflexivity |].
  destruct (permissive_write_proceeds_unprotected Sample.host_copy_short
              Sample.small Sample.write_report (Sample.bytes "ABC"))
    as (_ & _ & Hshort);
    [reflexivity | reflexivity | reflexivity | reflexivity | reflexivity
    | vm_compute; discriminate | reflexivity | reflexivity |].
  destruct (Hfail 5 eq_refl) as [H1 H2].
  destruct (Hshort 1%nat eq_refl) as [_ H3].
  split; [exact H1|]. split; [apply H2; discriminate|].
  apply H3. cbn. lia.
Defined.

(** C4: at a host whose bulk copy fails, [prfs_make_backup] returns 0 and
    leaves the empty destination in place, and the write it was to protect
    is let through; at a host whose copy stops after one byte of three, it
    returns 0 and leaves the one-byte destination in place. *)
Theorem backup_ignores_failed_copy :
  prfs_make_backup 0 Sample.host_copy_fails "report.txt"
  = (0, set_files Sample.host_copy_fails
          (<["_1700000000123_report.txt"%string := []]>
             (files Sample.host_copy_fails))) /\
  prfs_file_open 0 Sample.host_copy_fails Sample.small Sample.write_report
  = (0, set_files Sample.host_copy_fails
          (<["_1700000000123_report.txt"%string := []]>
             (files Sample.host_copy_fails))) /\
  prfs_make_backup 0 Sample.host_copy_short "report.txt"
  = (0, set_files Sample.host_copy_short
          (<["_1700000000123_report.txt"%string := Sample.bytes "A"]>
             (files Sample.host_copy_short))).
Proof. repeat split; vm_compute; reflexivity. Qed.

(** ** The creation bit *)

(** [file_justcreated] masks [f_mode] with [O_SYNC], whose bits include
    [FMODE_CREATED], the bit an open that created its file carries. *)
Example file_justcreated_tests_created :
  Z.land FMODE_CREATED O_SYNC = FMODE_CREATED /\
  Z.land (Z.lor FMODE_LSEEK (Z.lor FMODE_PREAD FMODE_PWRITE)) O_SYNC = 0 /\
  file_justcreated Sample.write_new = 1 /\
  file_justcreated Sample.write_report = 0.
Proof. repeat split; reflexivity. Qed.

(** ** The scenarios of the specification *)

Example scenario_permissive_write :
  prfs_file_open 0 Sample.host_report Sample.small Sample.write_report
  = (0, set_files Sample.host_report
          (<["_1700000000123_report.txt"%string := Sample.bytes "A"]>
             (files Sample.host_report))).
Proof. vm_compute. reflexivity. Qed.

Example scenario_readonly_write :
  prfs_file_open 1 Sample.host_report Sample.small Sample.write_report
  = (-1, Sample.host_report).
Proof. vm_compute. reflexivity. Qed.

Example scenario_backuponly_write_backup :
  prfs_file_open 2 Sample.host_backup Sample.small Sample.write_old_backup
  = (0, Sample.host_backup).
Proof. vm_compute. reflexivity. Qed.

Example scenario_backuponly_write_plain :
  prfs_file_open 2 Sample.host_report Sample.small Sample.write_report
  = (-1, Sample.host_report).
Proof. vm_compute. reflexivity. Qed.

Example scenario_initial_mode :
  prfs_file_open prfsproc_init Sample.host_report Sample.small Sample.read_report
  = (0, Sample.host_report).
Proof. vm_compute. reflexivity. Qed.

(** * Further properties of the code *)

(** * Further properties of the layer *)

(** ** Backup names: recognition and decoding *)

(** X1: whatever the clock holds and whatever the name, the name
    [prfs_make_backup] builds for the destination is one that
    [filename_backup] recognises. *)
Theorem synthesized_name_always_recognised (now : timespec64) (fname : string) :
  filename_backup (backup_filename now fname) = 1.
Proof. apply backup_filename_is_backup. Qed.

Lemma backup_filename_spec_prefix (s n : Z) (fname : string) :
  0 <= s < 10 ^ 15 -> 0 <= n < 10 ^ 9 -> (strlen fname <= 244)%nat ->
  backup_filename {| tv_sec := s; tv_nsec := n |} fname
  = (spec_prefix s n +:+ c_str fname)%string.
Proof.
  intros Hs Hn Hlen. unfold backup_filename.
  rewrite create_backup_filename_trailing_spec by assumption.
  rewrite (c_str_nul_free (spec_prefix s n)) by apply spec_prefix_nul_free.
  apply str_take_all.
  rewrite str_length_app, spec_prefix_length, <- strlen_c_str. cbn. lia.
Qed.

Lemma str_app_inj_length (a a' b b' : string) :
  String.length a = String.length a' ->
  (a +:+ b)%string = (a' +:+ b')%string -> a = a' /\ b = b'.
Proof.
  revert a'. induction a as [|x a IH]; intros [|x' a'] Hl H; try discriminate.
  - auto.
  - rewrite !str_app_cons in H. injection H as -> H.
    destruct (IH a') as [-> ->]; [now injection Hl | exact H | auto].
Qed.

Lemma strtoull_nil (a : Z) : strtoull EmptyString a = a.
Proof. reflexivity. Qed.

(** A fixed-width number is read back as its value modulo the width. *)
Lemma fixed_dec_value (k : nat) (n : Z) :
  strtoull (fixed_dec k n) 0 = n mod 10 ^ Z.of_nat k.
Proof.
  rewrite <- (str_app_nil_r (fixed_dec k n)), strtoull_fixed_dec, strtoull_nil.
  lia.
Qed.

Lemma fixed_dec_inj (k : nat) (a b : Z) :
  fixed_dec k a = fixed_dec k b -> a mod 10 ^ Z.of_nat k = b mod 10 ^ Z.of_nat k.
Proof.
  intros H. rewrite <- !fixed_dec_value. now rewrite H.
Qed.

Lemma spec_prefix_inj (s1 n1 s2 n2 : Z) :
  0 <= n1 < 10 ^ 9 -> 0 <= n2 < 10 ^ 9 ->
  spec_prefix s1 n1 = spec_prefix s2 n2 ->
  s1 mod 10 ^ 10 = s2 mod 10 ^ 10 /\ n1 / 10 ^ 6 = n2 / 10 ^ 6.
Proof.
  intros H1 H2 H. unfold spec_prefix in H.
  apply str_app_inj_length in H as [_ H]; [|reflexivity].
  apply str_app_inj_length in H as [Hs H]; [|now rewrite !fixed_dec_length].
  apply str_app_inj_length in H as [Hn _]; [|now rewrite !fixed_dec_length].
  apply fixed_dec_inj in Hs, Hn.
  change (Z.of_nat 10) with 10 in Hs. change (Z.of_nat 3) with 3 in Hn.
  rewrite !Z.mod_mod in Hs by lia. split; [exact Hs|].
  assert (0 <= n1 / 10 ^ 6 < 10 ^ 3 /\ 0 <= n2 / 10 ^ 6 < 10 ^ 3) as [B1 B2].
  { change (10 ^ 9) with (10 ^ 6 * 10 ^ 3) in H1, H2.
    split; (split; [apply Z.div_pos; lia | apply Z.div_lt_upper_bound; lia]). }
  now rewrite !Z.mod_small in Hn by assumption.
Qed.

(** X2: within the range the stamp is exact on (seconds below 10^15, names
    of at most 244 characters), two backup names are equal exactly when
    they were made in the same millisecond, the seconds taken modulo 10^10,
    from the same original name: the name tells the original and the
    time, and same-millisecond backups of one file collide. *)
Theorem backup_names_equal_iff
    (s1 n1 s2 n2 : Z) (fname1 fname2 : string) :
  0 <= s1 < 10 ^ 15 -> 0 <= n1 < 10 ^ 9 -> (strlen fname1 <= 244)%nat ->
  0 <= s2 < 10 ^ 15 -> 0 <= n2 < 10 ^ 9 -> (strlen fname2 <= 244)%nat ->
  backup_filename {| tv_sec := s1; tv_nsec := n1 |} fname1
  = backup_filename {| tv_sec := s2; tv_nsec := n2 |} fname2
  <->
  s1 mod 10 ^ 10 = s2 mod 10 ^ 10 /\ n1 / 10 ^ 6 = n2 / 10 ^ 6 /\
  c_str fname1 = c_str fname2.
Proof.
  intros Hs1 Hn1 Hl1 Hs2 Hn2 Hl2.
  rewrite !backup_filename_spec_prefix by assumption. split.
  - intros H.
    apply str_app_inj_length in H as [Hp Hf];
      [|now rewrite !spec_prefix_length].
    destruct (spec_prefix_inj s1 n1 s2 n2 Hn1 Hn2 Hp). auto.
  - intros (Hs & Hn & Hf). unfold spec_prefix. now rewrite Hs, Hn, Hf.
Qed.

Lemma backup_names_equal_iff_witness :
  backup_filename {| tv_sec := 1700000000; tv_nsec := 123456789 |} "report.txt"
  = backup_filename {| tv_sec := 11700000000; tv_nsec := 123999999 |} "report.txt".
Proof.
  apply (backup_names_equal_iff 1700000000 123456789 11700000000 123999999
           "report.txt" "report.txt").
  - split; [lia | reflexivity].
  - split; [lia | reflexivity].
  - vm_compute. lia.
  - split; [lia | reflexivity].
  - split; [lia | reflexivity].
  - vm_compute. lia.
  - repeat split; reflexivity.
Defined.

(** ** The open path as a whole *)

Lemma get_prfs_mode_0 (m : Z) : get_prfs_mode m = 0 -> m = 0.
Proof.
  rewrite get_prfs_mode_eq.
  destruct (Z.ltb_spec m 0); cbn [orb]; [discriminate|].
  destruct (Z.gtb_spec m 2); [discriminate | auto].
Qed.

Lemma file_justcreated_eqb_0 (filp : file) :
  (file_justcreated filp =? 0) = negb (file_justcreated filp =? 1).
Proof.
  destruct (file_justcreated_bit filp) as [-> | ->]; reflexivity.
Qed.

(** The decision of [prfs_file_open], read as a table. *)
Lemma prfs_file_open_table (cell : Z) (h : host) (i : inode) (filp : file) :
  prfs_file_open cell h i filp =
  if negb (wantsWrite filp) then (generic_file_open i filp, h)
  else if get_prfs_mode cell =? 0 then
    if justCreated filp then (generic_file_open i filp, h)
    else if isBackupName (req_name filp) then (-1, h)
    else (if fst (prfs_make_backup cell h (req_name filp)) =? 0
          then generic_file_open i filp else -1,
          snd (prfs_make_backup cell h (req_name filp)))
  else if get_prfs_mode cell =? 1 then (-1, h)
  else if isBackupName (req_name filp) then (generic_file_open i filp, h)
  else (-1, h).
Proof.
  rewrite prfs_file_open_unfold.
  unfold prfs_file_open_body, prfs_file_open_switch, select_case,
    wantsWrite, justCreated, isBackupName, req_name.
  pose proof (get_prfs_mode_range cell) as Hr.
  destruct (Z.eqb_spec (get_prfs_mode cell) 0) as [H0|H0].
  - destruct (file_readwrite filp =? 1); cbn [negb]; [|reflexivity].
    rewrite file_justcreated_eqb_0.
    destruct (filename_backup _ =? 1);
      destruct (file_justcreated filp =? 1); cbn [negb]; try reflexivity.
    pose proof (prfs_make_backup_values cell h (strncpy 260 (d_iname filp))) as Hv.
    destruct (prfs_make_backup cell h (strncpy 260 (d_iname filp))) as [fcres h'].
    cbn [fst snd] in *. destruct Hv as [-> | ->]; reflexivity.
  - destruct (Z.eqb_spec (get_prfs_mode cell) 1) as [H1|H1].
    + destruct (file_readwrite filp =? 1); reflexivity.
    + destruct (Z.eqb_spec (get_prfs_mode cell) 2) as [H2|H2]; [|lia].
      destruct (file_readwrite filp =? 1); cbn [negb]; [|reflexivity].
      rewrite filename_backup_eqb_0.
      destruct (filename_backup _ =? 1); reflexivity.
Qed.

(** X3: the opens that [prfs_make_backup] makes, which run
    [prfs_file_open] again, never take a backup themselves: whatever bound
    is put on the nesting, the backup and the open give the result they
    give with one level. *)
Theorem nested_opens_stop_at_one_level
    (n : nat) (cell : Z) (h : host) (i : inode) (filp : file) (fname : string) :
  prfs_make_backup_with (prfs_file_open_n n cell) h fname
  = prfs_make_backup cell h fname /\
  prfs_file_open_n (S n) cell h i filp = prfs_file_open cell h i filp.
Proof.
  split.
  - apply prfs_make_backup_any_depth.
  - change (prfs_file_open_n (S n) cell h i filp)
      with (prfs_file_open_body
              (prfs_make_backup_with (prfs_file_open_n n cell)) cell h i filp).
    rewrite prfs_file_open_unfold.
    apply prfs_file_open_body_ext. intros h' s.
    apply prfs_make_backup_any_depth.
Qed.

(** X4: an open without write intent is handed to the host in every mode,
    whatever integer the mode cell holds, and leaves the host as it was. *)
Theorem read_open_always_allowed (cell : Z) (h : host) (i : inode) (filp : file) :
  wantsWrite filp = false ->
  prfs_file_open cell h i filp = (generic_file_open i filp, h).
Proof.
  intros Hw. now rewrite prfs_file_open_table, Hw.
Qed.

Lemma read_open_always_allowed_witness :
  prfs_file_open 0 Sample.host_report Sample.small Sample.read_report
  = (generic_file_open Sample.small Sample.read_report, Sample.host_report) /\
  prfs_file_open (-5) Sample.host_report Sample.small Sample.read_report
  = (generic_file_open Sample.small Sample.read_report, Sample.host_report).
Proof.
  split; apply read_open_always_allowed; reflexivity.
Defined.

(** X5: in Permissive mode an open that created its file is handed to the
    host whatever the name, a backup name included (the open that fills a
    new backup), and no backup is taken. *)
Theorem created_file_opens_in_permissive_mode (h : host) (i : inode) (filp : file) :
  justCreated filp = true ->
  prfs_file_open 0 h i filp = (generic_file_open i filp, h).
Proof.
  intros Hc. rewrite prfs_file_open_table, Hc.
  change (get_prfs_mode 0 =? 0) with true.
  now destruct (negb (wantsWrite filp)).
Qed.

Lemma created_file_opens_in_permissive_mode_witness :
  prfs_file_open 0 Sample.host_report Sample.small Sample.write_new
  = (generic_file_open Sample.small Sample.write_new, Sample.host_report) /\
  prfs_file_open 0 Sample.host_report Sample.small Cases.write_new_backup
  = (generic_file_open Sample.small Cases.write_new_backup, Sample.host_report).
Proof.
  split; apply created_file_opens_in_permissive_mode; reflexivity.
Defined.

(** ** What an open leaves untouched *)

Lemma nested_open_host (m : Z) (h : host) (i : inode) (f : file) :
  snd (prfs_file_open_n 0 m h i f) = h.
Proof. now rewrite (prfs_file_open_n_0_pure m h h). Qed.

Lemma do_dentry_open_host (m : Z) (h : host) (name : string) (flags : Z) (created : bool) :
  snd (do_dentry_open (prfs_file_open_n 0 m) h name flags created) = h /\
  forall name',
    fst (do_dentry_open (prfs_file_open_n 0 m) h name flags created) = Filp name' ->
    name' = name.
Proof.
  unfold do_dentry_open.
  pose proof (nested_open_host m h {| i_size := i_size_read h name |}
    {| f_flags := flags;
       f_mode := Z.lor (Z.lor (OPEN_FMODE flags)
                          (Z.lor FMODE_LSEEK (Z.lor FMODE_PREAD FMODE_PWRITE)))
                       (if created then FMODE_CREATED else 0);
       d_iname := name |}) as Hh.
  destruct (prfs_file_open_n 0 m h _ _) as [error h']. cbn [snd] in Hh. subst h'.
  destruct (error =? 0); cbn [fst snd]; split; auto; intros name' H;
    [now injection H | discriminate].
Qed.

(** What [filp_open] does to the host: nothing, or it adds the name as an
    empty file, and that only for a name that was not there. *)
Lemma filp_open_host (m : Z) (h : host) (filename : string) (flags md : Z) :
  (snd (filp_open (prfs_file_open_n 0 m) h filename flags md) = h \/
   (files h !! c_str filename = None /\
    snd (filp_open (prfs_file_open_n 0 m) h filename flags md)
    = set_files h (<[c_str filename := []]> (files h)))) /\
  forall name',
    fst (filp_open (prfs_file_open_n 0 m) h filename flags md) = Filp name' ->
    name' = c_str filename.
Proof.
  unfold filp_open.
  destruct (faults h !! c_str filename); [split; [now left | discriminate]|].
  destruct (files h !! c_str filename) eqn:He.
  - destruct (_ && _); [split; [now left | discriminate]|].
    destruct (do_dentry_open_host m h (c_str filename) flags false) as [H1 H2].
    split; [now left | exact H2].
  - destruct (has_flag flags O_CREAT); [|split; [now left | discriminate]].
    destruct (do_dentry_open_host m
                (set_files h (<[c_str filename := []]> (files h)))
                (c_str filename) flags true) as [H1 H2].
    split; [right; auto | exact H2].
Qed.

Lemma vfs_copy_file_range_host (h : host) (src dst : string) (len : Z) :
  exists data,
    snd (vfs_copy_file_range h src dst len) = h \/
    snd (vfs_copy_file_range h src dst len)
    = set_files h (<[dst := data]> (files h)).
Proof.
  unfold vfs_copy_file_range.
  destruct (copier h); cbn [snd];
    [eexists; right; reflexivity | eexists; right; reflexivity
    | exists []; left; reflexivity].
Qed.

(** [prfs_make_backup] writes under the destination name and nowhere else,
    in every mode. *)
Lemma prfs_make_backup_frame (m : Z) (h : host) (fname name : string) :
  name <> c_str (backup_filename (clock h) fname) ->
  files (snd (prfs_make_backup m h fname)) !! name = files h !! name /\
  faults (snd (prfs_make_backup m h fname)) = faults h /\
  clock (snd (prfs_make_backup m h fname)) = clock h /\
  copier (snd (prfs_make_backup m h fname)) = copier h.
Proof.
  intros Hne. unfold prfs_make_backup, prfs_make_backup_with.
  pose proof (filp_open_rdonly m h fname) as Hsrc.
  destruct (filp_open (prfs_file_open_n 0 m) h fname O_RDONLY 0) as [[e|src] h1];
    cbn [snd] in Hsrc; subst h1; [auto|].
  destruct (filp_open_host m h (backup_filename (clock h) fname)
              (Z.lor O_CREAT O_RDWR) 420) as [Hh2 Hdst].
  destruct (filp_open (prfs_file_open_n 0 m) h (backup_filename (clock h) fname)
              (Z.lor O_CREAT O_RDWR) 420) as [[e|dst] h2]; cbn [fst snd] in *.
  - destruct Hh2 as [-> | [_ ->]]; cbn [files faults clock copier set_files];
      rewrite ?lookup_insert_ne by congruence; auto.
  - rewrite (Hdst dst eq_refl).
    destruct (vfs_copy_file_range_host h2 src
                (c_str (backup_filename (clock h) fname))
                (i_size_read h2 src)) as [data Hc].
    destruct (vfs_copy_file_range h2 src _ _) as [r h3]. cbn [snd] in Hc.
    unfold filp_close. cbn [snd].
    destruct Hc as [-> | ->]; destruct Hh2 as [-> | [_ ->]];
      cbn [files faults clock copier set_files];
      rewrite ?lookup_insert_ne by congruence; auto.
Qed.

Lemma strncpy_nul_free (n : nat) (s : string) : nul_free (strncpy n s).
Proof. apply str_take_nul_free, c_str_is_nul_free. Qed.

Lemma backup_filename_nul_free (now : timespec64) (fname : string) :
  nul_free (backup_filename now fname).
Proof.
  unfold backup_filename, snprintf.
  destruct (create_backup_filename_trailing_shape now EmptyString) as (_ & Hnul & _).
  rewrite (c_str_nul_free _ Hnul).
  apply str_take_nul_free, nul_free_app; [exact Hnul | apply c_str_is_nul_free].
Qed.

(** The name being opened is not the name its backup gets, unless it is a
    backup name itself. *)
Lemma req_name_is_not_destination (now : timespec64) (filp : file) :
  isBackupName (req_name filp) = false ->
  c_str (req_name filp) <> c_str (backup_filename now (req_name filp)).
Proof.
  intros Hb Heq.
  rewrite (c_str_nul_free (req_name filp) (strncpy_nul_free 260 (d_iname filp))) in Heq.
  rewrite (c_str_nul_free _ (backup_filename_nul_free now (req_name filp))) in Heq.
  unfold isBackupName in Hb. rewrite Heq in Hb.
  now rewrite (proj1 (backup_filename_is_backup now (req_name filp))) in Hb.
Qed.

(** X6: whatever the mode and the request, [prfs_file_open] changes no file
    of the host other than the backup destination of the name it opens;
    the file being opened keeps its content, and the host's clock, refusals
    and copy behaviour are as before. *)
Theorem open_writes_only_the_backup
    (cell : Z) (h : host) (i : inode) (filp : file) :
  (forall name,
     name <> c_str (backup_filename (clock h) (req_name filp)) ->
     files (snd (prfs_file_open cell h i filp)) !! name = files h !! name) /\
  files (snd (prfs_file_open cell h i filp)) !! c_str (req_name filp)
  = files h !! c_str (req_name filp) /\
  faults (snd (prfs_file_open cell h i filp)) = faults h /\
  clock (snd (prfs_file_open cell h i filp)) = clock h /\
  copier (snd (prfs_file_open cell h i filp)) = copier h.
Proof.
  rewrite prfs_file_open_table.
  destruct (negb (wantsWrite filp)); [auto|].
  destruct (get_prfs_mode cell =? 0).
  - destruct (justCreated filp); [auto|].
    destruct (isBackupName (req_name filp)) eqn:Hb; [auto|].
    cbn [snd]. split; [|split].
    + intros name Hne. now apply prfs_make_backup_frame.
    + apply prfs_make_backup_frame, req_name_is_not_destination, Hb.
    + apply (prfs_make_backup_frame cell h (req_name filp) (c_str (req_name filp))).
      apply req_name_is_not_destination, Hb.
  - destruct (get_prfs_mode cell =? 1); [auto|].
    destruct (isBackupName (req_name filp)); auto.
Qed.

Lemma open_writes_only_the_backup_witness :
  files (snd (prfs_file_open 0 Sample.host_report Sample.small Sample.write_report))
    !! "report.txt"%string
  = files Sample.host_report !! "report.txt"%string.
Proof.
  refine (proj1 (open_writes_only_the_backup 0 Sample.host_report Sample.small
                   Sample.write_report) "report.txt"%string _).
  vm_compute. discriminate.
Defined.

(** ** Failure leaves no trace *)

(** In Permissive mode [prfs_make_backup] either fails with the host as it
    was, or returns 0. *)
Lemma prfs_make_backup_fails_clean (h : host) (fname : string) :
  prfs_make_backup 0 h fname = (-1, h) \/ fst (prfs_make_backup 0 h fname) = 0.
Proof.
  unfold prfs_make_backup, prfs_make_backup_with.
  pose proof (filp_open_rdonly 0 h fname) as Hsrc.
  destruct (filp_open (prfs_file_open_n 0 0) h fname O_RDONLY 0) as [[e|src] h1];
    cbn [snd] in Hsrc; subst h1; [now left|].
  unfold filp_open.
  destruct (faults h !! _); [now left|].
  destruct backup_open_not_exclusive as [Hc He]. rewrite Hc, He. cbn [andb].
  destruct (files h !! _).
  - unfold do_dentry_open.
    rewrite (nested_open_destination h _ (clock h) fname false). now left.
  - unfold do_dentry_open.
    rewrite (nested_open_destination _ _ (clock h) fname true).
    unfold generic_file_open, i_size_read, content. cbn [f_flags i_size files set_files].
    rewrite lookup_insert_eq. cbn [from_option id length Z.of_nat].
    change (0 >? MAX_NON_LFS) with false. rewrite andb_false_r.
    change (0 =? 0) with true. cbv iota.
    destruct (vfs_copy_file_range _ _ _ _). now right.
Qed.

(** X7: an open that [prfs_file_open] denies leaves the host exactly as it
    was, in every mode: no file is created or changed on the way to a
    refusal.  The host differs after an open only when a backup was taken
    and succeeded. *)
Theorem denied_open_changes_nothing
    (cell : Z) (h : host) (i : inode) (filp : file) :
  (fst (prfs_file_open cell h i filp) = -1 ->
   snd (prfs_file_open cell h i filp) = h) /\
  (snd (prfs_file_open cell h i filp) <> h ->
   cell = 0 /\ wantsWrite filp = true /\ justCreated filp = false /\
   isBackupName (req_name filp) = false /\
   fst (prfs_make_backup 0 h (req_name filp)) = 0).
Proof.
  rewrite prfs_file_open_table.
  destruct (wantsWrite filp); cbn [negb];
    [|split; [reflexivity | intros H; now contradiction H]].
  destruct (Z.eqb_spec (get_prfs_mode cell) 0) as [H0|H0].
  - apply get_prfs_mode_0 in H0. subst cell.
    destruct (justCreated filp);
      [split; [reflexivity | intros H; now contradiction H]|].
    destruct (isBackupName (req_name filp));
      [split; [reflexivity | intros H; now contradiction H]|].
    destruct (prfs_make_backup_fails_clean h (req_name filp)) as [Hf | Hs].
    + rewrite Hf. cbn [fst snd].
      split; [reflexivity | intros H; now contradiction H].
    + rewrite Hs. cbn [fst snd]. change (0 =? 0) with true. cbv iota.
      split; [|auto].
      intros H. now apply generic_file_open_not_denial in H.
  - destruct (get_prfs_mode cell =? 1);
      [split; [reflexivity | intros H; now contradiction H]|].
    destruct (isBackupName (req_name filp));
      split; first [reflexivity | intros H; now contradiction H].
Qed.

Lemma denied_open_changes_nothing_witness :
  snd (prfs_file_open 0 Sample.host_collision Sample.small Sample.write_report)
  = Sample.host_collision.
Proof.
  apply (proj1 (denied_open_changes_nothing 0 Sample.host_collision Sample.small
                  Sample.write_report)).
  vm_compute. reflexivity.
Defined.

(** ** What a backup holds *)

(** X8: in Permissive mode, a write-intent open of an existing file that is
    not a backup, not just created, of ordinary size, with no backup of
    the current millisecond in the way and a copy that goes through, is
    handed to the host after a file of the synthesized name has been added
    that holds exactly the bytes the original held; the original still
    holds them. *)
Theorem permissive_write_saves_content
    (h : host) (i : inode) (filp : file) (data : list byte) :
  let fn1 := req_name filp in
  let fn2 := c_str (backup_filename (clock h) fn1) in
  wantsWrite filp = true ->
  isBackupName fn1 = false ->
  justCreated filp = false ->
  faults h !! c_str fn1 = None ->
  files h !! c_str fn1 = Some data ->
  Z.of_nat (length data) <= MAX_NON_LFS ->
  faults h !! fn2 = None ->
  files h !! fn2 = None ->
  copier h = CopyAll ->
  prfs_file_open 0 h i filp
  = (generic_file_open i filp, set_files h (<[fn2 := data]> (files h))) /\
  files (snd (prfs_file_open 0 h i filp)) !! fn2 = Some data /\
  files (snd (prfs_file_open 0 h i filp)) !! c_str fn1 = Some data.
Proof.
  intros fn1 fn2 Hw Hb Hc Hf1 He1 Hsz Hf2 He2 Hcp.
  assert (Hres : prfs_file_open 0 h i filp
                 = (generic_file_open i filp, set_files h (<[fn2 := data]> (files h)))).
  { rewrite prfs_file_open_table. fold fn1. rewrite Hw, Hc, Hb. cbn [negb].
    change (get_prfs_mode 0 =? 0) with true. cbv iota.
    now rewrite (prfs_make_backup_copies h fn1 data Hf1 He1 Hsz Hf2 He2 Hcp). }
  rewrite Hres. cbn [snd files set_files].
  split; [reflexivity|]. split; [apply lookup_insert_eq|].
  rewrite lookup_insert_ne; [exact He1 | congruence].
Qed.

Lemma permissive_write_saves_content_witness :
  files (snd (prfs_file_open 0 Sample.host_report Sample.small Sample.write_report))
    !! "_1700000000123_report.txt"%string
  = Some (Sample.bytes "A").
Proof.
  refine (proj1 (proj2 (permissive_write_saves_content Sample.host_report
            Sample.small Sample.write_report (Sample.bytes "A")
            _ _ _ _ _ _ _ _ _)));
    first [reflexivity | vm_compute; reflexivity | vm_compute; discriminate].
Defined.

(** ** A source that is not there *)

(** X9: when the host holds no file of the name, [prfs_make_backup] fails
    in every mode before anything is created, and a Permissive-mode write
    open of such a name is denied with the host as it was. *)
Theorem backup_of_missing_file_fails
    (cell : Z) (h : host) (i : inode) (filp : file) (fname : string) :
  (files h !! c_str fname = None -> prfs_make_backup cell h fname = (-1, h)) /\
  (files h !! c_str (req_name filp) = None ->
   wantsWrite filp = true -> justCreated filp = false ->
   isBackupName (req_name filp) = false ->
   prfs_file_open 0 h i filp = (-1, h)).
Proof.
  assert (Hmiss : forall m f, files h !! c_str f = None ->
                              prfs_make_backup m h f = (-1, h)).
  { intros m f He. unfold prfs_make_backup, prfs_make_backup_with, filp_open.
    rewrite He. destruct (faults h !! c_str f); reflexivity. }
  split; [apply Hmiss|].
  intros He Hw Hc Hb. rewrite prfs_file_open_table, Hw, Hc, Hb. cbn [negb].
  change (get_prfs_mode 0 =? 0) with true. cbv iota.
  now rewrite (Hmiss 0 (req_name filp) He).
Qed.

Lemma backup_of_missing_file_fails_witness :
  prfs_make_backup 0 Sample.host_report "gone.txt" = (-1, Sample.host_report) /\
  prfs_file_open 0 Sample.host_report Sample.small Cases.write_gone
  = (-1, Sample.host_report).
Proof.
  destruct (backup_of_missing_file_fails 0 Sample.host_report Sample.small
              Cases.write_gone "gone.txt") as [H1 H2].
  split; [apply H1; reflexivity | apply H2; reflexivity].
Defined.

(** ** The mode channel, read and written *)

Lemma mode_text_length_pos (v : Z) :
  - 2 ^ 31 <= v < 2 ^ 31 -> (2 <= String.length (mode_text v))%nat.
Proof.
  intros Hv. pose proof (int_fits v Hv) as Ha.
  unfold mode_text, itoa. rewrite str_length_app. cbn [newline String.length].
  destruct (Z.ltb_spec v 0).
  - destruct (utoa_head (- v)) as (c & r & -> & _);
      [rewrite Z.abs_neq in Ha; lia | cbn [String.length]; lia].
  - destruct (utoa_head v) as (c & r & -> & _);
      [rewrite Z.abs_eq in Ha; lia | cbn [String.length]; lia].
Qed.

(** X10: a read of the mode channel at offset 0 into a writable buffer of
    at least 100 bytes returns the decimal text of the cell and a newline,
    the raw cell and not the mode an open would read from it, and moves
    the offset past it; the text fits the 100-byte buffer, and written
    back to the channel it stores the value it was read from, whatever the
    stack held under the buffer of the write, which returns the length of
    the text and of the stack bytes behind it up to the first NUL. *)
Theorem mode_channel_read_back (cell other count : Z) (stack : string) :
  - 2 ^ 31 <= cell < 2 ^ 31 ->
  BUFSIZE <= count ->
  let len := Z.of_nat (String.length (mode_text cell)) in
  let c := to_int (len + Z.of_nat (strlen (str_drop (Z.to_nat len) stack))) in
  prfsproc_read cell true count 0 = (len, Some (mode_text cell), len) /\
  2 <= len < BUFSIZE /\
  prfsproc_write other stack (mode_text cell) len 0 = (c, cell, c) /\
  (strlen (str_drop (Z.to_nat len) stack) = 0%nat -> c = len).
Proof.
  intros Hv Hc len c.
  pose proof (mode_text_length cell Hv) as Hl.
  pose proof (mode_text_length_pos cell Hv) as Hp.
  split; [|split; [|split]].
  - unfold prfsproc_read. change (0 >? 0) with false. cbn [orb].
    destruct (Z.ltb_spec count BUFSIZE) as [|_]; [lia|]. reflexivity.
  - unfold len, BUFSIZE. lia.
  - unfold c, len. rewrite Nat2Z.id, <- Nat2Z.inj_add.
    now apply prfsproc_write_mode_text.
  - intros H0. unfold c. rewrite H0, Z.add_0_r.
    apply to_int_small. unfold len.
    change (2 ^ 31) with 2147483648. lia.
Qed.

Lemma mode_channel_read_back_witness :
  prfsproc_read 7 true 4096 0 = (2, Some (mode_text 7), 2) /\
  prfsproc_write 1 Sample.stack_clean (mode_text 7) 2 0 = (2, 7, 2) /\
  prfsproc_write 1 Sample.stack_dirty (mode_text 7) 2 0 = (7, 7, 7).
Proof.
  destruct (mode_channel_read_back 7 1 4096 Sample.stack_clean) as (H1 & _ & H2 & _).
  { split; [lia | reflexivity]. }
  { unfold BUFSIZE. lia. }
  destruct (mode_channel_read_back 7 1 4096 Sample.stack_dirty) as (_ & _ & H3 & _).
  { split; [lia | reflexivity]. }
  { unfold BUFSIZE. lia. }
  split; [exact H1 | split; [exact H2 | exact H3]].
Defined.

(** X11: a read of the mode channel returns 0 and stores nothing when the
    offset is past 0 or the buffer is shorter than 100 bytes, whatever the
    cell holds; the offset a successful read leaves is past 0, so the read
    that follows it reports the end; and a buffer that cannot be written
    gives -EFAULT with the offset unmoved. *)
Theorem mode_channel_read_ends (cell count ppos : Z) (ubuf_ok : bool) :
  (0 < ppos \/ count < BUFSIZE ->
   prfsproc_read cell ubuf_ok count ppos = (0, None, ppos)) /\
  (forall r text ppos',
     prfsproc_read cell ubuf_ok count ppos = (r, Some text, ppos') ->
     forall ok' count', prfsproc_read cell ok' count' ppos' = (0, None, ppos')) /\
  (ppos <= 0 -> BUFSIZE <= count -> ubuf_ok = false ->
   prfsproc_read cell ubuf_ok count ppos = (- EFAULT, None, ppos)).
Proof.
  split; [|split].
  - intros H. unfold prfsproc_read.
    destruct (Z.gtb_spec ppos 0); cbn [orb]; [reflexivity|].
    destruct (Z.ltb_spec count BUFSIZE); [reflexivity | lia].
  - intros r text ppos' H ok' count'. unfold prfsproc_read in *.
    destruct ((ppos >? 0) || (count <? BUFSIZE)); [discriminate|].
    destruct (negb ubuf_ok); [discriminate|].
    injection H as _ _ <-.
    assert (Hpos : ((0 + Z.of_nat (String.length (mode_text cell))) >? 0) = true).
    { apply Z.gtb_lt. unfold mode_text. rewrite str_length_app.
      cbn [newline String.length]. lia. }
    now rewrite Hpos.
  - intros Hp Hc ->. unfold prfsproc_read.
    destruct (Z.gtb_spec ppos 0); [lia|].
    destruct (Z.ltb_spec count BUFSIZE); [lia|]. reflexivity.
Qed.

Lemma mode_channel_read_ends_witness :
  prfsproc_read 1 true 99 0 = (0, None, 0) /\
  prfsproc_read 1 true 4096 2 = (0, None, 2).
Proof.
  split.
  - apply (mode_channel_read_ends 1 99 0 true). right. unfold BUFSIZE. lia.
  - apply (mode_channel_read_ends 1 4096 2 true). left. lia.
Defined.

Lemma strlen_str_take (n : nat) (s : string) : (strlen (str_take n s) <= n)%nat.
Proof.
  revert s. induction n as [|n IH]; intros s; [reflexivity|].
  destruct s as [|c s]; cbn [str_take strlen]; [lia|].
  destruct (is_nul c); [lia|]. specialize (IH s). lia.
Qed.

Lemma skip_spaces_empty (s : string) : s = EmptyString -> skip_spaces s = EmptyString.
Proof. now intros ->. Qed.

Lemma sscanf_d_some (buf : string) (v : Z) :
  sscanf_d buf = Some v -> (1 <= strlen buf)%nat /\ - 2 ^ 31 <= v < 2 ^ 31.
Proof.
  unfold sscanf_d. intros H. split.
  - rewrite strlen_c_str. destruct (c_str buf); [discriminate | cbn; lia].
  - assert (Hr : forall x, - 2 ^ 31 <= to_int x < 2 ^ 31).
    { intros x. unfold to_int.
      pose proof (Z.mod_pos_bound (x + 2 ^ 31) (2 ^ 32) ltac:(reflexivity)).
      change (2 ^ 32) with (2 * 2 ^ 31) in *. lia. }
    destruct (skip_spaces (c_str buf)) as [|c r]; [discriminate|].
    destruct (char c =? char "-").
    + destruct r as [|d r']; [discriminate|].
      destruct (isdigit d); [|discriminate]. injection H as <-. apply Hr.
    + destruct (isdigit c); [|discriminate]. injection H as <-. apply Hr.
Qed.

Lemma str_take_full_length (n : nat) (s : string) :
  (n <= String.length s)%nat -> String.length (str_take n s) = n.
Proof.
  revert s. induction n as [|n IH]; intros s H; [reflexivity|].
  destruct s as [|c s]; cbn in *; [lia|]. rewrite IH; lia.
Qed.

(** X12: whatever is written to the mode channel, a write that returns an
    error leaves the mode cell and the offset as they were, and the only
    error is -EFAULT; a write that is accepted was made at an offset not
    above 0 with [count] at most 100, stores a value in the range of an
    [int], and returns, as an [int], the length of the C string that
    starts at [buf], which is at least 1.  The array is neither initialised
    nor terminated, so that length is not bounded by [count]: when the
    bytes written hold no NUL it is [count] plus the bytes the stack holds
    behind them up to the first NUL. *)
Theorem mode_channel_write_outcomes
    (cell : Z) (stack ubuf : string) (count ppos : Z) :
  let buf :=
    (str_take (Z.to_nat count) ubuf +:+ str_drop (Z.to_nat count) stack)%string in
  prfsproc_write cell stack ubuf count ppos = (- EFAULT, cell, ppos) \/
  exists v,
    prfsproc_write cell stack ubuf count ppos
    = (to_int (Z.of_nat (strlen buf)), v, to_int (Z.of_nat (strlen buf))) /\
    ppos <= 0 /\ count <= BUFSIZE /\ (1 <= strlen buf)%nat /\
    - 2 ^ 31 <= v < 2 ^ 31 /\
    (0 <= count -> nul_free (str_take (Z.to_nat count) ubuf) ->
     strlen buf = (Z.to_nat count + strlen (str_drop (Z.to_nat count) stack))%nat).
Proof.
  intros buf. unfold prfsproc_write. fold buf.
  destruct (Z.gtb_spec ppos 0); cbn [orb]; [now left|].
  destruct (Z.gtb_spec count BUFSIZE); [now left|].
  destruct (Z.ltb_spec (Z.of_nat (String.length ubuf)) count); [now left|].
  destruct (sscanf_d buf) as [v|] eqn:Hs; [|now left].
  right. exists v.
  destruct (sscanf_d_some _ _ Hs) as [Hlen Hrange].
  split; [reflexivity|]. split; [lia|]. split; [lia|]. split; [exact Hlen|].
  split; [exact Hrange|].
  intros Hc Hnf. unfold buf. rewrite strlen_app_nul_free by exact Hnf.
  rewrite str_take_full_length by lia. reflexivity.
Qed.

(** With seven bytes left on the stack, a write of two bytes returns 7. *)
Example prfsproc_write_dirty_stack :
  prfsproc_write 1 Sample.stack_dirty (mode_text 0) 2 0 = (7, 0, 7) /\
  prfsproc_write 1 "12345" "" 0 0 = (5, 12345, 5).
Proof. split; reflexivity. Qed.

(** ** Write intent and the creation bit *)

Lemma land_3_range (x : Z) : 0 <= Z.land x 3 <= 3.
Proof.
  assert (Z.land x 3 = x mod 4) as ->
    by (change 3 with (Z.ones 2); now rewrite Z.land_ones by lia).
  pose proof (Z.mod_pos_bound x 4 ltac:(reflexivity)). lia.
Qed.

Lemma file_readwrite_low_bits (flags extra fm : Z) (name : string) :
  Z.land extra 3 = 0 ->
  file_readwrite {| f_flags := Z.lor flags extra; f_mode := fm; d_iname := name |}
  = file_readwrite {| f_flags := flags; f_mode := fm; d_iname := name |}.
Proof.
  intros H. unfold file_readwrite. cbn [f_flags].
  now rewrite Z.land_lor_distr_l, H, Z.lor_0_r.
Qed.

(** X13: write intent is read off the two access-mode bits of [f_flags]
    alone: [file_readwrite] is 0 exactly when they are both clear, and no
    other flag changes it.  An open with access mode [O_RDONLY] is therefore
    handed to the host in every mode whatever else it asks for, [O_TRUNC]
    and [O_CREAT] included. *)
Theorem write_intent_is_the_access_mode
    (cell flags extra fm : Z) (name : string) (h : host) (i : inode) :
  Z.land extra 3 = 0 ->
  (file_readwrite {| f_flags := flags; f_mode := fm; d_iname := name |} = 0
   <-> Z.land flags 3 = 0) /\
  file_readwrite {| f_flags := Z.lor flags extra; f_mode := fm; d_iname := name |}
  = file_readwrite {| f_flags := flags; f_mode := fm; d_iname := name |} /\
  prfs_file_open cell h i
    {| f_flags := Z.lor O_RDONLY extra; f_mode := fm; d_iname := name |}
  = (generic_file_open i
       {| f_flags := Z.lor O_RDONLY extra; f_mode := fm; d_iname := name |}, h).
Proof.
  intros H. split; [|split].
  - unfold file_readwrite. cbn [f_flags].
    pose proof (land_3_range flags) as Hr.
    destruct (Z.gtb_spec (Z.land flags 3) 0) as [Hgt|Hle]; split; intros Hx;
      first [discriminate | lia | reflexivity].
  - now apply file_readwrite_low_bits.
  - rewrite prfs_file_open_table. unfold wantsWrite.
    rewrite (file_readwrite_low_bits O_RDONLY extra fm name H).
    reflexivity.
Qed.

Lemma write_intent_is_the_access_mode_witness :
  prfs_file_open 1 Sample.host_report Sample.small
    {| f_flags := Z.lor O_RDONLY O_TRUNC; f_mode := 1; d_iname := "report.txt" |}
  = (generic_file_open Sample.small
       {| f_flags := Z.lor O_RDONLY O_TRUNC; f_mode := 1; d_iname := "report.txt" |},
     Sample.host_report).
Proof.
  refine (proj2 (proj2 (write_intent_is_the_access_mode 1 O_RDONLY O_TRUNC 1
                          "report.txt" Sample.host_report Sample.small _))).
  reflexivity.
Defined.

Lemma land_pow2 (m : Z) (k : Z) :
  0 <= k -> Z.land m (2 ^ k) = if Z.testbit m k then 2 ^ k else 0.
Proof.
  intros Hk. apply Z.bits_inj'. intros n Hn.
  rewrite Z.land_spec, Z.pow2_bits_eqb by lia.
  destruct (Z.eqb_spec k n) as [<-|Hne].
  - destruct (Z.testbit m k) eqn:Hb; cbn [andb].
    + now rewrite Z.pow2_bits_true.
    + now rewrite Z.bits_0.
  - rewrite andb_false_r.
    destruct (Z.testbit m k); [|now rewrite Z.bits_0].
    rewrite Z.pow2_bits_false; auto.
Qed.

(** X14: [file_justcreated] masks [f_mode] with [O_SYNC], a two-bit mask:
    it returns 1 exactly when [f_mode] carries [FMODE_CREATED], the bit of
    an open that created its file, or bit 0x1000, and 0 otherwise; the
    access-mode bits and the other bits an open sets do not count. *)
Theorem file_justcreated_bits (filp : file) :
  (file_justcreated filp = 1 <->
   Z.land (f_mode filp) FMODE_CREATED <> 0 \/ Z.land (f_mode filp) FMODE_RANDOM <> 0) /\
  (file_justcreated filp = 0 <->
   Z.land (f_mode filp) FMODE_CREATED = 0 /\ Z.land (f_mode filp) FMODE_RANDOM = 0).
Proof.
  unfold file_justcreated.
  change O_SYNC with (Z.lor FMODE_CREATED FMODE_RANDOM).
  rewrite Z.land_lor_distr_r.
  change FMODE_CREATED with (2 ^ 20). change FMODE_RANDOM with (2 ^ 12).
  rewrite !land_pow2 by lia.
  destruct (Z.testbit (f_mode filp) 20), (Z.testbit (f_mode filp) 12);
    cbn; split; split; intros; try discriminate; try lia; auto;
    try (destruct H; congruence); try (destruct H; discriminate).
Qed.

(** ** [file_is_real] *)

Lemma filp_open_read_cases (m : Z) (h : host) (fname : string) :
  (opens_for_read h fname /\
   filp_open (prfs_file_open_n 0 m) h fname O_RDONLY 0 = (Filp (c_str fname), h)) \/
  (~ opens_for_read h fname /\
   exists e, filp_open (prfs_file_open_n 0 m) h fname O_RDONLY 0 = (Err e, h)).
Proof.
  unfold opens_for_read, filp_open.
  destruct (faults h !! c_str fname) as [errno|] eqn:Hf.
  { right. split; [intros [H _]; discriminate | eauto]. }
  destruct (files h !! c_str fname) as [data|] eqn:He.
  2:{ right. split; [intros (_ & d & H & _); discriminate | eauto]. }
  change (has_flag O_RDONLY O_CREAT) with false. cbn [andb].
  unfold do_dentry_open. rewrite nested_open_read by reflexivity.
  unfold generic_file_open, i_size_read, content. cbn [f_flags i_size].
  rewrite He. cbn [from_option id].
  change (negb (has_flag O_RDONLY O_LARGEFILE)) with true. cbn [andb].
  destruct (Z.gtb_spec (Z.of_nat (length data)) MAX_NON_LFS) as [Hbig|Hok].
  - right. split; [|eauto].
    intros (_ & d & Hd & Hsz). injection Hd as <-. lia.
  - left. split; [|reflexivity]. split; [reflexivity|]. eauto.
Qed.

(** X15: [file_is_real] never looks at the size of the file.  It leaves the
    host as it was and returns 1 exactly when the file opens for reading
    and [vfs_getattr] then reports an error; for a file that does not open,
    and for every file, empty or not, whose attributes are read without
    error, it returns 0. *)
Theorem file_is_real_ignores_size
    (cell : Z) (vfs_getattr : host -> string -> Z) (h : host) (fname : string) :
  snd (file_is_real cell vfs_getattr h fname) = h /\
  (fst (file_is_real cell vfs_getattr h fname) = 1 <->
   opens_for_read h fname /\ vfs_getattr h (c_str fname) <> 0) /\
  (fst (file_is_real cell vfs_getattr h fname) = 0 <->
   ~ opens_for_read h fname \/ vfs_getattr h (c_str fname) = 0).
Proof.
  unfold file_is_real, file_is_real_with, filp_close.
  destruct (filp_open_read_cases cell h fname) as [[Hop ->] | [Hno [e ->]]].
  - destruct (Z.eqb_spec (vfs_getattr h (c_str fname)) 0) as [Hrc|Hrc];
      cbn [fst snd]; (split; [reflexivity|]); intuition congruence.
  - cbn [fst snd]. (split; [reflexivity|]); intuition congruence.
Qed.

(** With the [getattr] of this file system, which always returns 0, a file
    that holds bytes is reported as not real. *)
Example file_is_real_of_report :
  file_is_real 0 (fun _ _ => 0) Sample.host_report "report.txt"
  = (0, Sample.host_report) /\
  file_is_real 0 (fun _ _ => -13) Sample.host_report "report.txt"
  = (1, Sample.host_report).
Proof. split; vm_compute; reflexivity. Qed.

(** ** [fat_sanitize_mode] and [fat_allow_set_time] *)

Lemma bits_disjoint (a b : Z) :
  Z.land a b = 0 -> forall n, Z.testbit a n && Z.testbit b n = false.
Proof.
  intros H n. now rewrite <- Z.land_spec, H, Z.bits_0.
Qed.

Lemma to_umode_land (v : Z) : FatAttr.to_umode v = Z.land v (Z.ones 16).
Proof. unfold FatAttr.to_umode. now rewrite Z.land_ones by lia. Qed.

Section Sanitize.

Import FatAttr.

Variables (mode k : Z).

Lemma perm_of_bit (n : Z) :
  0 <= n ->
  Z.testbit (perm_of mode k) n
  = Z.testbit mode n && negb (Z.testbit S_IFMT n || Z.testbit k n)
    && Z.testbit (Z.ones 16) n.
Proof.
  intros Hn. unfold perm_of. rewrite to_umode_land.
  now rewrite !Z.land_spec, Z.lnot_spec, Z.lor_spec by assumption.
Qed.

Lemma sanitized_bit (n : Z) :
  0 <= n ->
  Z.testbit (sanitized mode k) n
  = Z.testbit mode n && (Z.testbit S_IFMT n || Z.testbit (perm_of mode k) n)
    && Z.testbit (Z.ones 16) n.
Proof.
  intros Hn. unfold sanitized. rewrite to_umode_land.
  now rewrite !Z.land_spec, Z.lor_spec.
Qed.

(** Outside the file-type bits, the stored mode is [perm]. *)
Lemma sanitized_low (c : Z) :
  Z.land S_IFMT c = 0 -> Z.land (sanitized mode k) c = Z.land (perm_of mode k) c.
Proof.
  intros Hc. apply Z.bits_inj'. intros n Hn.
  rewrite !Z.land_spec, sanitized_bit, perm_of_bit by assumption.
  pose proof (bits_disjoint _ _ Hc n) as Hd.
  destruct (Z.testbit mode n), (Z.testbit S_IFMT n), (Z.testbit k n),
    (Z.testbit (Z.ones 16) n), (Z.testbit c n); cbn in *; congruence.
Qed.

Lemma sanitized_type :
  Z.land (sanitized mode k) S_IFMT = Z.land (to_umode mode) S_IFMT.
Proof.
  apply Z.bits_inj'. intros n Hn.
  rewrite to_umode_land, !Z.land_spec, sanitized_bit by assumption.
  destruct (Z.testbit mode n), (Z.testbit S_IFMT n),
    (Z.testbit (perm_of mode k) n), (Z.testbit (Z.ones 16) n); reflexivity.
Qed.

Lemma sanitized_masked :
  Z.land (Z.land (sanitized mode k) (Z.lnot S_IFMT)) k = 0.
Proof.
  apply Z.bits_inj'. intros n Hn.
  rewrite !Z.land_spec, Z.lnot_spec, sanitized_bit, perm_of_bit, Z.bits_0
    by assumption.
  destruct (Z.testbit mode n), (Z.testbit S_IFMT n), (Z.testbit k n),
    (Z.testbit (Z.ones 16) n); reflexivity.
Qed.

Lemma perm_of_sanitized : perm_of (sanitized mode k) k = perm_of mode k.
Proof.
  apply Z.bits_inj'. intros n Hn.
  rewrite (perm_of_bit n Hn). unfold perm_of at 1.
  rewrite to_umode_land, !Z.land_spec, Z.lnot_spec, Z.lor_spec, sanitized_bit
    by assumption.
  rewrite (perm_of_bit n Hn).
  destruct (Z.testbit mode n), (Z.testbit S_IFMT n), (Z.testbit k n),
    (Z.testbit (Z.ones 16) n); reflexivity.
Qed.

Lemma sanitized_fixed : sanitized (sanitized mode k) k = sanitized mode k.
Proof.
  unfold sanitized at 1. rewrite perm_of_sanitized.
  apply Z.bits_inj'. intros n Hn.
  rewrite to_umode_land, !Z.land_spec, Z.lor_spec, sanitized_bit by assumption.
  destruct (Z.testbit mode n), (Z.testbit S_IFMT n),
    (Z.testbit (perm_of mode k) n), (Z.testbit (Z.ones 16) n); reflexivity.
Qed.

End Sanitize.

(** [fat_sanitize_mode] as one test on [perm]. *)
Lemma fat_sanitize_mode_eq
    (sbi : FatAttr.msdos_sb_info) (i_mode : Z) (ro : bool) (mode : Z) :
  FatAttr.fat_sanitize_mode sbi i_mode ro mode
  = if FatAttr.passes i_mode ro (FatAttr.mask_of sbi i_mode)
         (FatAttr.perm_of mode (FatAttr.mask_of sbi i_mode))
    then (0, FatAttr.sanitized mode (FatAttr.mask_of sbi i_mode))
    else (- FatAttr.EPERM, mode).
Proof.
  unfold FatAttr.fat_sanitize_mode, FatAttr.passes, FatAttr.sanitized.
  fold (FatAttr.mask_of sbi i_mode).
  fold (FatAttr.perm_of mode (FatAttr.mask_of sbi i_mode)).
  destruct (_ =? Z.land i_mode _); cbn [negb andb]; [|reflexivity].
  destruct ro, (_ =? 0), (_ =? Z.land FatAttr.S_IWUGO _); reflexivity.
Qed.

(** X16: a mode that [fat_sanitize_mode] accepts is stored with the file
    type bits it came with, the read and execute bits of the inode, no bit
    of the mount mask outside the type bits, and write bits that are all
    those the mask leaves, or none when the inode can hold the read-only
    attribute. *)
Theorem fat_sanitize_mode_accepted
    (sbi : FatAttr.msdos_sb_info) (i_mode : Z) (can_hold_ro : bool)
    (mode mode' : Z) :
  FatAttr.fat_sanitize_mode sbi i_mode can_hold_ro mode = (0, mode') ->
  Z.land mode' FatAttr.S_IFMT = Z.land (FatAttr.to_umode mode) FatAttr.S_IFMT /\
  Z.land mode' (Z.lor FatAttr.S_IRUGO FatAttr.S_IXUGO)
  = Z.land i_mode (Z.lor FatAttr.S_IRUGO FatAttr.S_IXUGO) /\
  Z.land (Z.land mode' (Z.lnot FatAttr.S_IFMT)) (FatAttr.mask_of sbi i_mode) = 0 /\
  (Z.land mode' FatAttr.S_IWUGO
   = Z.land FatAttr.S_IWUGO (Z.lnot (FatAttr.mask_of sbi i_mode))
   \/ can_hold_ro = true /\ Z.land mode' FatAttr.S_IWUGO = 0).
Proof.
  rewrite fat_sanitize_mode_eq.
  destruct (FatAttr.passes _ _ _ _) eqn:Hp; [|discriminate].
  intros [= <-]. unfold FatAttr.passes in Hp.
  apply andb_true_iff in Hp as [Hrx Hw]. apply Z.eqb_eq in Hrx.
  split; [apply sanitized_type|].
  split; [rewrite sanitized_low by reflexivity; exact Hrx|].
  split; [apply sanitized_masked|].
  rewrite sanitized_low by reflexivity.
  apply orb_true_iff in Hw as [Hw|Hw].
  - left. now apply Z.eqb_eq.
  - right. apply andb_true_iff in Hw as [-> Hw]. split; [reflexivity|].
    now apply Z.eqb_eq.
Qed.

Lemma fat_sanitize_mode_accepted_witness :
  FatAttr.fat_sanitize_mode FatAlloc.sbi_4k 33261 true 33279 = (0, 33261) /\
  Z.land 33261 FatAttr.S_IWUGO
  = Z.land FatAttr.S_IWUGO (Z.lnot (FatAttr.mask_of FatAlloc.sbi_4k 33261)).
Proof.
  split; [reflexivity|].
  destruct (fat_sanitize_mode_accepted FatAlloc.sbi_4k 33261 true 33279 33261
              eq_refl) as (_ & _ & _ & [H | [_ H]]).
  - exact H.
  - discriminate H.
Defined.

(** X17: [fat_sanitize_mode] is idempotent: the mode it stored is accepted
    again for the same inode, and stored unchanged. *)
Theorem fat_sanitize_mode_idempotent
    (sbi : FatAttr.msdos_sb_info) (i_mode : Z) (can_hold_ro : bool)
    (mode mode' : Z) :
  FatAttr.fat_sanitize_mode sbi i_mode can_hold_ro mode = (0, mode') ->
  FatAttr.fat_sanitize_mode sbi i_mode can_hold_ro mode' = (0, mode').
Proof.
  rewrite !fat_sanitize_mode_eq.
  destruct (FatAttr.passes _ _ _ (FatAttr.perm_of mode _)) eqn:Hp; [|discriminate].
  intros [= <-].
  now rewrite perm_of_sanitized, Hp, sanitized_fixed.
Qed.

Lemma fat_sanitize_mode_idempotent_witness :
  FatAttr.fat_sanitize_mode FatAlloc.sbi_4k 33261 true 33133 = (0, 33133) /\
  FatAttr.fat_sanitize_mode FatAlloc.sbi_4k 33261 true 33279 = (0, 33261) /\
  FatAttr.fat_sanitize_mode FatAlloc.sbi_4k 33261 true 33261 = (0, 33261).
Proof.
  split; [reflexivity|]. split; [reflexivity|].
  apply (fat_sanitize_mode_idempotent FatAlloc.sbi_4k 33261 true 33279 33261).
  reflexivity.
Defined.

(** A request that [fat_sanitize_mode] refuses gets -EPERM and the
    mode is left as it was; this happens exactly when the read and execute
    bits asked for (outside the mask) differ from the inode's, or the
    write bits asked for are neither all those the mask leaves nor, for an
    inode that can hold the read-only attribute, none. *)
Lemma fat_sanitize_mode_refused
    (sbi : FatAttr.msdos_sb_info) (i_mode : Z) (can_hold_ro : bool) (mode : Z) :
  let k := FatAttr.mask_of sbi i_mode in
  let perm := Z.land (FatAttr.to_umode mode) (Z.lnot (Z.lor FatAttr.S_IFMT k)) in
  fst (FatAttr.fat_sanitize_mode sbi i_mode can_hold_ro mode) <> 0 <->
  FatAttr.fat_sanitize_mode sbi i_mode can_hold_ro mode = (- FatAttr.EPERM, mode) /\
  (Z.land perm (Z.lor FatAttr.S_IRUGO FatAttr.S_IXUGO)
   <> Z.land i_mode (Z.lor FatAttr.S_IRUGO FatAttr.S_IXUGO)
   \/ Z.land perm FatAttr.S_IWUGO <> Z.land FatAttr.S_IWUGO (Z.lnot k)
      /\ (can_hold_ro = true -> Z.land perm FatAttr.S_IWUGO <> 0)).
Proof.
  intros k perm.
  assert (Hperm : perm = FatAttr.perm_of mode k).
  { unfold perm, FatAttr.perm_of. rewrite !to_umode_land.
    rewrite <- !Z.land_assoc. f_equal. apply Z.land_comm. }
  rewrite fat_sanitize_mode_eq. fold k. rewrite <- Hperm.
  unfold FatAttr.passes.
  destruct (Z.eqb_spec (Z.land perm (Z.lor FatAttr.S_IRUGO FatAttr.S_IXUGO))
              (Z.land i_mode (Z.lor FatAttr.S_IRUGO FatAttr.S_IXUGO))) as [Hrx|Hrx];
    cbn [andb].
  2:{ cbn [fst]. split; [intros _; split; [reflexivity | left; exact Hrx]|].
      intros _. discriminate. }
  destruct (Z.eqb_spec (Z.land perm FatAttr.S_IWUGO)
              (Z.land FatAttr.S_IWUGO (Z.lnot k))) as [Hw|Hw]; cbn [orb].
  { cbn [fst]. split; [congruence|]. intros [_ [H|[H _]]]; contradiction. }
  destruct can_hold_ro; cbn [andb].
  - destruct (Z.eqb_spec (Z.land perm FatAttr.S_IWUGO) 0) as [H0|H0]; cbn [fst].
    + split; [congruence|]. intros [_ [H|[_ H]]]; [contradiction|].
      now specialize (H eq_refl).
    + split; [|discriminate]. intros _. split; [reflexivity|].
      right. split; [exact Hw | intros _; exact H0].
  - cbn [fst]. split; [|discriminate]. intros _. split; [reflexivity|].
    right. split; [exact Hw | discriminate].
Qed.

(** X18: somebody who is not the owner may set the times of a file exactly
    when the mount option [allow_utime] has the write bit of their class:
    020 for members of the file's group, 002 for everybody else; for the
    owner the function always leaves it to the default check. *)
Theorem fat_allow_set_time_bits
    (sbi : FatAttr.msdos_sb_info) (is_owner in_group : bool) :
  FatAttr.fat_allow_set_time sbi is_owner in_group
  = if negb is_owner
       && Z.testbit (FatAttr.allow_utime (FatAttr.options sbi))
            (if in_group then 4 else 1)
    then 1 else 0.
Proof.
  unfold FatAttr.fat_allow_set_time.
  destruct is_owner; cbn [negb andb]; [reflexivity|].
  set (a := FatAttr.allow_utime (FatAttr.options sbi)).
  assert (Hbit : forall v, (Z.land v FatAttr.MAY_WRITE =? 0) = negb (Z.testbit v 1)).
  { intros v. change FatAttr.MAY_WRITE with (Z.shiftl 1 1).
    destruct (Z.testbit v 1) eqn:Hv; cbn [negb].
    - apply Z.eqb_neq. intros H.
      apply (f_equal (fun x => Z.testbit x 1)) in H.
      rewrite Z.land_spec, Hv in H. discriminate H.
    - apply Z.eqb_eq. apply Z.bits_inj'. intros n Hn.
      rewrite Z.land_spec, Z.bits_0.
      destruct (Z.eq_dec n 1) as [->|Hne].
      + now rewrite Hv.
      + rewrite Z.shiftl_spec by assumption.
        replace (Z.testbit 1 (n - 1)) with false; [apply andb_false_r|].
        symmetry. destruct (Z.ltb_spec n 1).
        * apply Z.testbit_neg_r. lia.
        * change 1 with (Z.ones 1) at 1. apply Z.ones_spec_high. lia. }
  rewrite Hbit. destruct in_group.
  - rewrite to_umode_land, Z.land_spec, Z.shiftr_spec by lia.
    change (1 + 3) with 4. change (Z.testbit (Z.ones 16) 1) with true.
    rewrite andb_true_r. now destruct (Z.testbit a 4).
  - now destruct (Z.testbit a 1).
Qed.

(** ** [fat_fallocate] *)

Lemma to_s64_small (v : Z) : - 2 ^ 63 <= v < 2 ^ 63 -> FatAlloc.to_s64 v = v.
Proof.
  intros H. unfold FatAlloc.to_s64. rewrite Z.mod_small; lia.
Qed.

Lemma ceil_div_unique (m cs n : Z) :
  0 < cs -> (n - 1) * cs < m <= n * cs -> (m + cs - 1) / cs = n.
Proof.
  intros Hcs H. symmetry. apply (Z.div_unique _ _ _ (m + cs - 1 - cs * n)); lia.
Qed.

Section Kernel.

Import FatAttr FatAlloc.

Variable K : Type.
Variables i_mode i_size i_blocks : K -> Z.
Variable IS_SYNC : K -> bool.
Variable inode_lock inode_unlock : K -> K.
Variable generic_cont_expand_simple : K -> Z -> Z * K.
Variable fat_truncate_time_prfs : K -> Z -> K.
Variable mark_inode_dirty : K -> K.
Variable filemap_fdatawrite_range : K -> Z -> Z -> Z * K.
Variable sync_mapping_buffers : K -> Z * K.
Variable write_inode_now : K -> Z -> Z * K.
Variable filemap_fdatawait_range : K -> Z -> Z -> Z * K.
Variable fat_add_cluster : K -> Z * K.

#[local, warnings="-notation-for-abbreviation"]
Notation fat_cont_expand :=
  (fat_cont_expand K i_size IS_SYNC generic_cont_expand_simple
     fat_truncate_time_prfs mark_inode_dirty filemap_fdatawrite_range
     sync_mapping_buffers write_inode_now filemap_fdatawait_range).
#[local, warnings="-notation-for-abbreviation"]
Notation fat_fallocate :=
  (fat_fallocate K i_mode i_size i_blocks IS_SYNC inode_lock inode_unlock
     generic_cont_expand_simple fat_truncate_time_prfs mark_inode_dirty
     filemap_fdatawrite_range sync_mapping_buffers write_inode_now
     filemap_fdatawait_range fat_add_cluster).
#[local, warnings="-notation-for-abbreviation"]
Notation add_clusters := (add_clusters K fat_add_cluster).
#[local, warnings="-notation-for-abbreviation"]
Notation after := (after K fat_add_cluster).

Lemma after_S (j : nat) (k : K) :
  after (S j) k = after j (snd (fat_add_cluster k)).
Proof. unfold FatAlloc.after. now rewrite Nat.iter_succ_r. Qed.

(** X19: the allocation loop of [fat_fallocate] asks for clusters one by
    one and stops at the first request that fails, returning its error;
    when none of the [n] requests fails it returns 0 after exactly [n]
    of them. *)
Theorem add_clusters_first_failure (n : nat) (k : K) :
  (exists j, (j < n)%nat /\
     (forall i, (i < j)%nat -> fst (fat_add_cluster (after i k)) = 0) /\
     fst (fat_add_cluster (after j k)) <> 0 /\
     add_clusters n k = fat_add_cluster (after j k))
  \/ ((forall i, (i < n)%nat -> fst (fat_add_cluster (after i k)) = 0) /\
      add_clusters n k = (0, after n k)).
Proof.
  revert k. induction n as [|n IH]; intros k.
  - right. split; [intros i Hi; lia | reflexivity].
  - cbn [FatAlloc.add_clusters].
    destruct (fat_add_cluster k) as [err k1] eqn:Hk.
    destruct (Z.eqb_spec err 0) as [->|Herr]; cbn [negb].
    + assert (Hk1 : k1 = snd (fat_add_cluster k)) by now rewrite Hk.
      destruct (IH k1) as [(j & Hj & Hok & Hfail & Heq) | [Hok Heq]].
      * left. exists (S j). rewrite after_S, <- Hk1.
        split; [lia|]. split; [|split; assumption].
        intros [|i] Hi; [cbn; now rewrite Hk|].
        rewrite after_S, <- Hk1. apply Hok. lia.
      * right. rewrite after_S, <- Hk1. split; [|assumption].
        intros [|i] Hi; [cbn; now rewrite Hk|].
        rewrite after_S, <- Hk1. apply Hok. lia.
    + left. exists O. cbn. rewrite Hk.
      split; [lia|]. split; [intros i Hi; lia|]. split; [exact Herr | reflexivity].
Qed.

(** X20: with FALLOC_FL_KEEP_SIZE, on a regular file whose clusters have
    the size [2 ^ cluster_bits], a request that ends beyond the space on
    disk (512 bytes for each of [i_blocks]) runs the allocation loop for
    [n] clusters, the least number of clusters that covers the missing
    bytes, between taking and releasing the inode lock. *)
Theorem fat_fallocate_keep_size_clusters
    (sbi : msdos_sb_info) (k : K) (offset len n : Z) :
  S_ISREG (i_mode k) = true ->
  0 <= cluster_bits sbi < 32 ->
  cluster_size sbi = 2 ^ cluster_bits sbi ->
  0 <= i_blocks (inode_lock k) ->
  i_blocks (inode_lock k) * 512 < offset + len < 2 ^ 62 ->
  (n - 1) * cluster_size sbi
    < offset + len - i_blocks (inode_lock k) * 512 <= n * cluster_size sbi ->
  n < 2 ^ 31 ->
  fat_fallocate sbi k FALLOC_FL_KEEP_SIZE offset len
  = (fst (add_clusters (Z.to_nat n) (inode_lock k)),
     inode_unlock (snd (add_clusters (Z.to_nat n) (inode_lock k)))).
Proof.
  intros Hreg Hbits Hcs Hblk Hreq Hn Hint.
  unfold FatAlloc.fat_fallocate. rewrite Hreg.
  change (Z.land FALLOC_FL_KEEP_SIZE (Z.lnot FALLOC_FL_KEEP_SIZE) =? 0) with true.
  change (Z.land FALLOC_FL_KEEP_SIZE FALLOC_FL_KEEP_SIZE =? 0) with false.
  cbn [negb]. cbv zeta.
  set (disk := i_blocks (inode_lock k) * 512) in *.
  assert (Hcs0 : 0 < cluster_size sbi) by (rewrite Hcs; apply Z.pow_pos_nonneg; lia).
  assert (Hcs32 : cluster_size sbi <= 2 ^ 31).
  { rewrite Hcs. apply Z.pow_le_mono_r; lia. }
  assert (Hshl : Z.shiftl (i_blocks (inode_lock k)) 9 = disk).
  { rewrite Z.shiftl_mul_pow2 by lia. reflexivity. }
  rewrite Hshl.
  rewrite (to_s64_small disk) by lia.
  rewrite (to_s64_small (offset + len)) by lia.
  destruct (Z.leb_spec (offset + len) disk) as [Hle|_]; [lia|].
  rewrite (to_s64_small (offset + len - disk)) by lia.
  assert (Hu32 : to_u32 (cluster_size sbi - 1) = cluster_size sbi - 1).
  { unfold to_u32. apply Z.mod_small. lia. }
  rewrite Hu32.
  rewrite (to_s64_small (offset + len - disk + (cluster_size sbi - 1))) by lia.
  rewrite Z.shiftr_div_pow2 by lia. rewrite <- Hcs.
  replace (offset + len - disk + (cluster_size sbi - 1))
    with (offset + len - disk + cluster_size sbi - 1) by lia.
  rewrite (ceil_div_unique _ _ n Hcs0 Hn).
  assert (Hn0 : 0 <= n) by nia.
  rewrite to_int_small by lia.
  now destruct (add_clusters (Z.to_nat n) (inode_lock k)).
Qed.

(** X21: [fat_fallocate] releases the inode lock on every path that took
    it: whatever counts the lock depth, raised by [inode_lock], lowered by
    [inode_unlock] and left alone by the other helpers, is after the call
    what it was before, for every mode, offset and length and whatever the
    helpers return. *)
Theorem fat_fallocate_lock_balanced
    (held : K -> Z) (sbi : msdos_sb_info) (k : K) (mode offset len : Z) :
  (forall k, held (inode_lock k) = held k + 1) ->
  (forall k, held (inode_unlock k) = held k - 1) ->
  (forall size, keeps_r held (fun k => generic_cont_expand_simple k size)) ->
  (forall flags, keeps held (fun k => fat_truncate_time_prfs k flags)) ->
  keeps held mark_inode_dirty ->
  (forall a b, keeps_r held (fun k => filemap_fdatawrite_range k a b)) ->
  keeps_r held sync_mapping_buffers ->
  (forall sync, keeps_r held (fun k => write_inode_now k sync)) ->
  (forall a b, keeps_r held (fun k => filemap_fdatawait_range k a b)) ->
  keeps_r held fat_add_cluster ->
  held (snd (fat_fallocate sbi k mode offset len)) = held k.
Proof.
  intros Hlock Hunlock Hexp Htime Hdirty Hwrite Hbuf Hnow Hwait Hadd.
  assert (Hloop : forall n k, held (snd (add_clusters n k)) = held k).
  { induction n as [|n IH]; intros k0; [reflexivity|].
    cbn [FatAlloc.add_clusters]. pose proof (Hadd k0) as Hk0.
    destruct (fat_add_cluster k0) as [err k1]. cbn [snd] in Hk0.
    destruct (err =? 0); cbn [negb snd]; [|exact Hk0].
    now rewrite IH. }
  assert (Hce : forall k size, held (snd (fat_cont_expand k size)) = held k).
  { intros k0 size. unfold FatAlloc.fat_cont_expand.
    pose proof (Hexp size k0) as H1. cbn beta in H1.
    destruct (generic_cont_expand_simple k0 size) as [e1 k1]. cbn [snd] in H1.
    destruct (e1 =? 0); cbn [negb snd]; [|exact H1].
    set (k3 := mark_inode_dirty (fat_truncate_time_prfs k1 _)).
    assert (H3 : held k3 = held k0).
    { unfold k3. now rewrite Hdirty, (Htime _ k1). }
    clearbody k3.
    destruct (IS_SYNC k3); [|exact H3].
    match goal with |- context [filemap_fdatawrite_range k3 ?a ?b] =>
      pose proof (Hwrite a b k3) as H4; cbn beta in H4;
      destruct (filemap_fdatawrite_range k3 a b) as [e4 k4];
      pose proof (fun k => Hwait a b k) as Hwait'
    end.
    cbn [snd] in H4.
    pose proof (Hbuf k4) as H5.
    destruct (sync_mapping_buffers k4) as [e5 k5]. cbn [snd] in H5.
    pose proof (Hnow 1 k5) as H6. cbn beta in H6.
    destruct (write_inode_now k5 1) as [e6 k6]. cbn [snd] in H6.
    destruct (_ =? 0); cbn [snd]; [|congruence].
    rewrite Hwait'. congruence. }
  unfold FatAlloc.fat_fallocate.
  destruct (Z.land mode _ =? 0); cbn [negb snd]; [|reflexivity].
  destruct (S_ISREG (i_mode k)); cbn [negb snd]; [|reflexivity].
  cbv zeta.
  match goal with |- held (snd (match ?body with pair _ _ => _ end)) = _ =>
    assert (Hbody : held (snd body) = held (inode_lock k));
    [|destruct body as [err' k']; cbn [snd] in *;
      rewrite Hunlock, Hbody, Hlock; lia]
  end.
  destruct (Z.land mode FALLOC_FL_KEEP_SIZE =? 0); cbn [negb].
  - destruct (_ <=? _); [reflexivity | apply Hce].
  - destruct (_ <=? _); [reflexivity | apply Hloop].
Qed.

End Kernel.

Lemma fat_fallocate_keep_size_clusters_witness :
  FatAlloc.counting_fallocate 10 FatAlloc.sbi_4k
    {| FatAlloc.clusters := 2; FatAlloc.lock_depth := 0 |}
    FatAlloc.FALLOC_FL_KEEP_SIZE 8000 4289
  = (0, {| FatAlloc.clusters := 4; FatAlloc.lock_depth := 0 |}).
Proof.
  unfold FatAlloc.counting_fallocate.
  rewrite (fat_fallocate_keep_size_clusters _ _ _ _ _ _ _ _ _ _ _ _ _ _ _ _ _
             8000 4289 2).
  - reflexivity.
  - reflexivity.
  - cbn. lia.
  - reflexivity.
  - cbn. lia.
  - cbn. lia.
  - cbn. lia.
  - lia.
Defined.

Lemma fat_fallocate_lock_balanced_witness :
  FatAlloc.lock_depth
    (snd (FatAlloc.counting_fallocate 3 FatAlloc.sbi_4k
            {| FatAlloc.clusters := 2; FatAlloc.lock_depth := 0 |}
            FatAlloc.FALLOC_FL_KEEP_SIZE 8000 20000)) = 0 /\
  FatAlloc.counting_fallocate 3 FatAlloc.sbi_4k
    {| FatAlloc.clusters := 2; FatAlloc.lock_depth := 0 |}
    FatAlloc.FALLOC_FL_KEEP_SIZE 8000 20000
  = (- FatAlloc.ENOSPC, {| FatAlloc.clusters := 3; FatAlloc.lock_depth := 0 |}).
Proof.
  split; [|reflexivity].
  unfold FatAlloc.counting_fallocate.
  apply (fat_fallocate_lock_balanced _ _ _ _ _ _ _ _ _ _ _ _ _ _ _
           FatAlloc.lock_depth).
  1-9: unfold FatAlloc.keeps, FatAlloc.keeps_r; intros; reflexivity.
  intros s. unfold FatAlloc.counting_add_cluster.
  destruct (FatAlloc.clusters s <? 3); reflexivity.
Defined.
